(** * MOORA ranking methods of scikit-criteria: a shallow embedding

    The development follows [skcriteria/madm/moora.py]: the three scoring
    steps [_ratio], [_refpoint] and [_fmf], their public entry points
    [ratio], [refpoint], [fmf], and the Multi-MOORA aggregation
    [multimoora].

    - Numbers are real numbers ([R]); rounding, overflow and the special
      values of floating point are not modelled.  A 1-D array is a list, a
      2-D array the list of its rows; integer arrays (criteria, ranks) are
      lists of [Z] and of [nat].
    - Where numpy raises (shapes that do not broadcast, a reduction of
      nothing, an ambiguous truth value, an index out of bounds) the
      embedding stops with the corresponding [error].  Where numpy leaves the
      reals without raising (a division by zero, the logarithm of a
      non-positive entry, which yield inf or nan) the embedding stops as
      well, with [DivisionByZero] or [LogOfNonPositive]: there is no real
      result to go on with.
    - The normalizers [mnorm] and [wnorm] are arguments of the functions, as
      in the code; the package modules [norm], [util] and [rank] that
      [moora.py] imports are modelled from the specification. *)

From Stdlib Require Import Reals Lra Lia List ZArith Bool Arith.
From Stdlib Require String.
Import ListNotations.

Open Scope R_scope.

(** ** Outcomes *)

Inductive error : Type :=
| ValueError            (* numpy: shapes that do not broadcast, empty reduction,
                           ambiguous truth value of an array *)
| IndexError            (* numpy: index out of bounds *)
| InvalidCriteriaError  (* util.criteriarr: a value other than MAX / MIN *)
| DivisionByZero        (* the quotient is inf or nan in numpy *)
| LogOfNonPositive.     (* np.log yields -inf or nan in numpy *)

Inductive result (A : Type) : Type :=
| Ok (a : A)
| Err (e : error).

Arguments Ok {A} a.
Arguments Err {A} e.

Definition bind {A B : Type} (r : result A) (k : A -> result B) : result B :=
  match r with
  | Ok a => k a
  | Err e => Err e
  end.

Notation "x <- r ;; k" := (bind r (fun x => k))
  (at level 61, r at next level, right associativity).

Fixpoint mapM {A B : Type} (f : A -> result B) (l : list A) : result (list B) :=
  match l with
  | [] => Ok []
  | x :: xs => y <- f x ;; ys <- mapM f xs ;; Ok (y :: ys)
  end.

(** ** Arrays *)

Abbreviation vec := (list R) (only parsing).
Abbreviation matrix := (list (list R)) (only parsing).

(** [nweights] is the Python scalar [1] or a 1-D array. *)
Inductive weight_arg : Type :=
| Scalar (w : R)
| Vector (ws : vec).

Definition Rltb (x y : R) : bool := if Rlt_dec x y then true else false.
Definition Reqb (x y : R) : bool := if Req_dec_T x y then true else false.

Fixpoint map2 {A B C : Type} (f : A -> B -> C) (xs : list A) (ys : list B) : list C :=
  match xs, ys with
  | x :: xs', y :: ys' => f x y :: map2 f xs' ys'
  | _, _ => []
  end.

Definition Rsum (l : vec) : R := fold_right Rplus 0 l.

(** Reduction of a 2-D array along axis 0 by a binary operation: one value
    per column. *)
Definition reduce0 (f : R -> R -> R) (a : matrix) : vec :=
  match a with
  | [] => []
  | row :: rows => fold_left (map2 f) rows row
  end.

(** Reduction of a non-empty 1-D array. *)
Definition reduce1 (f : R -> R -> R) (x : R) (xs : vec) : R := fold_left f xs x.

(** [is_matrix n m a]: [a] is an array of shape (n, m). *)
Definition is_matrix (n m : nat) (a : matrix) : Prop :=
  length a = n /\ Forall (fun row => length row = m) a.

Definition positive (a : matrix) : Prop :=
  Forall (Forall (fun x => 0 < x)) a.

(** Entry (i, j) of a 2-D array and entry [i] of a 1-D array. *)
Definition entry (a : matrix) (i j : nat) : R := nth j (nth i a []) 0.
Definition at_ (v : vec) (i : nat) : R := nth i v 0.

Module np.

(** Element-wise binary operation on two 1-D arrays under numpy's
    broadcasting rule: equal lengths, or one of them of length one. *)
Definition broadcast2 {A B C : Type} (f : A -> B -> C)
    (xs : list A) (ys : list B) : result (list C) :=
  if Nat.eqb (length xs) (length ys) then Ok (map2 f xs ys)
  else match xs, ys with
       | [x], _ => Ok (map (f x) ys)
       | _, [y] => Ok (map (fun x => f x y) xs)
       | _, _ => Err ValueError
       end.

(** [w * v] for a scalar or 1-D [w] and a 1-D [v]. *)
Definition multiply (w : weight_arg) (v : vec) : result vec :=
  match w with
  | Scalar s => Ok (map (Rmult s) v)
  | Vector ws => broadcast2 Rmult ws v
  end.

(** [w * a] for a scalar or 1-D [w] and a 2-D [a]. *)
Definition multiply2 (w : weight_arg) (a : matrix) : result matrix :=
  match w with
  | Scalar s => Ok (map (map (Rmult s)) a)
  | Vector ws => mapM (fun row => broadcast2 Rmult ws row) a
  end.

(** [a - v] for a 2-D [a] and a 1-D [v]. *)
Definition subtract2 (a : matrix) (v : vec) : result matrix :=
  mapM (fun row => broadcast2 Rminus row v) a.

Definition dot (xs ys : vec) : R := Rsum (map2 Rmult xs ys).

(** [np.inner(a, b)] for a 2-D [a] and a 1-D [b]: the last dimensions must
    agree. *)
Definition inner (a : matrix) (b : vec) : result vec :=
  if forallb (fun row => Nat.eqb (length row) (length b)) a
  then Ok (map (fun row => dot row b) a)
  else Err ValueError.

(** [np.squeeze(np.asarray(v))] of a 1-D array.  A single score is kept as a
    one-element array, which is how the ranking reads it. *)
Definition squeeze (v : vec) : vec := v.

(** [np.max(a, axis=0)] and [np.min(a, axis=0)]: no rows, no maximum. *)
Definition max0 (a : matrix) : result vec :=
  match a with
  | [] => Err ValueError
  | _ :: _ => Ok (reduce0 Rmax a)
  end.

Definition min0 (a : matrix) : result vec :=
  match a with
  | [] => Err ValueError
  | _ :: _ => Ok (reduce0 Rmin a)
  end.

(** [np.max(a, axis=1)]: an empty row has no maximum. *)
Definition max_row (row : vec) : result R :=
  match row with
  | [] => Err ValueError
  | x :: xs => Ok (reduce1 Rmax x xs)
  end.

Definition max1 (a : matrix) : result vec := mapM max_row a.

Definition abs (a : matrix) : matrix := map (map Rabs) a.

(** [np.sum(a, axis=1)]. *)
Definition sum1 (a : matrix) : vec := map Rsum a.

(** [np.log(a)]: defined on the reals for positive entries only. *)
Definition log (a : matrix) : result matrix :=
  if forallb (forallb (Rltb 0)) a
  then Ok (map (map ln) a)
  else Err LogOfNonPositive.

(** [np.where(criteria == v, criteria, 0)]. *)
Definition where_eq (criteria : list Z) (v : Z) : list Z :=
  map (fun c => if Z.eqb c v then c else 0%Z) criteria.

(** [np.where(mask, xs, ys)] with [xs] and [ys] of one shape. *)
Definition where_ (mask : list Z) (xs ys : vec) : result vec :=
  broadcast2 (fun c (p : R * R) => if Z.eqb c 0 then snd p else fst p)
             mask (combine xs ys).

Fixpoint insert_unique (x : Z) (l : list Z) : list Z :=
  match l with
  | [] => [x]
  | y :: l' =>
      if Z.ltb x y then x :: l
      else if Z.eqb x y then l
      else y :: insert_unique x l'
  end.

(** [np.setdiff1d(ar1, ar2)]: the sorted, unique values of [ar1] that are not
    in [ar2]. *)
Definition setdiff1d (ar1 ar2 : list Z) : list Z :=
  fold_right insert_unique []
    (filter (fun x => negb (existsb (Z.eqb x) ar2)) ar1).

(** Truth value of an integer array, as [not arr] takes it: an empty array is
    false, a one-element array is its element, a longer one is ambiguous. *)
Definition truth (a : list Z) : result bool :=
  match a with
  | [] => Ok false
  | [x] => Ok (negb (Z.eqb x 0))
  | _ => Err ValueError
  end.

(** [np.ravel(np.argwhere(criteria == v))]. *)
Definition argwhere_eq (criteria : list Z) (v : Z) : list nat :=
  map fst (filter (fun p => Z.eqb (snd p) v)
                  (combine (seq 0 (length criteria)) criteria)).

(** The entries of [row] whose index is not listed in [obj]. *)
Definition keep (obj : list nat) (row : vec) : vec :=
  map snd (filter (fun p => negb (existsb (Nat.eqb (fst p)) obj))
                  (combine (seq 0 (length row)) row)).

Definition delete_row (obj : list nat) (row : vec) : result vec :=
  if forallb (fun k => Nat.ltb k (length row)) obj
  then Ok (keep obj row)
  else Err IndexError.

(** [np.delete(a, obj, axis=1)]: drop the columns listed in [obj]. *)
Definition delete1 (a : matrix) (obj : list nat) : result matrix :=
  mapM (delete_row obj) a.

(** [np.array(rows).T] for integer rows of one length. *)
Definition transpose (rows : list (list nat)) : list (list nat) :=
  match rows with
  | [] => []
  | r :: _ => map (fun j => map (fun row => nth j row 0%nat) rows)
                  (seq 0 (length r))
  end.

End np.

(** ** The modules [moora.py] imports

    [util], [norm] and [rank] are modules of the package whose sources are
    not part of the files at hand; they are modelled from the specification. *)

Module util.

(** Modelled from the spec: the constant [util.MAX], the direction "maximize"
    of a criterion, "+1". *)
Definition MAX : Z := 1.

(** Modelled from the spec: the constant [util.MIN], the direction "minimize"
    of a criterion, "-1". *)
Definition MIN : Z := (-1).

(** Modelled from the spec: [util.criteriarr], which "converts an iterable of
    markers into a canonical integer array with values restricted to exactly
    {MAX, MIN}" and "fails with an InvalidCriteriaError if any element is
    outside the two permitted values". *)
Definition criteriarr (criteria : list Z) : result (list Z) :=
  if forallb (fun c => Z.eqb c MAX || Z.eqb c MIN) criteria
  then Ok criteria
  else Err InvalidCriteriaError.

End util.

Module norm.

(** Modelled from the spec: [norm.vector] with [axis=0], which "divides each
    column by the Euclidean norm (square root of sum of squares) of that
    column" and "fails (division produces non-finite) if a column is all
    zeros". *)
Definition vector (a : matrix) : result matrix :=
  let norms := map sqrt (reduce0 Rplus (map (map (fun x => x * x)) a)) in
  if existsb (Reqb 0) norms then Err DivisionByZero
  else Ok (map (fun row => map2 Rdiv row norms) a).

(** Modelled from the spec: [norm.sum], which "divides a 1-D vector by the
    sum of its elements". *)
Definition sum (v : vec) : result vec :=
  if Reqb (Rsum v) 0 then Err DivisionByZero
  else Ok (map (fun x => x / Rsum v) v).

(** Modelled from the spec: [norm.push_negatives] with [axis=0]: "if the
    minimum value along the axis is negative, adds its absolute value to
    every element along that axis (per-column shift); otherwise leaves the
    matrix unchanged". *)
Definition push_negatives (a : matrix) : matrix :=
  let mins := reduce0 Rmin a in
  map (fun row => map2 (fun x mn => if Rltb mn 0 then x + Rabs mn else x) row mins) a.

(** Modelled from the spec: [norm.add1to0] with [axis=0]: "for any column
    whose minimum is exactly 0, adds 1 to every element in that column;
    columns with no zero are unchanged". *)
Definition add1to0 (a : matrix) : matrix :=
  let mins := reduce0 Rmin a in
  map (fun row => map2 (fun x mn => if Reqb mn 0 then x + 1 else x) row mins) a.

End norm.

Module rank.

(** Modelled from the spec: the order behind [rank.rankdata], "a stable sort
    by score then by original index".  [before reverse a j i]: alternative
    [j] comes strictly before alternative [i]. *)
Definition before (reverse : bool) (a : vec) (j i : nat) : bool :=
  (if reverse then Rltb (at_ a i) (at_ a j) else Rltb (at_ a j) (at_ a i))
  || (Reqb (at_ a j) (at_ a i) && Nat.ltb j i).

(** Modelled from the spec: [rank.rankdata(a, reverse=False)], which "returns
    zero-based ranks"; by default it "ranks ascending (smallest point value
    -> rank 0)", with [reverse=True] it "ranks descending (largest point
    value -> rank 0)"; ties are "broken by original index", "equivalent to a
    stable sort by score then by original index".  The rank of an
    alternative is the number of alternatives placed before it. *)
Definition rankdata (a : vec) (reverse : bool) : list nat :=
  map (fun i => length (filter (fun j => before reverse a j i) (seq 0 (length a))))
      (seq 0 (length a)).

(** Modelled from the spec: [rank.dominance(alt0, alt1)] on two rank
    vectors: "compute, component-wise, how many of the methods favor i vs
    favor j (lower rank value = favored)"; the value is positive exactly when
    the first alternative has the majority. *)
Definition dominance (alt0 alt1 : list nat) : Z :=
  (Z.of_nat (length (filter (fun p => Nat.ltb (fst p) (snd p)) (combine alt0 alt1)))
   - Z.of_nat (length (filter (fun p => Nat.ltb (snd p) (fst p)) (combine alt0 alt1))))%Z.

End rank.

(** ** [itertools] and indexing *)

(** [itertools.combinations(range(n), 2)]: the pairs (i, j), i < j < n, in
    lexicographic order. *)
Definition combinations2 (n : nat) : list (nat * nat) :=
  flat_map (fun i => map (pair i) (seq (S i) (n - S i))) (seq 0 n).

(** [l[k]]. *)
Definition getitem {A : Type} (l : list A) (k : nat) : result A :=
  match nth_error l k with
  | Some x => Ok x
  | None => Err IndexError
  end.

(** [l[k] += d]. *)
Fixpoint iadd (l : vec) (k : nat) (d : R) : result vec :=
  match l, k with
  | [], _ => Err IndexError
  | x :: l', O => Ok ((x + d) :: l')
  | x :: l', S k' => l'' <- iadd l' k' d ;; Ok (x :: l'')
  end.

Fixpoint foldM {A B : Type} (f : A -> B -> result A) (l : list B) (a : A) : result A :=
  match l with
  | [] => Ok a
  | x :: xs => a' <- f a x ;; foldM f xs a'
  end.

(** ** moora.py *)

Definition _ratio (nmtx : matrix) (criteria : list Z) (nweights : weight_arg)
  : result (list nat * vec) :=
  cweights <- np.multiply nweights (map IZR criteria) ;;
  (* calculate ranking by inner product *)
  rank_mtx <- np.inner nmtx cweights ;;
  let points := np.squeeze rank_mtx in
  Ok (rank.rankdata points true, points).

Definition ratio (mtx : matrix) (criteria : list Z) (weights : option vec)
    (mnorm : matrix -> result matrix) (wnorm : vec -> result vec)
  : result (list nat * vec) :=
  nmtx <- mnorm mtx ;;
  ncriteria <- util.criteriarr criteria ;;
  nweights <- match weights with
              | Some w => ws <- wnorm w ;; Ok (Vector ws)
              | None => Ok (Scalar 1)
              end ;;
  _ratio nmtx ncriteria nweights.

Definition _refpoint (nmtx : matrix) (criteria : list Z) (weights : weight_arg)
  : result (list nat * vec) :=
  (* max and min reference points *)
  rpmax <- np.max0 nmtx ;;
  rpmin <- np.min0 nmtx ;;
  (* merge two reference points according to criteria *)
  let mask := np.where_eq criteria util.MAX in
  rpoints <- np.where_ mask rpmax rpmin ;;
  (* create rank matrix *)
  diff <- np.subtract2 nmtx rpoints ;;
  wdiff <- np.multiply2 weights diff ;;
  rank_mtx <- np.max1 (np.abs wdiff) ;;
  let points := np.squeeze rank_mtx in
  Ok (rank.rankdata points false, points).

Definition refpoint (mtx : matrix) (criteria : list Z) (weights : option vec)
    (mnorm : matrix -> result matrix) (wnorm : vec -> result vec)
  : result (list nat * vec) :=
  nmtx <- mnorm mtx ;;
  ncriteria <- util.criteriarr criteria ;;
  nweights <- match weights with
              | Some w => ws <- wnorm w ;; Ok (Vector ws)
              | None => Ok (Scalar 1)
              end ;;
  _refpoint nmtx ncriteria nweights.

Definition _fmf (nmtx : matrix) (criteria : list Z) : result (list nat * vec) :=
  lmtx <- np.log nmtx ;;
  not_only_max <- np.truth (np.setdiff1d criteria [util.MAX]) ;;
  points <-
    (if negb not_only_max then
       (* only max *)
       Ok (np.sum1 lmtx)
     else
       not_only_min <- np.truth (np.setdiff1d criteria [util.MIN]) ;;
       if negb not_only_min then
         (* only min *)
         Ok (map (Rminus 1) (np.sum1 lmtx))
       else
         (* min max *)
         let min_mask := np.argwhere_eq criteria util.MAX in
         let max_mask := np.argwhere_eq criteria util.MIN in
         (* remove invalid values *)
         min_arr <- np.delete1 lmtx min_mask ;;
         max_arr <- np.delete1 lmtx max_mask ;;
         let mins := np.sum1 min_arr in
         let maxs := np.sum1 max_arr in
         Ok (map2 Rminus maxs mins)) ;;
  Ok (rank.rankdata points true, points).

Definition fmf (mtx : matrix) (criteria : list Z)
    (mnorm : matrix -> result matrix) : result (list nat * vec) :=
  let non_negative := norm.push_negatives mtx in
  let non_zero := norm.add1to0 non_negative in
  nmtx <- mnorm non_zero ;;
  ncriteria <- util.criteriarr criteria ;;
  _fmf nmtx ncriteria.

(** One turn of the loop of [multimoora]. *)
Definition vote (rank_mtx : list (list nat)) (points : vec) (idx : nat * nat)
  : result vec :=
  let '(idx0, idx1) := idx in
  alt0 <- getitem rank_mtx idx0 ;;
  alt1 <- getitem rank_mtx idx1 ;;
  let dom := rank.dominance alt0 alt1 in
  let dom_idx := if Z.ltb 0 dom then idx0 else idx1 in
  iadd points dom_idx 1.

(** The array [points] of [multimoora] when its loop is over. *)
Definition pairwise_points (rank_mtx : list (list nat)) : result vec :=
  let alternatives := length rank_mtx in
  let points := repeat 0 alternatives in
  foldM (vote rank_mtx) (combinations2 alternatives) points.

Definition multimoora (mtx : matrix) (criteria : list Z)
    (mnorm : matrix -> result matrix) : result (list nat * list (list nat)) :=
  nmtx <- mnorm mtx ;;
  ncriteria <- util.criteriarr criteria ;;
  ratio_rank <- _ratio nmtx ncriteria (Scalar 1) ;;
  refpoint_rank <- _refpoint nmtx ncriteria (Scalar 1) ;;
  fmf_rank <- _fmf nmtx ncriteria ;;
  let rank_mtx := np.transpose [fst ratio_rank; fst refpoint_rank; fst fmf_rank] in
  points <- pairwise_points rank_mtx ;;
  Ok (rank.rankdata points true, rank_mtx).

(** * Notions used in the statements *)

(** [better reverse x y]: score [x] is ranked ahead of score [y]. *)
Definition better (reverse : bool) (x y : R) : Prop :=
  if reverse then y < x else x < y.

(** [ranked reverse rnk pts]: [rnk] orders the alternatives by their scores
    [pts], ahead meaning smaller ([reverse = false]) or larger
    ([reverse = true]); rank 0 goes to an alternative no other is ahead of. *)
Definition ranked (reverse : bool) (rnk : list nat) (pts : vec) : Prop :=
  length rnk = length pts /\
  (forall i j, (i < length pts)%nat -> (j < length pts)%nat ->
     better reverse (at_ pts i) (at_ pts j) -> (nth i rnk 0 < nth j rnk 0)%nat) /\
  (forall i, (i < length pts)%nat -> nth i rnk 0%nat = 0%nat ->
     forall j, (j < length pts)%nat -> ~ better reverse (at_ pts j) (at_ pts i)) /\
  (forall i, (i < length pts)%nat ->
     (forall j, (j < length pts)%nat -> j <> i -> better reverse (at_ pts i) (at_ pts j)) ->
     nth i rnk 0%nat = 0%nat) /\
  ((1 <= length pts)%nat -> exists i, (i < length pts)%nat /\ nth i rnk 0%nat = 0%nat).

(** The sum of [f 0], ..., [f (m - 1)]. *)
Fixpoint sum_upto (m : nat) (f : nat -> R) : R :=
  match m with
  | O => 0
  | S k => sum_upto k f + f k
  end.

(** A weight argument fits [m] criteria. *)
Definition weights_ok (m : nat) (w : weight_arg) : Prop :=
  match w with
  | Scalar _ => True
  | Vector ws => length ws = m
  end.

(** The weight of criterion [j]. *)
Definition weight_of (w : weight_arg) (j : nat) : R :=
  match w with
  | Scalar s => s
  | Vector ws => at_ ws j
  end.

(** The array [cweights] of [_ratio] when the shapes agree. *)
Definition cweights_of (w : weight_arg) (criteria : list Z) : vec :=
  match w with
  | Scalar s => map (Rmult s) (map IZR criteria)
  | Vector ws => map2 Rmult ws (map IZR criteria)
  end.

(** The value of a non-empty reduction, 0 standing for the empty one. *)
Definition reduce_list (f : R -> R -> R) (l : list R) : R :=
  match l with
  | [] => 0
  | x :: xs => reduce1 f x xs
  end.

(** [v] is the largest (smallest) of [f 0], ..., [f (m - 1)]. *)
Definition is_max_of (v : R) (m : nat) (f : nat -> R) : Prop :=
  (exists j, (j < m)%nat /\ f j = v) /\ forall j, (j < m)%nat -> f j <= v.

Definition is_min_of (v : R) (m : nat) (f : nat -> R) : Prop :=
  (exists j, (j < m)%nat /\ f j = v) /\ forall j, (j < m)%nat -> v <= f j.

(** The arrays [rpoints] and [points] of [_refpoint] when the shapes agree. *)
Definition reference_of (nmtx : matrix) (criteria : list Z) : vec :=
  map2 (fun c (p : R * R) => if Z.eqb c 0 then snd p else fst p)
       (np.where_eq criteria util.MAX)
       (combine (reduce0 Rmax nmtx) (reduce0 Rmin nmtx)).

Definition weighted_row (w : weight_arg) (row : vec) : vec :=
  match w with
  | Scalar s => map (Rmult s) row
  | Vector ws => map2 Rmult ws row
  end.

Definition deviation_row (nmtx : matrix) (criteria : list Z) (w : weight_arg)
    (row : vec) : vec :=
  map Rabs (weighted_row w (map2 Rminus row (reference_of nmtx criteria))).

Definition refpoint_points (nmtx : matrix) (criteria : list Z) (w : weight_arg) : vec :=
  map (fun row => reduce_list Rmax (deviation_row nmtx criteria w row)) nmtx.

(** Every criterion is MAX or MIN. *)
Definition criteria_ok (criteria : list Z) : Prop :=
  Forall (fun c => c = util.MAX \/ c = util.MIN) criteria.

(** The sum, over the columns whose criterion is [v], of the logarithms of
    row [i]. *)
Definition log_sum_where (v : Z) (criteria : list Z) (nmtx : matrix) (i : nat) : R :=
  sum_upto (length criteria)
    (fun j => if Z.eqb (nth j criteria 0%Z) v then ln (entry nmtx i j) else 0).

(** The general (mixed) formula of the full multiplicative form, after the
    specification: "(row-sum of logs over MAX columns) - (row-sum of logs
    over MIN columns)". *)
Definition mixed_formula (criteria : list Z) (nmtx : matrix) (i : nat) : R :=
  log_sum_where util.MAX criteria nmtx i - log_sum_where util.MIN criteria nmtx i.

(** The array [points] of the "min max" branch of [_fmf]. *)
Definition mixed_points (nmtx : matrix) (criteria : list Z) : vec :=
  map2 Rminus
    (np.sum1 (map (np.keep (np.argwhere_eq criteria util.MIN)) (map (map ln) nmtx)))
    (np.sum1 (map (np.keep (np.argwhere_eq criteria util.MAX)) (map (map ln) nmtx))).

(** The scores of the general formula, one per alternative. *)
Definition mixed_scores (criteria : list Z) (nmtx : matrix) : vec :=
  map (mixed_formula criteria nmtx) (seq 0 (length nmtx)).

(** C3, as the specification states it: the special cases give the scores of
    the general formula. *)
Definition special_cases_agree (nmtx : matrix) (criteria : list Z) : Prop :=
  exists rnk points,
    _fmf nmtx criteria = Ok (rnk, points) /\
    forall i, (i < length nmtx)%nat -> at_ points i = mixed_formula criteria nmtx i.

(** Rank 0 is for the smallest score. *)
Definition ranks_ascending (rnk : list nat) (pts : vec) : Prop :=
  length rnk = length pts /\
  (forall i j, (i < length pts)%nat -> (j < length pts)%nat ->
     at_ pts i < at_ pts j -> (nth i rnk 0 < nth j rnk 0)%nat) /\
  ((1 <= length pts)%nat -> exists i, (i < length pts)%nat /\ nth i rnk 0%nat = 0%nat) /\
  (forall i, (i < length pts)%nat -> nth i rnk 0%nat = 0%nat ->
     forall j, (j < length pts)%nat -> at_ pts i <= at_ pts j) /\
  (forall i, (i < length pts)%nat ->
     (forall j, (j < length pts)%nat -> j <> i -> at_ pts i < at_ pts j) ->
     nth i rnk 0%nat = 0%nat).

(** Rank 0 is for the largest score. *)
Definition ranks_descending (rnk : list nat) (pts : vec) : Prop :=
  length rnk = length pts /\
  (forall i j, (i < length pts)%nat -> (j < length pts)%nat ->
     at_ pts i > at_ pts j -> (nth i rnk 0 < nth j rnk 0)%nat) /\
  ((1 <= length pts)%nat -> exists i, (i < length pts)%nat /\ nth i rnk 0%nat = 0%nat) /\
  (forall i, (i < length pts)%nat -> nth i rnk 0%nat = 0%nat ->
     forall j, (j < length pts)%nat -> at_ pts i >= at_ pts j) /\
  (forall i, (i < length pts)%nat ->
     (forall j, (j < length pts)%nat -> j <> i -> at_ pts i > at_ pts j) ->
     nth i rnk 0%nat = 0%nat).

(** The alternative that takes the point of the pair [(idx0, idx1)]. *)
Definition winner (rank_mtx : list (list nat)) (idx : nat * nat) : nat :=
  if Z.ltb 0 (rank.dominance (nth (fst idx) rank_mtx []) (nth (snd idx) rank_mtx []))
  then fst idx else snd idx.

(** The number of pairs of [pairs] that alternative [k] wins. *)
Definition pairs_won (rank_mtx : list (list nat)) (pairs : list (nat * nat)) (k : nat) : nat :=
  length (filter (fun idx => Nat.eqb (winner rank_mtx idx) k) pairs).

(** A valid input of the aggregation, after normalization: an (n, m)
    matrix of positive entries, n >= 1, m >= 1, with m criteria MAX / MIN. *)
Definition valid_input (n m : nat) (nmtx : matrix) (criteria : list Z) : Prop :=
  is_matrix n m nmtx /\ (1 <= n)%nat /\ (1 <= m)%nat /\ positive nmtx /\
  length criteria = m /\ criteria_ok criteria.

(** Column [c] of a rank matrix. *)
Definition rank_column (c : nat) (rank_mtx : list (list nat)) : list nat :=
  map (fun row => nth c row 0%nat) rank_mtx.

(** Row [i] of the rank matrix made of three rank vectors. *)
Definition rank_row (ratio_rank refpoint_rank fmf_rank : list nat) (i : nat) : list nat :=
  [nth i ratio_rank 0; nth i refpoint_rank 0; nth i fmf_rank 0]%nat.

(** Shapes, signs and criteria of concrete arrays. *)
Ltac shape := split; [reflexivity | repeat constructor].
Ltac all_positive := unfold positive; repeat constructor; lra.
Ltac all_criteria :=
  unfold criteria_ok; repeat (apply Forall_cons; [auto|]); apply Forall_nil.

(** * Notions used in the further properties *)

(** [beats rank_mtx i j]: the dominance value of the rank vectors of the
    alternatives [i] and [j] is strictly positive. *)
Definition beats (rank_mtx : list (list nat)) (i j : nat) : bool :=
  Z.ltb 0 (rank.dominance (nth i rank_mtx []) (nth j rank_mtx [])).

(** [shift_columns t a]: the matrix [a] with [t[j]] added to column [j]. *)
Definition shift_columns (t : vec) (a : matrix) : matrix :=
  map (fun row => map2 Rplus row t) a.

(** The product of [f 0], ..., [f (m - 1)]. *)
Fixpoint prod_upto (m : nat) (f : nat -> R) : R :=
  match m with
  | O => 1
  | S k => prod_upto k f * f k
  end.

(** The product, over the columns whose criterion is [v], of the entries of
    row [i]. *)
Definition product_where (v : Z) (criteria : list Z) (nmtx : matrix) (i : nat) : R :=
  prod_upto (length criteria)
    (fun j => if Z.eqb (nth j criteria 0%Z) v then entry nmtx i j else 1).

(** The constant by which the "only min" branch of [_fmf] departs from the
    general formula. *)
Definition fmf_offset (criteria : list Z) : R :=
  if existsb (Z.eqb util.MAX) criteria then 0
  else match criteria with
       | [] => 0
       | _ :: _ => 1
       end.

(** [scale_columns s a]: the matrix [a] with column [j] multiplied by
    [s[j]]. *)
Definition scale_columns (s : vec) (a : matrix) : matrix :=
  map (fun row => map2 Rmult row s) a.

(** ** The decision makers of [moora.py]

    The four subclasses of [DecisionMaker]; [solve] does not use [self].  It
    returns a triple: [None], the rank vector, and a dict with one key. *)

(** A value of the dict that [solve] returns: an array of scores or a rank
    matrix. *)
Inductive value : Type :=
| Scores (points : vec)
| Ranks (rank_mtx : list (list nat)).

Module RatioMOORA.
Import String.

Definition solve (mtx : matrix) (criteria : list Z) (weights : option vec)
  : result (option (list nat) * list nat * list (string * value)) :=
  r <- ratio mtx criteria weights norm.vector norm.sum ;;
  let '(rank, points) := r in
  Ok (None, rank, [("points"%string, Scores points)]).

End RatioMOORA.

Module RefPointMOORA.
Import String.

Definition solve (mtx : matrix) (criteria : list Z) (weights : option vec)
  : result (option (list nat) * list nat * list (string * value)) :=
  r <- refpoint mtx criteria weights norm.vector norm.sum ;;
  let '(rank, points) := r in
  Ok (None, rank, [("points"%string, Scores points)]).

End RefPointMOORA.

Module FMFMOORA.
Import String.

Definition solve (mtx : matrix) (criteria : list Z) (weights : option vec)
  : result (option (list nat) * list nat * list (string * value)) :=
  r <- fmf mtx criteria norm.vector ;;
  let '(rank, points) := r in
  Ok (None, rank, [("points"%string, Scores points)]).

End FMFMOORA.

Module MultiMOORA.
Import String.

Definition solve (mtx : matrix) (criteria : list Z) (weights : option vec)
  : result (option (list nat) * list nat * list (string * value)) :=
  r <- multimoora mtx criteria norm.vector ;;
  let '(rank, rank_mtx) := r in
  Ok (None, rank, [("rank_mtx"%string, Ranks rank_mtx)]).

End MultiMOORA.

(** [at_least_as_good criteria nmtx a b]: alternative [a] is no worse than
    alternative [b] on every criterion: not smaller where the criterion is
    MAX, not larger otherwise. *)
Definition at_least_as_good (criteria : list Z) (nmtx : matrix) (a b : nat) : Prop :=
  forall j, (j < length criteria)%nat ->
    if Z.eqb (nth j criteria 0%Z) util.MAX
    then entry nmtx b j <= entry nmtx a j
    else entry nmtx a j <= entry nmtx b j.

(** * Properties *)

(** ** Comparisons, monadic helpers and lists *)

Lemma Rltb_true (x y : R) : Rltb x y = true <-> x < y.
Proof. unfold Rltb; destruct (Rlt_dec x y); split; intros; try easy. Qed.

Lemma Rltb_false (x y : R) : Rltb x y = false <-> y <= x.
Proof. unfold Rltb; destruct (Rlt_dec x y); split; intros; try easy; lra. Qed.

Lemma Reqb_true (x y : R) : Reqb x y = true <-> x = y.
Proof. unfold Reqb; destruct (Req_dec_T x y); split; intros; try easy. Qed.

Lemma Reqb_false (x y : R) : Reqb x y = false <-> x <> y.
Proof. unfold Reqb; destruct (Req_dec_T x y); split; intros; try easy. Qed.

Lemma mapM_map {A B : Type} (f : A -> result B) (g : A -> B) (l : list A) :
  (forall x, In x l -> f x = Ok (g x)) -> mapM f l = Ok (map g l).
Proof.
  induction l as [|x l IH]; intros H; simpl; [reflexivity|].
  rewrite (H x (or_introl eq_refl)); simpl.
  rewrite IH by (intros y Hy; apply H; now right).
  reflexivity.
Qed.

Lemma length_map2 {A B C : Type} (f : A -> B -> C) (xs : list A) (ys : list B) :
  length xs = length ys -> length (map2 f xs ys) = length xs.
Proof.
  revert ys; induction xs as [|x xs IH]; intros [|y ys] H; simpl in *;
    try discriminate; auto.
Qed.

Lemma nth_map2 {A B C : Type} (f : A -> B -> C) (xs : list A) (ys : list B)
    (j : nat) (da : A) (db : B) (dc : C) :
  length xs = length ys -> (j < length xs)%nat ->
  nth j (map2 f xs ys) dc = f (nth j xs da) (nth j ys db).
Proof.
  revert ys j; induction xs as [|x xs IH]; intros [|y ys] j H Hj; simpl in *;
    try discriminate; try lia.
  destruct j as [|j]; [reflexivity|]. apply IH; lia.
Qed.

Lemma nth_map_in {A B : Type} (f : A -> B) (l : list A) (j : nat) (d : B) (d' : A) :
  (j < length l)%nat -> nth j (map f l) d = f (nth j l d').
Proof.
  intros Hj. rewrite (nth_indep _ d (f d')) by now rewrite length_map.
  apply map_nth.
Qed.

Lemma filter_length_le {A : Type} (p q : A -> bool) (l : list A) :
  (forall x, In x l -> p x = true -> q x = true) ->
  (length (filter p l) <= length (filter q l))%nat.
Proof.
  induction l as [|x l IH]; intros H; simpl; [lia|].
  assert (IH' := IH (fun y Hy => H y (or_intror Hy))).
  destruct (p x) eqn:Hp.
  - rewrite (H x (or_introl eq_refl) Hp). simpl. lia.
  - destruct (q x); simpl; lia.
Qed.

Lemma filter_length_lt {A : Type} (p q : A -> bool) (l : list A) (w : A) :
  (forall x, In x l -> p x = true -> q x = true) ->
  In w l -> p w = false -> q w = true ->
  (length (filter p l) < length (filter q l))%nat.
Proof.
  induction l as [|x l IH]; intros H Hw Hp Hq; simpl; [destruct Hw|].
  assert (Hle := filter_length_le p q l (fun y Hy => H y (or_intror Hy))).
  destruct Hw as [->|Hw].
  - rewrite Hp, Hq. simpl. lia.
  - assert (IH' := IH (fun y Hy => H y (or_intror Hy)) Hw Hp Hq).
    destruct (p x) eqn:Hpx.
    + rewrite (H x (or_introl eq_refl) Hpx). simpl. lia.
    + destruct (q x); simpl; lia.
Qed.

Lemma filter_nil_iff {A : Type} (p : A -> bool) (l : list A) :
  length (filter p l) = 0%nat <-> (forall x, In x l -> p x = false).
Proof.
  induction l as [|x l IH]; simpl; [easy|].
  destruct (p x) eqn:Hp; simpl; split.
  - discriminate.
  - intros H. rewrite (H x (or_introl eq_refl)) in Hp. discriminate.
  - intros H y [<-|Hy]; [assumption|]. now apply IH.
  - intros H. apply IH. intros y Hy. apply H. now right.
Qed.

(** ** The ranking (modelled [rank.rankdata]) *)

Lemma before_iff (reverse : bool) (a : vec) (j i : nat) :
  rank.before reverse a j i = true <->
  better reverse (at_ a j) (at_ a i) \/ (at_ a j = at_ a i /\ (j < i)%nat).
Proof.
  unfold rank.before, better.
  rewrite orb_true_iff, andb_true_iff, Reqb_true, Nat.ltb_lt.
  destruct reverse; rewrite Rltb_true; tauto.
Qed.

Lemma before_irrefl (reverse : bool) (a : vec) (i : nat) :
  rank.before reverse a i i = false.
Proof.
  destruct (rank.before reverse a i i) eqn:H; [|reflexivity].
  apply before_iff in H. unfold better in H. destruct reverse; destruct H as [H|[_ H]]; lra || lia.
Qed.

Lemma before_trans (reverse : bool) (a : vec) (k j i : nat) :
  rank.before reverse a k j = true -> rank.before reverse a j i = true ->
  rank.before reverse a k i = true.
Proof.
  rewrite !before_iff. unfold better.
  destruct reverse; intros [H1|[H1 L1]] [H2|[H2 L2]];
    try (left; lra); right; split; lra || lia.
Qed.

Lemma rankdata_length (a : vec) (reverse : bool) :
  length (rank.rankdata a reverse) = length a.
Proof. unfold rank.rankdata. now rewrite length_map, length_seq. Qed.

Lemma rankdata_nth (a : vec) (reverse : bool) (i : nat) :
  (i < length a)%nat ->
  nth i (rank.rankdata a reverse) 0%nat =
  length (filter (fun j => rank.before reverse a j i) (seq 0 (length a))).
Proof.
  intros Hi. unfold rank.rankdata.
  rewrite (nth_indep _ 0%nat ((fun i => length (filter (fun j => rank.before reverse a j i)
                                 (seq 0 (length a)))) 0%nat))
    by now rewrite length_map, length_seq.
  rewrite (map_nth (fun i => length (filter (fun j => rank.before reverse a j i)
                                 (seq 0 (length a))))).
  now rewrite seq_nth.
Qed.

Lemma rankdata_before (a : vec) (reverse : bool) (i j : nat) :
  (i < length a)%nat -> (j < length a)%nat ->
  rank.before reverse a i j = true ->
  (nth i (rank.rankdata a reverse) 0 < nth j (rank.rankdata a reverse) 0)%nat.
Proof.
  intros Hi Hj H. rewrite !rankdata_nth by assumption.
  apply filter_length_lt with (w := i).
  - intros k _ Hk. now apply before_trans with i.
  - apply in_seq. lia.
  - apply before_irrefl.
  - assumption.
Qed.

(** Some alternative has nothing before it. *)
Lemma before_minimal (reverse : bool) (a : vec) (n : nat) :
  (1 <= n)%nat ->
  exists i, (i < n)%nat /\ forall j, (j < n)%nat -> rank.before reverse a j i = false.
Proof.
  induction n as [|n IH]; intros Hn; [lia|].
  destruct n as [|n].
  - exists 0%nat. split; [lia|]. intros j Hj. replace j with 0%nat by lia.
    apply before_irrefl.
  - destruct IH as [i [Hi Hmin]]; [lia|].
    destruct (rank.before reverse a (S n) i) eqn:E.
    + exists (S n). split; [lia|]. intros j Hj.
      destruct (Nat.eq_dec j (S n)) as [->|Hne]; [apply before_irrefl|].
      destruct (rank.before reverse a j (S n)) eqn:E2; [|reflexivity].
      assert (rank.before reverse a j i = true) by now apply before_trans with (S n).
      rewrite Hmin in H by lia. discriminate.
    + exists i. split; [lia|]. intros j Hj.
      destruct (Nat.eq_dec j (S n)) as [->|Hne]; [assumption|].
      apply Hmin. lia.
Qed.

Lemma rankdata_ranked (pts : vec) (reverse : bool) :
  ranked reverse (rank.rankdata pts reverse) pts.
Proof.
  unfold ranked. split; [apply rankdata_length|]. split; [|split; [|split]].
  - intros i j Hi Hj H. apply rankdata_before; try assumption.
    apply before_iff. now left.
  - intros i Hi H0 j Hj Hb. rewrite rankdata_nth in H0 by assumption.
    rewrite filter_nil_iff in H0.
    assert (E : rank.before reverse pts j i = false) by (apply H0, in_seq; lia).
    assert (T : rank.before reverse pts j i = true) by (apply before_iff; now left).
    congruence.
  - intros i Hi H. rewrite rankdata_nth by assumption. apply filter_nil_iff.
    intros j Hj. apply in_seq in Hj.
    destruct (Nat.eq_dec j i) as [->|Hne]; [apply before_irrefl|].
    destruct (rank.before reverse pts j i) eqn:E; [|reflexivity].
    apply before_iff in E. specialize (H j ltac:(lia) Hne).
    unfold better in *. destruct reverse; destruct E as [E|[E _]]; lra.
  - intros Hn. destruct (before_minimal reverse pts (length pts) Hn) as [i [Hi Hmin]].
    exists i. split; [assumption|]. rewrite rankdata_nth by assumption.
    apply filter_nil_iff. intros j Hj. apply Hmin. apply in_seq in Hj. lia.
Qed.

(** ** Shapes and broadcasting *)

Lemma broadcast2_same {A B C : Type} (f : A -> B -> C) (xs : list A) (ys : list B) :
  length xs = length ys -> np.broadcast2 f xs ys = Ok (map2 f xs ys).
Proof. intros H. unfold np.broadcast2. now rewrite H, Nat.eqb_refl. Qed.

Lemma is_matrix_row (n m : nat) (a : matrix) (i : nat) :
  is_matrix n m a -> (i < n)%nat -> length (nth i a []) = m.
Proof.
  intros [Hn Hm] Hi. rewrite Forall_forall in Hm. apply Hm, nth_In. lia.
Qed.

Lemma is_matrix_in (n m : nat) (a : matrix) (row : vec) :
  is_matrix n m a -> In row a -> length row = m.
Proof. intros [_ Hm] Hin. rewrite Forall_forall in Hm. now apply Hm. Qed.

Lemma at_map {A : Type} (f : A -> R) (l : list A) (d : A) (i : nat) :
  (i < length l)%nat -> at_ (map f l) i = f (nth i l d).
Proof.
  intros Hi. unfold at_.
  rewrite (nth_indep _ 0 (f d)) by now rewrite length_map.
  apply map_nth.
Qed.

Lemma sum_upto_ext (m : nat) (f g : nat -> R) :
  (forall j, (j < m)%nat -> f j = g j) -> sum_upto m f = sum_upto m g.
Proof.
  induction m as [|m IH]; intros H; simpl; [reflexivity|].
  rewrite IH by (intros j Hj; apply H; lia). rewrite H by lia. reflexivity.
Qed.

Lemma sum_upto_shift (m : nat) (f : nat -> R) :
  sum_upto (S m) f = f 0%nat + sum_upto m (fun j => f (S j)).
Proof.
  induction m as [|m IH]; [simpl; lra|].
  change (sum_upto (S (S m)) f) with (sum_upto (S m) f + f (S m)).
  rewrite IH. simpl. lra.
Qed.

Lemma Rsum_sum_upto (l : vec) :
  Rsum l = sum_upto (length l) (fun j => nth j l 0).
Proof.
  induction l as [|x l IH]; [reflexivity|].
  change (length (x :: l)) with (S (length l)). rewrite sum_upto_shift.
  change (Rsum (x :: l)) with (x + Rsum l). rewrite IH. reflexivity.
Qed.

Lemma dot_sum_upto (m : nat) (xs ys : vec) :
  length xs = m -> length ys = m ->
  np.dot xs ys = sum_upto m (fun j => nth j xs 0 * nth j ys 0).
Proof.
  intros Hx Hy. unfold np.dot. rewrite Rsum_sum_upto.
  rewrite length_map2 by congruence. rewrite Hx.
  apply sum_upto_ext. intros j Hj.
  apply nth_map2; [congruence|lia].
Qed.

(** ** Ratio *)

Lemma cweights_of_length (m : nat) (w : weight_arg) (criteria : list Z) :
  length criteria = m -> weights_ok m w -> length (cweights_of w criteria) = m.
Proof.
  intros Hc Hw. destruct w as [s|ws]; simpl in *.
  - now rewrite !length_map.
  - rewrite length_map2; [assumption|]. now rewrite length_map, Hc.
Qed.

Lemma cweights_of_nth (m : nat) (w : weight_arg) (criteria : list Z) (j : nat) :
  length criteria = m -> weights_ok m w -> (j < m)%nat ->
  nth j (cweights_of w criteria) 0 = weight_of w j * IZR (nth j criteria 0%Z).
Proof.
  intros Hc Hw Hj. destruct w as [s|ws]; simpl in *.
  - rewrite (nth_indep _ 0 (s * 0)) by (rewrite !length_map; lia).
    rewrite (map_nth (Rmult s)). f_equal.
    apply (map_nth IZR).
  - rewrite (nth_map2 Rmult ws (map IZR criteria) j 0 0 0);
      [|rewrite length_map; congruence|lia].
    unfold at_. f_equal.
    apply (map_nth IZR).
Qed.

Lemma inner_ok (n m : nat) (a : matrix) (b : vec) :
  is_matrix n m a -> length b = m ->
  np.inner a b = Ok (map (fun row => np.dot row b) a).
Proof.
  intros Ha Hb. unfold np.inner.
  replace (forallb _ a) with true; [reflexivity|].
  symmetry. apply forallb_forall. intros row Hrow.
  apply Nat.eqb_eq. rewrite (is_matrix_in n m a row Ha Hrow). congruence.
Qed.

Lemma _ratio_ok (n m : nat) (nmtx : matrix) (criteria : list Z) (w : weight_arg) :
  is_matrix n m nmtx -> length criteria = m -> weights_ok m w ->
  let points := map (fun row => np.dot row (cweights_of w criteria)) nmtx in
  _ratio nmtx criteria w = Ok (rank.rankdata points true, points).
Proof.
  intros Ha Hc Hw points. unfold _ratio.
  assert (E : np.multiply w (map IZR criteria) = Ok (cweights_of w criteria)).
  { destruct w as [s|ws]; simpl in *; [reflexivity|].
    apply broadcast2_same. now rewrite length_map, Hc. }
  rewrite E. simpl.
  rewrite (inner_ok n m) by (auto using cweights_of_length). reflexivity.
Qed.

(** C5. For an (n, m) matrix N, m criteria C and m weights W, the ratio step
    returns, for each alternative i, the score
    sum over the columns j of N[i,j] * W[j] * C[j]: the inner product of row i
    with the element-wise product W * C. *)
Theorem ratio_score_is_inner_product
    (n m : nat) (nmtx : matrix) (criteria : list Z) (ws : vec) :
  is_matrix n m nmtx -> length criteria = m -> length ws = m ->
  exists rnk points,
    _ratio nmtx criteria (Vector ws) = Ok (rnk, points) /\
    length points = n /\
    forall i, (i < n)%nat ->
      at_ points i =
      sum_upto m (fun j => entry nmtx i j * at_ ws j * IZR (nth j criteria 0%Z)).
Proof.
  intros Ha Hc Hw.
  eexists _, _. split; [apply (_ratio_ok n m); simpl; auto|].
  split; [rewrite length_map; apply Ha|].
  intros i Hi. destruct Ha as [Hn Hm].
  rewrite (at_map (A := list R) _ nmtx [] i) by lia.
  rewrite (dot_sum_upto m);
    [|apply (is_matrix_row n m); [split; assumption|lia]
     |apply cweights_of_length; simpl; auto].
  apply sum_upto_ext. intros j Hj.
  rewrite (cweights_of_nth m) by (simpl; auto). simpl. unfold entry. ring.
Qed.

(** ** Reductions along an axis *)

Lemma fold_map2_length (f : R -> R -> R) (m : nat) (rows : list (list R)) (row : list R) :
  length row = m -> Forall (fun r => length r = m) rows ->
  length (fold_left (map2 f) rows row) = m.
Proof.
  revert row; induction rows as [|r rows IH]; intros row Hrow Hrows; simpl; [assumption|].
  inversion Hrows; subst. apply IH; [|assumption].
  rewrite length_map2; congruence.
Qed.

Lemma fold_map2_nth (f : R -> R -> R) (m : nat) (rows : list (list R)) (row : list R) (j : nat) :
  length row = m -> Forall (fun r => length r = m) rows -> (j < m)%nat ->
  nth j (fold_left (map2 f) rows row) 0 =
  fold_left f (map (fun r => nth j r 0) rows) (nth j row 0).
Proof.
  revert row; induction rows as [|r rows IH]; intros row Hrow Hrows Hj; simpl; [reflexivity|].
  inversion Hrows; subst. rewrite IH; [|rewrite length_map2; congruence|assumption|assumption].
  f_equal. apply nth_map2; [congruence|lia].
Qed.

Lemma reduce0_length (f : R -> R -> R) (n m : nat) (a : list (list R)) :
  is_matrix n m a -> (1 <= n)%nat -> length (reduce0 f a) = m.
Proof.
  intros [Hn Hm] H1. destruct a as [|row rows]; simpl in *; [lia|].
  inversion Hm; subst. now apply fold_map2_length.
Qed.

Lemma reduce0_nth (f : R -> R -> R) (n m : nat) (a : list (list R)) (j : nat) :
  is_matrix n m a -> (j < m)%nat ->
  nth j (reduce0 f a) 0 = reduce_list f (map (fun r => nth j r 0) a).
Proof.
  intros [Hn Hm] Hj. destruct a as [|row rows]; simpl.
  - now destruct j.
  - inversion Hm; subst. now apply fold_map2_nth with (m := length row).
Qed.

Lemma fold_Rmax_spec (xs : list R) (x : R) :
  In (fold_left Rmax xs x) (x :: xs) /\
  forall y, In y (x :: xs) -> y <= fold_left Rmax xs x.
Proof.
  revert x; induction xs as [|z xs IH]; intros x; simpl.
  - split; [now left|]. intros y [<-|[]]. lra.
  - destruct (IH (Rmax x z)) as [Hin Hub]. split.
    + destruct Hin as [E|Hin]; [|now right; right].
      rewrite <- E. unfold Rmax. destruct (Rle_dec x z); [right|]; now left.
    + intros y Hy.
      assert (Hx : x <= Rmax x z) by apply Rmax_l.
      assert (Hz : z <= Rmax x z) by apply Rmax_r.
      assert (Hm : Rmax x z <= fold_left Rmax xs (Rmax x z)) by (apply Hub; now left).
      destruct Hy as [<-|[<-|Hy]]; try lra. apply Hub. now right.
Qed.

Lemma fold_Rmin_spec (xs : list R) (x : R) :
  In (fold_left Rmin xs x) (x :: xs) /\
  forall y, In y (x :: xs) -> fold_left Rmin xs x <= y.
Proof.
  revert x; induction xs as [|z xs IH]; intros x; simpl.
  - split; [now left|]. intros y [<-|[]]. lra.
  - destruct (IH (Rmin x z)) as [Hin Hlb]. split.
    + destruct Hin as [E|Hin]; [|now right; right].
      rewrite <- E. unfold Rmin. destruct (Rle_dec x z); [|right]; now left.
    + intros y Hy.
      assert (Hx : Rmin x z <= x) by apply Rmin_l.
      assert (Hz : Rmin x z <= z) by apply Rmin_r.
      assert (Hm : fold_left Rmin xs (Rmin x z) <= Rmin x z) by (apply Hlb; now left).
      destruct Hy as [<-|[<-|Hy]]; try lra. apply Hlb. now right.
Qed.

Lemma reduce_list_max (l : list R) :
  l <> [] -> is_max_of (reduce_list Rmax l) (length l) (fun j => nth j l 0).
Proof.
  destruct l as [|x xs]; [congruence|]. intros _.
  destruct (fold_Rmax_spec xs x) as [Hin Hub]. split.
  - destruct (In_nth _ _ 0 Hin) as [j [Hj E]]. now exists j.
  - intros j Hj. apply Hub. now apply nth_In.
Qed.

Lemma reduce_list_min (l : list R) :
  l <> [] -> is_min_of (reduce_list Rmin l) (length l) (fun j => nth j l 0).
Proof.
  destruct l as [|x xs]; [congruence|]. intros _.
  destruct (fold_Rmin_spec xs x) as [Hin Hlb]. split.
  - destruct (In_nth _ _ 0 Hin) as [j [Hj E]]. now exists j.
  - intros j Hj. apply Hlb. now apply nth_In.
Qed.

Lemma is_max_of_ext (v : R) (m : nat) (f g : nat -> R) :
  (forall j, (j < m)%nat -> f j = g j) -> is_max_of v m f -> is_max_of v m g.
Proof.
  intros E [[j [Hj Hv]] Hub]. split.
  - exists j. split; [assumption|]. now rewrite <- E.
  - intros k Hk. rewrite <- E by assumption. now apply Hub.
Qed.

Lemma is_min_of_ext (v : R) (m : nat) (f g : nat -> R) :
  (forall j, (j < m)%nat -> f j = g j) -> is_min_of v m f -> is_min_of v m g.
Proof.
  intros E [[j [Hj Hv]] Hlb]. split.
  - exists j. split; [assumption|]. now rewrite <- E.
  - intros k Hk. rewrite <- E by assumption. now apply Hlb.
Qed.

Lemma column_nth (a : list (list R)) (i j : nat) :
  (i < length a)%nat -> nth i (map (fun r => nth j r 0) a) 0 = entry a i j.
Proof.
  intros Hi. unfold entry.
  rewrite (nth_indep _ 0 ((fun r => nth j r 0) [])) by now rewrite length_map.
  rewrite (map_nth (fun r : list R => nth j r 0)). reflexivity.
Qed.

Lemma reduce0_max (n m : nat) (a : list (list R)) (j : nat) :
  is_matrix n m a -> (1 <= n)%nat -> (j < m)%nat ->
  is_max_of (at_ (reduce0 Rmax a) j) n (fun i => entry a i j).
Proof.
  intros Ha Hn Hj. unfold at_. rewrite (reduce0_nth Rmax n m) by assumption.
  destruct Ha as [Hlen Hm].
  assert (Hne : map (fun r => nth j r 0) a <> []).
  { destruct a; simpl in *; [lia|discriminate]. }
  apply reduce_list_max in Hne. rewrite length_map, Hlen in Hne.
  revert Hne. apply is_max_of_ext. intros i Hi. apply column_nth. lia.
Qed.

Lemma reduce0_min (n m : nat) (a : list (list R)) (j : nat) :
  is_matrix n m a -> (1 <= n)%nat -> (j < m)%nat ->
  is_min_of (at_ (reduce0 Rmin a) j) n (fun i => entry a i j).
Proof.
  intros Ha Hn Hj. unfold at_. rewrite (reduce0_nth Rmin n m) by assumption.
  destruct Ha as [Hlen Hm].
  assert (Hne : map (fun r => nth j r 0) a <> []).
  { destruct a; simpl in *; [lia|discriminate]. }
  apply reduce_list_min in Hne. rewrite length_map, Hlen in Hne.
  revert Hne. apply is_min_of_ext. intros i Hi. apply column_nth. lia.
Qed.

(** ** Reference point *)

Lemma reference_of_length (n m : nat) (nmtx : matrix) (criteria : list Z) :
  is_matrix n m nmtx -> (1 <= n)%nat -> length criteria = m ->
  length (reference_of nmtx criteria) = m.
Proof.
  intros Ha Hn Hc. unfold reference_of, np.where_eq.
  rewrite length_map2; rewrite length_map; [assumption|].
  rewrite length_combine, !(reduce0_length _ n m) by assumption. lia.
Qed.

Lemma reference_of_nth (n m : nat) (nmtx : matrix) (criteria : list Z) (j : nat) :
  is_matrix n m nmtx -> (1 <= n)%nat -> length criteria = m -> (j < m)%nat ->
  at_ (reference_of nmtx criteria) j =
  if Z.eqb (nth j criteria 0%Z) util.MAX
  then at_ (reduce0 Rmax nmtx) j else at_ (reduce0 Rmin nmtx) j.
Proof.
  intros Ha Hn Hc Hj. unfold reference_of, at_.
  assert (Hl : length (combine (reduce0 Rmax nmtx) (reduce0 Rmin nmtx)) = m).
  { rewrite length_combine, !(reduce0_length _ n m) by assumption. lia. }
  rewrite (nth_map2 _ _ _ j 0%Z (0, 0) 0);
    [|unfold np.where_eq; rewrite length_map; congruence
     |unfold np.where_eq; rewrite length_map; lia].
  rewrite combine_nth by (rewrite !(reduce0_length _ n m) by assumption; reflexivity).
  unfold np.where_eq.
  rewrite (nth_map_in _ criteria j 0%Z 0%Z) by lia.
  simpl. destruct (Z.eqb (nth j criteria 0%Z) util.MAX) eqn:E.
  - apply Z.eqb_eq in E. rewrite E. reflexivity.
  - reflexivity.
Qed.

Lemma weighted_row_length (m : nat) (w : weight_arg) (row : vec) :
  weights_ok m w -> length row = m -> length (weighted_row w row) = m.
Proof.
  intros Hw Hr. destruct w as [s|ws]; simpl in *.
  - now rewrite length_map.
  - rewrite length_map2; congruence.
Qed.

Lemma weighted_row_nth (m : nat) (w : weight_arg) (row : vec) (j : nat) :
  weights_ok m w -> length row = m -> (j < m)%nat ->
  nth j (weighted_row w row) 0 = weight_of w j * nth j row 0.
Proof.
  intros Hw Hr Hj. destruct w as [s|ws]; simpl in *.
  - rewrite (nth_indep _ 0 (s * 0)) by (rewrite length_map; lia).
    apply (map_nth (Rmult s)).
  - apply nth_map2; [congruence|lia].
Qed.

Lemma deviation_row_length (n m : nat) (nmtx : matrix) (criteria : list Z)
    (w : weight_arg) (row : vec) :
  is_matrix n m nmtx -> (1 <= n)%nat -> length criteria = m -> weights_ok m w ->
  length row = m -> length (deviation_row nmtx criteria w row) = m.
Proof.
  intros Ha Hn Hc Hw Hr. unfold deviation_row. rewrite length_map.
  apply weighted_row_length; [assumption|].
  rewrite length_map2; [assumption|].
  now rewrite (reference_of_length n m).
Qed.

Lemma deviation_row_nth (n m : nat) (nmtx : matrix) (criteria : list Z)
    (w : weight_arg) (row : vec) (j : nat) :
  is_matrix n m nmtx -> (1 <= n)%nat -> length criteria = m -> weights_ok m w ->
  length row = m -> (j < m)%nat ->
  nth j (deviation_row nmtx criteria w row) 0 =
  Rabs (weight_of w j * (nth j row 0 - at_ (reference_of nmtx criteria) j)).
Proof.
  intros Ha Hn Hc Hw Hr Hj. unfold deviation_row.
  assert (Hd : length (map2 Rminus row (reference_of nmtx criteria)) = m).
  { rewrite length_map2; [assumption|]. now rewrite (reference_of_length n m). }
  rewrite (nth_indep _ 0 (Rabs 0))
    by (rewrite length_map, (weighted_row_length m) by assumption; lia).
  rewrite (map_nth Rabs). f_equal.
  rewrite (weighted_row_nth m) by assumption. f_equal.
  apply nth_map2; [now rewrite (reference_of_length n m)|lia].
Qed.

Lemma max_row_ok (row : vec) :
  row <> [] -> np.max_row row = Ok (reduce_list Rmax row).
Proof. destruct row; [congruence|reflexivity]. Qed.

Lemma _refpoint_ok (n m : nat) (nmtx : matrix) (criteria : list Z) (w : weight_arg) :
  is_matrix n m nmtx -> (1 <= n)%nat -> (1 <= m)%nat ->
  length criteria = m -> weights_ok m w ->
  _refpoint nmtx criteria w =
  Ok (rank.rankdata (refpoint_points nmtx criteria w) false,
      refpoint_points nmtx criteria w).
Proof.
  intros Ha Hn Hm Hc Hw. unfold _refpoint.
  assert (Emax : np.max0 nmtx = Ok (reduce0 Rmax nmtx)).
  { destruct Ha as [Hl _]. destruct nmtx; simpl in *; [lia|reflexivity]. }
  assert (Emin : np.min0 nmtx = Ok (reduce0 Rmin nmtx)).
  { destruct Ha as [Hl _]. destruct nmtx; simpl in *; [lia|reflexivity]. }
  rewrite Emax, Emin. simpl.
  assert (Ewhere : np.where_ (np.where_eq criteria util.MAX)
                     (reduce0 Rmax nmtx) (reduce0 Rmin nmtx)
                   = Ok (reference_of nmtx criteria)).
  { unfold np.where_. apply broadcast2_same. unfold np.where_eq.
    rewrite length_map, length_combine, !(reduce0_length _ n m) by assumption. lia. }
  rewrite Ewhere. simpl.
  assert (Hrl := reference_of_length n m nmtx criteria Ha Hn Hc).
  assert (Esub : np.subtract2 nmtx (reference_of nmtx criteria)
                 = Ok (map (fun row => map2 Rminus row (reference_of nmtx criteria)) nmtx)).
  { unfold np.subtract2. apply mapM_map. intros row Hrow.
    apply broadcast2_same. rewrite (is_matrix_in n m nmtx row Ha Hrow). congruence. }
  rewrite Esub. simpl.
  assert (Emul : np.multiply2 w
                   (map (fun row => map2 Rminus row (reference_of nmtx criteria)) nmtx)
                 = Ok (map (weighted_row w)
                        (map (fun row => map2 Rminus row (reference_of nmtx criteria)) nmtx))).
  { destruct w as [s|ws]; simpl in *; [reflexivity|].
    apply mapM_map. intros row Hrow. apply broadcast2_same.
    apply in_map_iff in Hrow. destruct Hrow as [r [<- Hr]].
    rewrite length_map2; rewrite (is_matrix_in n m nmtx r Ha Hr); congruence. }
  rewrite Emul. simpl.
  assert (Emax1 : np.max1 (np.abs (map (weighted_row w)
                     (map (fun row => map2 Rminus row (reference_of nmtx criteria)) nmtx)))
                  = Ok (refpoint_points nmtx criteria w)).
  { unfold np.max1, np.abs, refpoint_points. rewrite !map_map.
    rewrite <- (map_map (deviation_row nmtx criteria w) (reduce_list Rmax)).
    apply mapM_map. intros row Hrow. apply max_row_ok.
    apply in_map_iff in Hrow. destruct Hrow as [r [<- Hr]].
    intros E. apply (f_equal (@length R)) in E.
    change (map Rabs (weighted_row w (map2 Rminus r (reference_of nmtx criteria))))
      with (deviation_row nmtx criteria w r) in E.
    assert (Hrl' := is_matrix_in n m nmtx r Ha Hr).
    rewrite (deviation_row_length n m) in E by assumption.
    simpl in E. lia. }
  rewrite Emax1. reflexivity.
Qed.

(** C6. For an (n, m) matrix N with at least one row and one column, m
    criteria and a weight argument W (the scalar 1 or m weights), the
    reference-point step returns, for each alternative i, the largest over
    the columns j of |W[j] * (N[i,j] - reference[j])|, where reference[j] is
    the largest value of column j when criterion j is MAX and the smallest
    value of column j otherwise. *)
Theorem refpoint_score_is_max_deviation
    (n m : nat) (nmtx : matrix) (criteria : list Z) (w : weight_arg) :
  is_matrix n m nmtx -> (1 <= n)%nat -> (1 <= m)%nat ->
  length criteria = m -> weights_ok m w ->
  exists rnk points reference,
    _refpoint nmtx criteria w = Ok (rnk, points) /\
    length points = n /\ length reference = m /\
    (forall j, (j < m)%nat ->
       if Z.eqb (nth j criteria 0%Z) util.MAX
       then is_max_of (at_ reference j) n (fun i => entry nmtx i j)
       else is_min_of (at_ reference j) n (fun i => entry nmtx i j)) /\
    (forall i, (i < n)%nat ->
       is_max_of (at_ points i) m
         (fun j => Rabs (weight_of w j * (entry nmtx i j - at_ reference j)))).
Proof.
  intros Ha Hn Hm Hc Hw.
  exists (rank.rankdata (refpoint_points nmtx criteria w) false),
         (refpoint_points nmtx criteria w), (reference_of nmtx criteria).
  split; [now apply (_refpoint_ok n m)|].
  split; [unfold refpoint_points; rewrite length_map; apply Ha|].
  split; [now apply (reference_of_length n m)|].
  split.
  - intros j Hj. rewrite (reference_of_nth n m) by assumption.
    destruct (Z.eqb (nth j criteria 0%Z) util.MAX).
    + now apply (reduce0_max n m).
    + now apply (reduce0_min n m).
  - intros i Hi. unfold refpoint_points.
    assert (Hrow : length (nth i nmtx []) = m) by now apply (is_matrix_row n m).
    rewrite (at_map _ nmtx [] i) by (destruct Ha; lia).
    assert (Hl := deviation_row_length n m nmtx criteria w _ Ha Hn Hc Hw Hrow).
    assert (Hne : deviation_row nmtx criteria w (nth i nmtx []) <> []).
    { intros E. rewrite E in Hl. simpl in Hl. lia. }
    apply reduce_list_max in Hne. rewrite Hl in Hne.
    revert Hne. apply is_max_of_ext. intros j Hj.
    now apply (deviation_row_nth n m).
Qed.

(** ** Criteria *)

Lemma criteriarr_ok (criteria : list Z) :
  criteria_ok criteria -> util.criteriarr criteria = Ok criteria.
Proof.
  intros H. unfold util.criteriarr.
  replace (forallb _ criteria) with true; [reflexivity|].
  symmetry. apply forallb_forall. intros c Hc.
  unfold criteria_ok in H. rewrite Forall_forall in H.
  destruct (H c Hc) as [-> | ->]; reflexivity.
Qed.

Lemma insert_unique_same (x : Z) (l : list Z) :
  l <> [] -> Forall (fun y => y = x) l -> fold_right np.insert_unique [] l = [x].
Proof.
  induction l as [|y l IH]; intros Hne Hall; [congruence|].
  inversion Hall; subst. simpl.
  destruct l as [|z l].
  - reflexivity.
  - rewrite IH by (assumption || discriminate).
    simpl. now rewrite Z.ltb_irrefl, Z.eqb_refl.
Qed.

Lemma setdiff1d_all (criteria : list Z) (v : Z) :
  Forall (fun c => c = v) criteria -> np.setdiff1d criteria [v] = [].
Proof.
  intros H. unfold np.setdiff1d.
  replace (filter _ criteria) with (@nil Z); [reflexivity|].
  symmetry. induction H as [|c l Hc Hl IH]; [reflexivity|].
  simpl. subst c. rewrite Z.eqb_refl. simpl. exact IH.
Qed.

Lemma setdiff1d_other (criteria : list Z) (v u : Z) :
  Forall (fun c => c = v \/ c = u) criteria -> v <> u -> In u criteria ->
  np.setdiff1d criteria [v] = [u].
Proof.
  intros H Hvu Hin. unfold np.setdiff1d. apply insert_unique_same.
  - intros E.
    assert (Hu : In u (filter (fun x => negb (existsb (Z.eqb x) [v])) criteria)).
    { apply filter_In. split; [assumption|]. simpl.
      destruct (Z.eqb u v) eqn:Euv; [apply Z.eqb_eq in Euv; congruence|reflexivity]. }
    rewrite E in Hu. destruct Hu.
  - apply Forall_forall. intros c Hc. apply filter_In in Hc. destruct Hc as [Hc Hf].
    rewrite Forall_forall in H. destruct (H c Hc) as [-> | ->]; [|reflexivity].
    simpl in Hf. rewrite Z.eqb_refl in Hf. discriminate.
Qed.

(** ** Deleting columns *)

Lemma in_combine_seq {A : Type} (l : list A) (s j : nat) (x : A) :
  In (j, x) (combine (seq s (length l)) l) <->
  (s <= j)%nat /\ nth_error l (j - s) = Some x.
Proof.
  revert s; induction l as [|y l IH]; intros s; simpl.
  - split; [intros []|]. intros [_ H]. destruct (j - s)%nat; discriminate.
  - rewrite IH. split.
    + intros [E|[Hs Hn]].
      * inversion E; subst. rewrite Nat.sub_diag. split; [lia|reflexivity].
      * split; [lia|]. replace (j - s)%nat with (S (j - S s)) by lia. exact Hn.
    + intros [Hs Hn]. destruct (Nat.eq_dec j s) as [->|Hne].
      * left. rewrite Nat.sub_diag in Hn. simpl in Hn. congruence.
      * right. split; [lia|].
        replace (j - s)%nat with (S (j - S s)) in Hn by lia. exact Hn.
Qed.

Lemma in_argwhere_eq (criteria : list Z) (v : Z) (j : nat) :
  In j (np.argwhere_eq criteria v) <->
  (j < length criteria)%nat /\ nth j criteria 0%Z = v.
Proof.
  unfold np.argwhere_eq. rewrite in_map_iff. split.
  - intros [[k x] [E H]]. simpl in E. subst k.
    apply filter_In in H. destruct H as [H Hx]. simpl in Hx. apply Z.eqb_eq in Hx.
    apply in_combine_seq in H. destruct H as [_ H]. rewrite Nat.sub_0_r in H.
    split; [apply nth_error_Some; congruence|].
    rewrite (nth_error_nth _ _ _ H). exact Hx.
  - intros [Hj Hv]. exists (j, nth j criteria 0%Z). split; [reflexivity|].
    apply filter_In. split; [|simpl; now apply Z.eqb_eq].
    apply in_combine_seq. split; [lia|]. rewrite Nat.sub_0_r.
    now apply nth_error_nth'.
Qed.

Lemma existsb_argwhere_eq (criteria : list Z) (v : Z) (j : nat) :
  (j < length criteria)%nat ->
  existsb (Nat.eqb j) (np.argwhere_eq criteria v) = Z.eqb (nth j criteria 0%Z) v.
Proof.
  intros Hj. apply eq_true_iff_eq. rewrite existsb_exists, Z.eqb_eq. split.
  - intros [k [Hk E]]. apply Nat.eqb_eq in E. subst k.
    now apply in_argwhere_eq in Hk.
  - intros Hv. exists j. split; [|apply Nat.eqb_refl].
    now apply in_argwhere_eq.
Qed.

Lemma Rsum_filter_seq (g : nat -> bool) (row : list R) (s : nat) :
  Rsum (map snd (filter (fun p => g (fst p)) (combine (seq s (length row)) row))) =
  sum_upto (length row) (fun j => if g (s + j)%nat then nth j row 0 else 0).
Proof.
  revert s; induction row as [|x row IH]; intros s; [reflexivity|].
  change (length (x :: row)) with (S (length row)). rewrite sum_upto_shift.
  simpl combine. simpl filter. rewrite Nat.add_0_r.
  assert (E : sum_upto (length row)
                (fun j => if g (s + S j)%nat then nth (S j) (x :: row) 0 else 0) =
              sum_upto (length row)
                (fun j => if g (S s + j)%nat then nth j row 0 else 0)).
  { apply sum_upto_ext. intros j _. replace (s + S j)%nat with (S s + j)%nat by lia.
    reflexivity. }
  rewrite E, <- IH.
  destruct (g s); simpl; [reflexivity|]. unfold Rsum. lra.
Qed.

Lemma delete_row_ok (criteria : list Z) (v : Z) (row : list R) :
  length row = length criteria ->
  np.delete_row (np.argwhere_eq criteria v) row =
  Ok (np.keep (np.argwhere_eq criteria v) row).
Proof.
  intros Hlen. unfold np.delete_row.
  replace (forallb _ (np.argwhere_eq criteria v)) with true; [reflexivity|].
  symmetry. apply forallb_forall. intros k Hk. apply Nat.ltb_lt.
  apply in_argwhere_eq in Hk. lia.
Qed.

Lemma Rsum_keep (criteria : list Z) (v : Z) (row : list R) :
  length row = length criteria ->
  Rsum (np.keep (np.argwhere_eq criteria v) row) =
  sum_upto (length criteria)
    (fun j => if Z.eqb (nth j criteria 0%Z) v then 0 else nth j row 0).
Proof.
  intros Hlen. unfold np.keep.
  rewrite (filter_ext_in _
             (fun p => (fun j => negb (Z.eqb (nth j criteria 0%Z) v)) (fst p))).
  - rewrite (Rsum_filter_seq (fun j => negb (Z.eqb (nth j criteria 0%Z) v)) row 0), Hlen.
    apply sum_upto_ext. intros j _. simpl.
    now destruct (Z.eqb (nth j criteria 0%Z) v).
  - intros [j x] Hin. simpl. f_equal. apply existsb_argwhere_eq.
    apply in_combine_seq in Hin. destruct Hin as [_ Hin].
    rewrite Nat.sub_0_r in Hin. rewrite <- Hlen.
    apply nth_error_Some. congruence.
Qed.

(** ** Full multiplicative form *)

Lemma log_ok (a : list (list R)) :
  positive a -> np.log a = Ok (map (map ln) a).
Proof.
  intros H. unfold np.log.
  replace (forallb _ a) with true; [reflexivity|].
  symmetry. apply forallb_forall. intros row Hrow.
  apply forallb_forall. intros x Hx. apply Rltb_true.
  unfold positive in H. rewrite Forall_forall in H.
  specialize (H row Hrow). rewrite Forall_forall in H. now apply H.
Qed.

Lemma log_err (a : list (list R)) (row : list R) (x : R) :
  In row a -> In x row -> x <= 0 -> np.log a = Err LogOfNonPositive.
Proof.
  intros Hrow Hx Hle. unfold np.log.
  destruct (forallb (forallb (Rltb 0)) a) eqn:E; [|reflexivity].
  rewrite forallb_forall in E. specialize (E row Hrow).
  rewrite forallb_forall in E. specialize (E x Hx).
  apply Rltb_true in E. lra.
Qed.

Lemma log_row_sum (n m : nat) (nmtx : list (list R)) (i : nat) :
  is_matrix n m nmtx -> (i < n)%nat ->
  at_ (np.sum1 (map (map ln) nmtx)) i = sum_upto m (fun j => ln (entry nmtx i j)).
Proof.
  intros Ha Hi. unfold np.sum1. rewrite map_map.
  rewrite (at_map _ nmtx [] i) by (destruct Ha; lia).
  rewrite Rsum_sum_upto, length_map, (is_matrix_row n m) by assumption.
  apply sum_upto_ext. intros j Hj. unfold entry.
  apply nth_map_in. rewrite (is_matrix_row n m) by assumption. exact Hj.
Qed.

Lemma _fmf_only_max (nmtx : list (list R)) (criteria : list Z) :
  positive nmtx -> Forall (fun c => c = util.MAX) criteria ->
  let points := np.sum1 (map (map ln) nmtx) in
  _fmf nmtx criteria = Ok (rank.rankdata points true, points).
Proof.
  intros Hp Hc points. unfold _fmf.
  rewrite log_ok by assumption. simpl.
  rewrite setdiff1d_all by assumption. reflexivity.
Qed.

Lemma _fmf_only_min (nmtx : list (list R)) (criteria : list Z) :
  positive nmtx -> Forall (fun c => c = util.MIN) criteria -> criteria <> [] ->
  let points := map (Rminus 1) (np.sum1 (map (map ln) nmtx)) in
  _fmf nmtx criteria = Ok (rank.rankdata points true, points).
Proof.
  intros Hp Hc Hne points. unfold _fmf.
  rewrite log_ok by assumption. simpl.
  rewrite (setdiff1d_other criteria util.MAX util.MIN).
  - simpl. rewrite setdiff1d_all by assumption. reflexivity.
  - revert Hc. apply Forall_impl. intros c ->. now right.
  - discriminate.
  - destruct criteria as [|c l]; [congruence|].
    inversion Hc; subst. now left.
Qed.

Lemma _fmf_mixed (n m : nat) (nmtx : list (list R)) (criteria : list Z) :
  is_matrix n m nmtx -> positive nmtx -> length criteria = m ->
  criteria_ok criteria -> In util.MAX criteria -> In util.MIN criteria ->
  _fmf nmtx criteria =
  Ok (rank.rankdata (mixed_points nmtx criteria) true, mixed_points nmtx criteria).
Proof.
  intros Ha Hp Hc Hok Hmax Hmin. unfold _fmf.
  rewrite log_ok by assumption. simpl.
  rewrite (setdiff1d_other criteria util.MAX util.MIN);
    [|exact Hok|discriminate|exact Hmin].
  simpl.
  rewrite (setdiff1d_other criteria util.MIN util.MAX);
    [|revert Hok; apply Forall_impl; tauto|discriminate|exact Hmax].
  simpl.
  assert (Edel : forall v, np.delete1 (map (map ln) nmtx) (np.argwhere_eq criteria v) =
                           Ok (map (np.keep (np.argwhere_eq criteria v)) (map (map ln) nmtx))).
  { intros v. unfold np.delete1. apply mapM_map. intros row Hrow.
    apply delete_row_ok. apply in_map_iff in Hrow. destruct Hrow as [r [<- Hr]].
    rewrite length_map, (is_matrix_in n m nmtx r Ha Hr). congruence. }
  rewrite !Edel. reflexivity.
Qed.

Lemma mixed_points_nth (n m : nat) (nmtx : list (list R)) (criteria : list Z) (i : nat) :
  is_matrix n m nmtx -> length criteria = m -> criteria_ok criteria -> (i < n)%nat ->
  at_ (mixed_points nmtx criteria) i = mixed_formula criteria nmtx i.
Proof.
  intros Ha Hc Hok Hi. unfold mixed_points, at_, np.sum1.
  assert (Hlen : length nmtx = n) by apply Ha.
  rewrite (nth_map2 Rminus _ _ i 0 0 0) by (rewrite !length_map; lia).
  rewrite !map_map.
  rewrite !(nth_map_in _ nmtx i 0 []) by lia.
  assert (Hrow : length (map ln (nth i nmtx [])) = length criteria).
  { rewrite length_map, (is_matrix_row n m) by assumption. congruence. }
  rewrite !Rsum_keep by assumption.
  unfold mixed_formula, log_sum_where. f_equal.
  - apply sum_upto_ext. intros j Hj.
    assert (Hcj : nth j criteria 0%Z = util.MAX \/ nth j criteria 0%Z = util.MIN).
    { unfold criteria_ok in Hok. rewrite Forall_forall in Hok. apply Hok, nth_In. exact Hj. }
    unfold entry. rewrite (nth_map_in ln _ j 0 0) by (rewrite length_map in Hrow; lia).
    destruct Hcj as [E|E]; rewrite E; reflexivity.
  - apply sum_upto_ext. intros j Hj.
    assert (Hcj : nth j criteria 0%Z = util.MAX \/ nth j criteria 0%Z = util.MIN).
    { unfold criteria_ok in Hok. rewrite Forall_forall in Hok. apply Hok, nth_In. exact Hj. }
    unfold entry. rewrite (nth_map_in ln _ j 0 0) by (rewrite length_map in Hrow; lia).
    destruct Hcj as [E|E]; rewrite E; reflexivity.
Qed.

(** C4. For a strictly positive (n, m) matrix and m criteria among which both
    MAX and MIN occur, the score the full multiplicative form gives to each
    alternative is the sum of the natural logarithms of its entries in the
    MAX columns minus the sum of the natural logarithms of its entries in the
    MIN columns. *)
Theorem fmf_mixed_score
    (n m : nat) (nmtx : matrix) (criteria : list Z) :
  is_matrix n m nmtx -> positive nmtx -> length criteria = m ->
  criteria_ok criteria -> In util.MAX criteria -> In util.MIN criteria ->
  exists rnk points,
    _fmf nmtx criteria = Ok (rnk, points) /\
    length points = n /\
    forall i, (i < n)%nat ->
      at_ points i =
      log_sum_where util.MAX criteria nmtx i - log_sum_where util.MIN criteria nmtx i.
Proof.
  intros Ha Hp Hc Hok Hmax Hmin.
  exists (rank.rankdata (mixed_points nmtx criteria) true), (mixed_points nmtx criteria).
  split; [now apply (_fmf_mixed n m)|]. split.
  - unfold mixed_points, np.sum1. rewrite length_map2; rewrite !length_map; [apply Ha|reflexivity].
  - intros i Hi. now apply (mixed_points_nth n m).
Qed.

Lemma sum_upto_zero (m : nat) (f : nat -> R) :
  (forall j, (j < m)%nat -> f j = 0) -> sum_upto m f = 0.
Proof.
  induction m as [|m IH]; intros H; simpl; [reflexivity|].
  rewrite IH by (intros j Hj; apply H; lia). rewrite H by lia. lra.
Qed.

Lemma nth_all {A : Type} (l : list A) (v d : A) (j : nat) :
  Forall (fun c => c = v) l -> (j < length l)%nat -> nth j l d = v.
Proof.
  intros H Hj. rewrite Forall_forall in H. apply H. now apply nth_In.
Qed.

Lemma mixed_formula_only_max (criteria : list Z) (nmtx : list (list R)) (i : nat) :
  Forall (fun c => c = util.MAX) criteria ->
  mixed_formula criteria nmtx i =
  sum_upto (length criteria) (fun j => ln (entry nmtx i j)).
Proof.
  intros H. unfold mixed_formula, log_sum_where.
  rewrite (sum_upto_zero _ (fun j => if Z.eqb (nth j criteria 0%Z) util.MIN then _ else _)).
  - rewrite Rminus_0_r. apply sum_upto_ext. intros j Hj.
    now rewrite (nth_all criteria util.MAX).
  - intros j Hj. now rewrite (nth_all criteria util.MAX).
Qed.

Lemma mixed_formula_only_min (criteria : list Z) (nmtx : list (list R)) (i : nat) :
  Forall (fun c => c = util.MIN) criteria ->
  mixed_formula criteria nmtx i =
  - sum_upto (length criteria) (fun j => ln (entry nmtx i j)).
Proof.
  intros H. unfold mixed_formula, log_sum_where.
  rewrite (sum_upto_zero _ (fun j => if Z.eqb (nth j criteria 0%Z) util.MAX then _ else _)).
  - rewrite Rminus_0_l. f_equal. apply sum_upto_ext. intros j Hj.
    now rewrite (nth_all criteria util.MIN).
  - intros j Hj. now rewrite (nth_all criteria util.MIN).
Qed.

(** Two score vectors that compare alike are ranked alike. *)
Lemma rankdata_ext (a b : list R) (reverse : bool) :
  length a = length b ->
  (forall i j, (i < length a)%nat -> (j < length a)%nat ->
     rank.before reverse a j i = rank.before reverse b j i) ->
  rank.rankdata a reverse = rank.rankdata b reverse.
Proof.
  intros Hl H. unfold rank.rankdata. rewrite <- Hl.
  apply map_ext_in. intros i Hi. f_equal.
  apply filter_ext_in. intros j Hj. apply in_seq in Hi, Hj. apply H; lia.
Qed.

Lemma rankdata_offset (a b : list R) (c : R) (reverse : bool) :
  length a = length b ->
  (forall i, (i < length a)%nat -> at_ a i = at_ b i + c) ->
  rank.rankdata a reverse = rank.rankdata b reverse.
Proof.
  intros Hl H. apply rankdata_ext; [assumption|].
  intros i j Hi Hj. apply eq_true_iff_eq. rewrite !before_iff.
  rewrite (H i Hi), (H j Hj). unfold better.
  destruct reverse; split; intros [L|[E L]]; try (left; lra); right; split; lra || lia.
Qed.

Lemma mixed_scores_nth (criteria : list Z) (nmtx : list (list R)) (i : nat) :
  (i < length nmtx)%nat -> at_ (mixed_scores criteria nmtx) i = mixed_formula criteria nmtx i.
Proof.
  intros Hi. unfold mixed_scores, at_.
  rewrite (nth_map_in _ _ i 0 0%nat) by now rewrite length_seq.
  now rewrite seq_nth.
Qed.

(** C3, as the code has it. For a strictly positive (n, m) matrix: when all
    criteria are MAX the score of the full multiplicative form is the row-sum
    of logarithms and equals the general mixed formula exactly; when all
    criteria are MIN (and there is at least one) the score is 1 minus the
    row-sum of logarithms, which is the general mixed formula plus the
    constant 1. In both cases the rank vector is the one the general formula
    gives. *)
Theorem fmf_special_cases
    (n m : nat) (nmtx : matrix) (criteria : list Z) :
  is_matrix n m nmtx -> positive nmtx -> length criteria = m ->
  (Forall (fun c => c = util.MAX) criteria ->
   exists rnk points,
     _fmf nmtx criteria = Ok (rnk, points) /\ length points = n /\
     rnk = rank.rankdata (mixed_scores criteria nmtx) true /\
     forall i, (i < n)%nat ->
       at_ points i = sum_upto m (fun j => ln (entry nmtx i j)) /\
       at_ points i = mixed_formula criteria nmtx i) /\
  (Forall (fun c => c = util.MIN) criteria -> (1 <= m)%nat ->
   exists rnk points,
     _fmf nmtx criteria = Ok (rnk, points) /\ length points = n /\
     rnk = rank.rankdata (mixed_scores criteria nmtx) true /\
     forall i, (i < n)%nat ->
       at_ points i = 1 - sum_upto m (fun j => ln (entry nmtx i j)) /\
       at_ points i = mixed_formula criteria nmtx i + 1).
Proof.
  intros Ha Hp Hc. assert (Hn : length nmtx = n) by apply Ha. split.
  - intros Hall. eexists _, _. split; [now apply _fmf_only_max|].
    assert (Hpt : forall i, (i < n)%nat ->
              at_ (np.sum1 (map (map ln) nmtx)) i = mixed_formula criteria nmtx i).
    { intros i Hi. rewrite (log_row_sum n m), mixed_formula_only_max by assumption.
      now rewrite Hc. }
    split; [unfold np.sum1; now rewrite !length_map|]. split.
    + apply (rankdata_offset _ _ 0).
      * unfold np.sum1, mixed_scores. now rewrite !length_map, length_seq.
      * intros i Hi. unfold np.sum1 in Hi. rewrite !length_map in Hi.
        rewrite mixed_scores_nth, Hpt by lia. lra.
    + intros i Hi. split; [now apply (log_row_sum n m)|now apply Hpt].
  - intros Hall Hm. eexists _, _. split.
    { apply _fmf_only_min; try assumption. destruct criteria; simpl in *; [lia|discriminate]. }
    assert (Hpt : forall i, (i < n)%nat ->
              at_ (map (Rminus 1) (np.sum1 (map (map ln) nmtx))) i =
              1 - sum_upto m (fun j => ln (entry nmtx i j))).
    { intros i Hi. unfold at_.
      rewrite (nth_map_in _ _ i 0 0) by (unfold np.sum1; rewrite !length_map; lia).
      f_equal. now apply (log_row_sum n m). }
    split; [unfold np.sum1; now rewrite !length_map|]. split.
    + apply (rankdata_offset _ _ 1).
      * unfold np.sum1, mixed_scores. now rewrite !length_map, length_seq.
      * intros i Hi. unfold np.sum1 in Hi. rewrite !length_map in Hi.
        rewrite mixed_scores_nth, Hpt, mixed_formula_only_min by (assumption || lia).
        rewrite Hc. lra.
    + intros i Hi. split; [now apply Hpt|].
      rewrite Hpt, mixed_formula_only_min by assumption. rewrite Hc. lra.
Qed.

Lemma Reqb_neq (x y : R) : x <> y -> Reqb x y = false.
Proof. apply Reqb_false. Qed.

Lemma vector_norm_one : norm.vector [[1]] = Ok [[1]].
Proof.
  unfold norm.vector. cbn [map reduce0 fold_left existsb map2].
  replace (1 * 1) with 1 by lra. rewrite sqrt_1.
  rewrite Reqb_neq by lra. cbn [orb]. do 3 f_equal. lra.
Qed.

(** C3 fails for all-MIN criteria: on the one-entry matrix [[1]] (positive
    and vector-normalized) with the single criterion MIN, the code scores
    1 - ln 1 = 1 while the general formula gives 0 - ln 1 = 0. *)
Lemma fmf_only_min_counterexample :
  norm.vector [[1]] = Ok [[1]] /\ positive [[1]] /\
  _fmf [[1]] [util.MIN] = Ok ([0%nat], [1]) /\
  mixed_formula [util.MIN] [[1]] 0 = 0 /\
  ~ special_cases_agree [[1]] [util.MIN].
Proof.
  assert (Hpos : positive [[1]]).
  { repeat constructor. lra. }
  assert (Hfmf : _fmf [[1]] [util.MIN] = Ok ([0%nat], [1])).
  { rewrite _fmf_only_min; [|assumption|repeat constructor|discriminate].
    cbn [map np.sum1 Rsum fold_right]. rewrite ln_1.
    replace (1 - (0 + 0)) with 1 by lra.
    unfold rank.rankdata. cbn [length seq map filter].
    now rewrite before_irrefl. }
  assert (Hmix : mixed_formula [util.MIN] [[1]] 0 = 0).
  { unfold mixed_formula, log_sum_where, entry.
    cbn [length sum_upto nth Z.eqb util.MIN util.MAX]. rewrite ln_1. simpl. lra. }
  split; [exact vector_norm_one|]. split; [exact Hpos|].
  split; [exact Hfmf|]. split; [exact Hmix|].
  intros [rnk [points [E H]]]. rewrite Hfmf in E. inversion E; subst.
  specialize (H 0%nat ltac:(simpl; lia)). rewrite Hmix in H.
  unfold at_ in H. simpl in H. lra.
Qed.

Lemma _fmf_ok (n m : nat) (nmtx : list (list R)) (criteria : list Z) :
  is_matrix n m nmtx -> positive nmtx -> length criteria = m -> criteria_ok criteria ->
  exists points,
    _fmf nmtx criteria = Ok (rank.rankdata points true, points) /\ length points = n.
Proof.
  intros Ha Hp Hc Hok. assert (Hn : length nmtx = n) by apply Ha.
  destruct (in_dec Z.eq_dec util.MIN criteria) as [Hmin|Hmin];
    [destruct (in_dec Z.eq_dec util.MAX criteria) as [Hmax|Hmax]|].
  - exists (mixed_points nmtx criteria). split; [now apply (_fmf_mixed n m)|].
    unfold mixed_points, np.sum1. rewrite length_map2; now rewrite !length_map.
  - eexists. split.
    + apply _fmf_only_min; [assumption| |intros E; rewrite E in Hmin; destruct Hmin].
      unfold criteria_ok in Hok. rewrite Forall_forall in *. intros c Hin.
      destruct (Hok c Hin) as [E|E]; [congruence|assumption].
    + unfold np.sum1. now rewrite !length_map.
  - eexists. split.
    + apply _fmf_only_max; [assumption|].
      unfold criteria_ok in Hok. rewrite Forall_forall in *. intros c Hin.
      destruct (Hok c Hin) as [E|E]; [assumption|congruence].
    + unfold np.sum1. now rewrite !length_map.
Qed.

(** ** Direction of the rankings *)

Lemma rankdata_ascending (pts : list R) :
  ranks_ascending (rank.rankdata pts false) pts.
Proof.
  destruct (rankdata_ranked pts false) as [Hl [Hmono [Hzero [Hbest Hex]]]].
  unfold better in *. repeat split; try assumption.
  intros i Hi H0 j Hj. specialize (Hzero i Hi H0 j Hj). lra.
Qed.

Lemma rankdata_descending (pts : list R) :
  ranks_descending (rank.rankdata pts true) pts.
Proof.
  destruct (rankdata_ranked pts true) as [Hl [Hmono [Hzero [Hbest Hex]]]].
  unfold better in *. repeat split; try assumption.
  intros i Hi H0 j Hj. specialize (Hzero i Hi H0 j Hj). lra.
Qed.

(** ** Pairs of alternatives *)

Lemma in_combinations2 (n i j : nat) :
  In (i, j) (combinations2 n) <-> (i < j)%nat /\ (j < n)%nat.
Proof.
  unfold combinations2. rewrite in_flat_map. split.
  - intros [x [Hx Hin]]. apply in_seq in Hx. apply in_map_iff in Hin.
    destruct Hin as [y [E Hy]]. inversion E; subst. apply in_seq in Hy. lia.
  - intros [Hij Hj]. exists i. split; [apply in_seq; lia|].
    apply in_map. apply in_seq. lia.
Qed.

Lemma NoDup_pairs (g : nat -> list nat) (l : list nat) :
  NoDup l -> (forall i, NoDup (g i)) ->
  NoDup (flat_map (fun i => map (pair i) (g i)) l).
Proof.
  intros Hl Hg. induction Hl as [|x l Hx Hl IH]; simpl; [constructor|].
  apply NoDup_app.
  - apply NoDup_map_NoDup_ForallPairs; [|apply Hg].
    intros a b _ _ E. now inversion E.
  - exact IH.
  - intros [a b] Hin Hin'. apply in_map_iff in Hin. destruct Hin as [y [E _]].
    inversion E; subst. apply in_flat_map in Hin'. destruct Hin' as [z [Hz Hin']].
    apply in_map_iff in Hin'. destruct Hin' as [y' [E' _]]. inversion E'; subst.
    contradiction.
Qed.

Lemma NoDup_combinations2 (n : nat) : NoDup (combinations2 n).
Proof.
  unfold combinations2.
  apply (NoDup_pairs (fun i => seq (S i) (n - S i))); intros; apply seq_NoDup.
Qed.

Lemma descending_sum (d s : nat) :
  (2 * list_sum (map (fun i => s + d - S i) (seq s d)) = d * (d - 1))%nat.
Proof.
  revert s; induction d as [|d IH]; intros s; [reflexivity|].
  simpl seq. simpl map. simpl list_sum.
  replace (map (fun i => s + S d - S i)%nat (seq (S s) d))
    with (map (fun i => S s + d - S i)%nat (seq (S s) d))
    by (apply map_ext; intros; lia).
  specialize (IH (S s)).
  replace (s + S d - S s)%nat with d by lia.
  destruct d as [|d]; [simpl in *; lia|].
  replace (S (S d) - 1)%nat with (S d) by lia.
  replace (S d - 1)%nat with d in IH by lia. nia.
Qed.

Lemma combinations2_length (n : nat) :
  length (combinations2 n) = (n * (n - 1) / 2)%nat.
Proof.
  unfold combinations2. rewrite length_flat_map.
  replace (map _ (seq 0 n)) with (map (fun i => 0 + n - S i)%nat (seq 0 n)).
  - assert (H := descending_sum n 0). rewrite <- H.
    rewrite Nat.mul_comm, Nat.div_mul by discriminate. reflexivity.
  - apply map_ext. intros i. now rewrite length_map, length_seq.
Qed.

(** ** The points tally *)

Lemma getitem_ok {A : Type} (l : list A) (k : nat) (d : A) :
  (k < length l)%nat -> getitem l k = Ok (nth k l d).
Proof.
  intros Hk. unfold getitem. now rewrite (nth_error_nth' l d Hk).
Qed.

Lemma iadd_ok (l : list R) (k : nat) (d : R) :
  (k < length l)%nat ->
  exists l',
    iadd l k d = Ok l' /\ length l' = length l /\
    Rsum l' = Rsum l + d /\
    forall j, at_ l' j = at_ l j + (if Nat.eqb j k then d else 0).
Proof.
  revert k; induction l as [|x l IH]; intros k Hk; simpl in Hk; [lia|].
  destruct k as [|k]; simpl.
  - eexists. split; [reflexivity|]. split; [reflexivity|]. split.
    + unfold Rsum. simpl. lra.
    + intros [|j]; unfold at_; simpl; lra.
  - destruct (IH k ltac:(lia)) as [l' [E [Hl [Hs Hat]]]].
    rewrite E. simpl. eexists. split; [reflexivity|].
    split; [simpl; congruence|]. split.
    + unfold Rsum in *. simpl. rewrite Hs. lra.
    + intros [|j]; unfold at_ in *; simpl; [lra|apply Hat].
Qed.

Lemma vote_ok (rank_mtx : list (list nat)) (points : list R) (idx : nat * nat) :
  (fst idx < length rank_mtx)%nat -> (snd idx < length rank_mtx)%nat ->
  length points = length rank_mtx ->
  exists points',
    vote rank_mtx points idx = Ok points' /\ length points' = length points /\
    Rsum points' = Rsum points + 1 /\
    forall k, at_ points' k =
              at_ points k + (if Nat.eqb (winner rank_mtx idx) k then 1 else 0).
Proof.
  destruct idx as [idx0 idx1]. simpl. intros H0 H1 Hl. unfold vote.
  rewrite (getitem_ok rank_mtx idx0 []), (getitem_ok rank_mtx idx1 []) by assumption.
  simpl. unfold winner. simpl.
  set (dom_idx := if Z.ltb 0 _ then idx0 else idx1).
  assert (Hd : (dom_idx < length points)%nat).
  { unfold dom_idx. destruct (Z.ltb 0 _); lia. }
  destruct (iadd_ok points dom_idx 1 Hd) as [l' [E [Hlen [Hs Hat]]]].
  exists l'. repeat split; try assumption.
  intros k. rewrite Hat. now rewrite (Nat.eqb_sym k dom_idx).
Qed.

Lemma votes_ok (rank_mtx : list (list nat)) (pairs : list (nat * nat)) (points : list R) :
  Forall (fun idx => (fst idx < length rank_mtx)%nat /\ (snd idx < length rank_mtx)%nat) pairs ->
  length points = length rank_mtx ->
  exists points',
    foldM (vote rank_mtx) pairs points = Ok points' /\
    length points' = length points /\
    Rsum points' = Rsum points + INR (length pairs) /\
    forall k, at_ points' k = at_ points k + INR (pairs_won rank_mtx pairs k).
Proof.
  revert points; induction pairs as [|idx pairs IH]; intros points Hin Hl.
  - exists points. simpl. repeat split; try lra. intros k. unfold pairs_won. simpl. lra.
  - inversion Hin as [|? ? [H0 H1] Hrest]; subst.
    destruct (vote_ok rank_mtx points idx H0 H1 Hl) as [p1 [E1 [Hl1 [Hs1 Hat1]]]].
    destruct (IH p1 Hrest ltac:(congruence)) as [p2 [E2 [Hl2 [Hs2 Hat2]]]].
    exists p2. cbn [foldM]. rewrite E1. cbn [bind]. split; [exact E2|].
    split; [congruence|]. split.
    + rewrite Hs2, Hs1. change (length (idx :: pairs)) with (S (length pairs)).
      rewrite S_INR. lra.
    + intros k. rewrite Hat2, Hat1. unfold pairs_won. cbn [filter].
      destruct (Nat.eqb (winner rank_mtx idx) k); cbn [length];
        [rewrite S_INR|]; lra.
Qed.

Lemma Rsum_repeat_zero (n : nat) : Rsum (repeat 0 n) = 0.
Proof. induction n as [|n IH]; [reflexivity|]. unfold Rsum in *. simpl. rewrite IH. lra. Qed.

Lemma at_repeat_zero (n k : nat) : at_ (repeat 0 n) k = 0.
Proof.
  unfold at_. revert k; induction n as [|n IH]; intros [|k]; simpl; auto.
Qed.

Lemma pairwise_points_ok (rank_mtx : list (list nat)) :
  exists points,
    pairwise_points rank_mtx = Ok points /\
    length points = length rank_mtx /\
    Rsum points = INR (length rank_mtx * (length rank_mtx - 1) / 2) /\
    forall k, at_ points k =
              INR (pairs_won rank_mtx (combinations2 (length rank_mtx)) k).
Proof.
  unfold pairwise_points.
  destruct (votes_ok rank_mtx (combinations2 (length rank_mtx))
              (repeat 0 (length rank_mtx))) as [points [E [Hl [Hs Hat]]]].
  - apply Forall_forall. intros [i j] Hin. apply in_combinations2 in Hin. simpl. lia.
  - apply repeat_length.
  - exists points. split; [exact E|]. split; [now rewrite Hl, repeat_length|]. split.
    + now rewrite Hs, Rsum_repeat_zero, combinations2_length, Rplus_0_l.
    + intros k. now rewrite Hat, at_repeat_zero, Rplus_0_l.
Qed.

(** ** Multi-MOORA *)

Lemma transpose3_length (r1 r2 r3 : list nat) :
  length (np.transpose [r1; r2; r3]) = length r1.
Proof. unfold np.transpose. now rewrite length_map, length_seq. Qed.

Lemma transpose3_nth (r1 r2 r3 : list nat) (i : nat) :
  (i < length r1)%nat ->
  nth i (np.transpose [r1; r2; r3]) [] = [nth i r1 0; nth i r2 0; nth i r3 0]%nat.
Proof.
  intros Hi. unfold np.transpose.
  rewrite (nth_map_in _ _ i [] 0%nat) by now rewrite length_seq.
  now rewrite seq_nth.
Qed.

Lemma multimoora_ok (n m : nat) (mtx nmtx : list (list R)) (criteria : list Z)
    (mnorm : list (list R) -> result (list (list R))) :
  mnorm mtx = Ok nmtx -> valid_input n m nmtx criteria ->
  exists p1 p2 p3 points,
    _ratio nmtx criteria (Scalar 1) = Ok (rank.rankdata p1 true, p1) /\
    _refpoint nmtx criteria (Scalar 1) = Ok (rank.rankdata p2 false, p2) /\
    _fmf nmtx criteria = Ok (rank.rankdata p3 true, p3) /\
    length p1 = n /\ length p2 = n /\ length p3 = n /\
    pairwise_points (np.transpose [rank.rankdata p1 true; rank.rankdata p2 false;
                                   rank.rankdata p3 true]) = Ok points /\
    multimoora mtx criteria mnorm =
    Ok (rank.rankdata points true,
        np.transpose [rank.rankdata p1 true; rank.rankdata p2 false;
                      rank.rankdata p3 true]).
Proof.
  intros Hnorm [Ha [Hn [Hm [Hp [Hc Hok]]]]].
  assert (Hl : length nmtx = n) by apply Ha.
  assert (E1 := _ratio_ok n m nmtx criteria (Scalar 1) Ha Hc I).
  assert (E2 := _refpoint_ok n m nmtx criteria (Scalar 1) Ha Hn Hm Hc I).
  destruct (_fmf_ok n m nmtx criteria Ha Hp Hc Hok) as [p3 [E3 Hl3]].
  cbv zeta in E1.
  set (p1 := map (fun row => np.dot row (cweights_of (Scalar 1) criteria)) nmtx) in *.
  set (p2 := refpoint_points nmtx criteria (Scalar 1)) in *.
  destruct (pairwise_points_ok
              (np.transpose [rank.rankdata p1 true; rank.rankdata p2 false;
                             rank.rankdata p3 true])) as [points [Ep _]].
  exists p1, p2, p3, points.
  split; [exact E1|]. split; [exact E2|]. split; [exact E3|].
  split; [unfold p1; now rewrite length_map|].
  split; [unfold p2, refpoint_points; now rewrite length_map|].
  split; [exact Hl3|]. split; [exact Ep|].
  unfold multimoora. rewrite Hnorm. cbn [bind].
  rewrite (criteriarr_ok criteria Hok). cbn [bind].
  rewrite E1, E2, E3. cbn [bind fst]. rewrite Ep. reflexivity.
Qed.

(** C10. On a valid input of n alternatives, the points tally of
    [multimoora] has n entries, each a non-negative integer, and they sum to
    n * (n - 1) / 2, one point per pair of alternatives; for n = 1 the tally
    is [0]. *)
Theorem multimoora_points_total
    (n m : nat) (mtx nmtx : matrix) (criteria : list Z)
    (mnorm : matrix -> result matrix) :
  mnorm mtx = Ok nmtx -> valid_input n m nmtx criteria ->
  exists final rank_mtx points,
    multimoora mtx criteria mnorm = Ok (final, rank_mtx) /\
    pairwise_points rank_mtx = Ok points /\
    final = rank.rankdata points true /\
    length points = n /\
    (forall k, (k < n)%nat -> exists c : nat, at_ points k = INR c) /\
    Rsum points = INR (n * (n - 1) / 2) /\
    (n = 1%nat -> points = [0]).
Proof.
  intros Hnorm Hv.
  destruct (multimoora_ok n m mtx nmtx criteria mnorm Hnorm Hv)
    as [p1 [p2 [p3 [points [_ [_ [_ [H1 [_ [_ [Ep E]]]]]]]]]]].
  set (rank_mtx := np.transpose [rank.rankdata p1 true; rank.rankdata p2 false;
                                 rank.rankdata p3 true]) in *.
  assert (Hrl : length rank_mtx = n).
  { unfold rank_mtx. now rewrite transpose3_length, rankdata_length. }
  destruct (pairwise_points_ok rank_mtx) as [points' [Ep' [Hl [Hs Hat]]]].
  rewrite Ep in Ep'. inversion Ep'; subst points'. rewrite Hrl in *.
  exists (rank.rankdata points true), rank_mtx, points.
  split; [exact E|]. split; [exact Ep|]. split; [reflexivity|].
  split; [exact Hl|]. split; [|split; [exact Hs|]].
  - intros k _. eexists. apply Hat.
  - intros ->. destruct points as [|x [|y l]]; simpl in Hl; try discriminate.
    specialize (Hat 0%nat). unfold at_, pairs_won in Hat. simpl in Hat.
    now rewrite Hat.
Qed.

(** ** Preprocessing of the full multiplicative form (modelled [norm]) *)

Lemma is_matrix_zero (m : nat) (a : list (list R)) : is_matrix 0 m a -> a = [].
Proof. intros [H _]. now destruct a. Qed.

Lemma is_matrix_map_map2 (f : R -> R -> R) (n m : nat) (a : list (list R)) (v : list R) :
  is_matrix n m a -> length v = m ->
  is_matrix n m (map (fun row => map2 f row v) a).
Proof.
  intros [Hn Hm] Hv. split; [now rewrite length_map|].
  apply Forall_forall. intros row Hrow. apply in_map_iff in Hrow.
  destruct Hrow as [r [<- Hr]]. rewrite Forall_forall in Hm.
  rewrite length_map2; rewrite (Hm r Hr); congruence.
Qed.

Lemma entry_map_map2 (f : R -> R -> R) (n m : nat) (a : list (list R)) (v : list R)
    (i j : nat) :
  is_matrix n m a -> length v = m -> (i < n)%nat -> (j < m)%nat ->
  entry (map (fun row => map2 f row v) a) i j = f (entry a i j) (at_ v j).
Proof.
  intros Ha Hv Hi Hj. unfold entry, at_.
  rewrite (nth_map_in _ a i [] []) by (destruct Ha; lia).
  apply nth_map2; rewrite (is_matrix_row n m a i Ha Hi); congruence || lia.
Qed.

Lemma positive_of_entries (n m : nat) (a : list (list R)) :
  is_matrix n m a ->
  (forall i j, (i < n)%nat -> (j < m)%nat -> 0 < entry a i j) -> positive a.
Proof.
  intros [Hn Hm] H. apply Forall_forall. intros row Hrow.
  apply Forall_forall. intros x Hx.
  destruct (In_nth _ _ [] Hrow) as [i [Hi Ei]].
  destruct (In_nth _ _ 0 Hx) as [j [Hj Ej]].
  rewrite Forall_forall in Hm. rewrite (Hm row Hrow) in Hj.
  specialize (H i j ltac:(lia) Hj). unfold entry in H. now rewrite Ei, Ej in H.
Qed.

Lemma push_negatives_nonneg (n m : nat) (a : list (list R)) :
  is_matrix n m a ->
  is_matrix n m (norm.push_negatives a) /\
  forall i j, (i < n)%nat -> (j < m)%nat -> 0 <= entry (norm.push_negatives a) i j.
Proof.
  intros Ha. destruct n as [|n].
  - rewrite (is_matrix_zero m a Ha). split; [split; [reflexivity|constructor]|]. lia.
  - assert (Hl : length (reduce0 Rmin a) = m) by (apply (reduce0_length _ (S n)); [assumption|lia]).
    unfold norm.push_negatives. split; [now apply is_matrix_map_map2|].
    intros i j Hi Hj. rewrite (entry_map_map2 _ (S n) m) by assumption.
    destruct (reduce0_min (S n) m a j Ha ltac:(lia) Hj) as [_ Hlb].
    specialize (Hlb i Hi).
    destruct (Rltb (at_ (reduce0 Rmin a) j) 0) eqn:E.
    + apply Rltb_true in E. rewrite Rabs_left by assumption. lra.
    + apply Rltb_false in E. lra.
Qed.

Lemma add1to0_positive (n m : nat) (a : list (list R)) :
  is_matrix n m a ->
  (forall i j, (i < n)%nat -> (j < m)%nat -> 0 <= entry a i j) ->
  is_matrix n m (norm.add1to0 a) /\
  forall i j, (i < n)%nat -> (j < m)%nat -> 0 < entry (norm.add1to0 a) i j.
Proof.
  intros Ha Hnn. destruct n as [|n].
  - rewrite (is_matrix_zero m a Ha). split; [split; [reflexivity|constructor]|]. lia.
  - assert (Hl : length (reduce0 Rmin a) = m) by (apply (reduce0_length _ (S n)); [assumption|lia]).
    unfold norm.add1to0. split; [now apply is_matrix_map_map2|].
    intros i j Hi Hj. rewrite (entry_map_map2 _ (S n) m) by assumption.
    destruct (reduce0_min (S n) m a j Ha ltac:(lia) Hj) as [[k [Hk Ek]] Hlb].
    specialize (Hlb i Hi). assert (Hk0 := Hnn k j Hk Hj). assert (Hi0 := Hnn i j Hi Hj).
    destruct (Reqb (at_ (reduce0 Rmin a) j) 0) eqn:E.
    + lra.
    + apply Reqb_false in E. lra.
Qed.

Lemma fold_Rplus_pos (xs : list R) (x : R) :
  0 < x -> Forall (fun y => 0 < y) xs -> 0 < fold_left Rplus xs x.
Proof.
  revert x; induction xs as [|y xs IH]; intros x Hx Hxs; simpl; [assumption|].
  inversion Hxs; subst. apply IH; [lra|assumption].
Qed.

Lemma vector_positive (n m : nat) (a : list (list R)) :
  is_matrix n m a ->
  (forall i j, (i < n)%nat -> (j < m)%nat -> 0 < entry a i j) ->
  exists nmtx,
    norm.vector a = Ok nmtx /\ is_matrix n m nmtx /\
    forall i j, (i < n)%nat -> (j < m)%nat -> 0 < entry nmtx i j.
Proof.
  intros Ha Hpos. destruct n as [|n].
  - rewrite (is_matrix_zero m a Ha). exists []. split; [reflexivity|].
    split; [split; [reflexivity|constructor]|]. lia.
  - set (sq := map (map (fun x => x * x)) a).
    assert (Hsq : is_matrix (S n) m sq).
    { destruct Ha as [Hn Hm]. split; [unfold sq; now rewrite length_map|].
      apply Forall_forall. intros row Hrow. apply in_map_iff in Hrow.
      destruct Hrow as [r [<- Hr]]. rewrite length_map.
      rewrite Forall_forall in Hm. now apply Hm. }
    set (norms := map sqrt (reduce0 Rplus sq)).
    assert (Hl : length norms = m).
    { unfold norms. rewrite length_map. apply (reduce0_length _ (S n)); [assumption|lia]. }
    assert (Hnorm : forall j, (j < m)%nat -> 0 < at_ norms j).
    { intros j Hj. unfold norms, at_.
      rewrite (nth_map_in sqrt _ j 0 0)
        by (rewrite (reduce0_length _ (S n) m); [assumption|assumption|lia]).
      apply sqrt_lt_R0. rewrite (reduce0_nth Rplus (S n) m) by assumption.
      destruct Ha as [Hn Hm]. destruct a as [|r rs]; [discriminate|].
      unfold sq. cbn [map reduce_list reduce1]. apply fold_Rplus_pos.
      - specialize (Hpos 0%nat j ltac:(lia) Hj). unfold entry in Hpos. simpl in Hpos.
        assert (Hr : length r = m) by (inversion Hm; assumption).
        rewrite (nth_map_in _ r j 0 0) by lia. nra.
      - apply Forall_forall. intros y Hy. rewrite map_map in Hy.
        apply in_map_iff in Hy. destruct Hy as [r' [<- Hr']].
        destruct (In_nth _ _ [] Hr') as [i [Hi Ei]].
        specialize (Hpos (S i) j ltac:(simpl in Hn; lia) Hj).
        unfold entry in Hpos. simpl in Hpos. rewrite Ei in Hpos.
        assert (Hrs : Forall (fun row => length row = m) rs) by (inversion Hm; assumption).
        rewrite Forall_forall in Hrs.
        rewrite (nth_map_in _ r' j 0 0) by (rewrite (Hrs r' Hr'); assumption). nra. }
    exists (map (fun row => map2 Rdiv row norms) a).
    split; [|split].
    + unfold norm.vector. fold sq. fold norms.
      replace (existsb (Reqb 0) norms) with false; [reflexivity|].
      symmetry. apply not_true_is_false. intros E.
      apply existsb_exists in E. destruct E as [x [Hx E]]. apply Reqb_true in E.
      destruct (In_nth _ _ 0 Hx) as [j [Hj Ej]]. rewrite Hl in Hj.
      specialize (Hnorm j Hj). unfold at_ in Hnorm. lra.
    + now apply is_matrix_map_map2.
    + intros i j Hi Hj. rewrite (entry_map_map2 _ (S n) m) by assumption.
      apply Rdiv_lt_0_compat; [now apply Hpos|now apply Hnorm].
Qed.

Lemma fmf_preprocessed (n m : nat) (mtx : list (list R)) :
  is_matrix n m mtx ->
  exists nmtx,
    norm.vector (norm.add1to0 (norm.push_negatives mtx)) = Ok nmtx /\
    is_matrix n m nmtx /\ positive nmtx.
Proof.
  intros Ha.
  destruct (push_negatives_nonneg n m mtx Ha) as [H1 N1].
  destruct (add1to0_positive n m _ H1 N1) as [H2 P2].
  destruct (vector_positive n m _ H2 P2) as [nmtx [E [H3 P3]]].
  exists nmtx. split; [exact E|]. split; [exact H3|].
  now apply (positive_of_entries n m).
Qed.

Lemma fmf_ok (n m : nat) (mtx : list (list R)) (criteria : list Z) :
  is_matrix n m mtx -> length criteria = m -> criteria_ok criteria ->
  exists rnk points, fmf mtx criteria norm.vector = Ok (rnk, points) /\ length points = n.
Proof.
  intros Ha Hc Hok. destruct (fmf_preprocessed n m mtx Ha) as [nmtx [E [H3 P3]]].
  destruct (_fmf_ok n m nmtx criteria H3 P3 Hc Hok) as [points [Ef Hl]].
  exists (rank.rankdata points true), points. split; [|exact Hl].
  unfold fmf. rewrite E. cbn [bind]. rewrite (criteriarr_ok criteria Hok). exact Ef.
Qed.

Lemma mapM_err {A B : Type} (f : A -> result B) (l : list A) (e e0 : error) :
  (forall x e', f x = Err e' -> e' = e0) -> mapM f l = Err e -> e = e0.
Proof.
  intros Hf. induction l as [|x l IH]; simpl; [discriminate|].
  destruct (f x) as [y|e'] eqn:Ex; simpl.
  - destruct (mapM f l) as [ys|e'']; simpl; [discriminate|].
    intros E. inversion E; subst. now apply IH.
  - intros E. inversion E; subst. now apply (Hf x).
Qed.

Lemma delete1_err (a : list (list R)) (obj : list nat) (e : error) :
  np.delete1 a obj = Err e -> e = IndexError.
Proof.
  apply mapM_err. intros row e'. unfold np.delete_row.
  destruct (forallb _ obj); [discriminate|]. now intros [= <-].
Qed.

Lemma truth_err (a : list Z) (e : error) : np.truth a = Err e -> e = ValueError.
Proof. destruct a as [|x [|y l]]; simpl; try discriminate. now intros [= <-]. Qed.

(** [np.log] is the only step of [_fmf] that can meet a non-positive entry. *)
Lemma _fmf_log_error (nmtx : list (list R)) (criteria : list Z) :
  _fmf nmtx criteria = Err LogOfNonPositive -> np.log nmtx = Err LogOfNonPositive.
Proof.
  unfold _fmf. destruct (np.log nmtx) as [lmtx|e]; [|simpl; congruence].
  cbn [bind]. intros H. exfalso.
  destruct (np.truth (np.setdiff1d criteria [util.MAX])) as [t1|e1] eqn:E1; cbn [bind] in H.
  2:{ apply truth_err in E1. congruence. }
  destruct (negb t1); cbn [bind] in H; [discriminate|].
  destruct (np.truth (np.setdiff1d criteria [util.MIN])) as [t2|e2] eqn:E2; cbn [bind] in H.
  2:{ apply truth_err in E2. congruence. }
  destruct (negb t2); cbn [bind] in H; [discriminate|].
  destruct (np.delete1 lmtx (np.argwhere_eq criteria util.MAX)) as [a1|e3] eqn:E3;
    cbn [bind] in H.
  2:{ apply delete1_err in E3. congruence. }
  destruct (np.delete1 lmtx (np.argwhere_eq criteria util.MIN)) as [a2|e4] eqn:E4;
    cbn [bind] in H.
  2:{ apply delete1_err in E4. congruence. }
  discriminate.
Qed.

(** C8. For every matrix, [fmf] applies [push_negatives], then [add1to0],
    then the normalization, in this order, before [_fmf] takes logarithms;
    with the vector normalization every entry that reaches the logarithm is
    strictly positive, so the logarithm never meets a non-positive value. *)
Theorem fmf_log_inputs_positive
    (n m : nat) (mtx : matrix) (criteria : list Z) :
  is_matrix n m mtx ->
  (forall mnorm : matrix -> result matrix,
     fmf mtx criteria mnorm =
     (nmtx <- mnorm (norm.add1to0 (norm.push_negatives mtx)) ;;
      ncriteria <- util.criteriarr criteria ;;
      _fmf nmtx ncriteria)) /\
  (exists nmtx lmtx,
     norm.vector (norm.add1to0 (norm.push_negatives mtx)) = Ok nmtx /\
     is_matrix n m nmtx /\ positive nmtx /\ np.log nmtx = Ok lmtx) /\
  fmf mtx criteria norm.vector <> Err LogOfNonPositive /\
  (length criteria = m -> criteria_ok criteria ->
   exists rnk points, fmf mtx criteria norm.vector = Ok (rnk, points)).
Proof.
  intros Ha. destruct (fmf_preprocessed n m mtx Ha) as [nmtx [E [H3 P3]]].
  split; [reflexivity|]. split; [|split].
  - exists nmtx, (map (map ln) nmtx). repeat split; try assumption; try apply H3.
    now apply log_ok.
  - unfold fmf. rewrite E. cbn [bind]. unfold util.criteriarr.
    destruct (forallb _ criteria); cbn [bind]; [|discriminate].
    intros H. apply _fmf_log_error in H. rewrite log_ok in H by assumption. discriminate.
  - intros Hc Hok. destruct (fmf_ok n m mtx criteria Ha Hc Hok) as [rnk [points [Ef _]]].
    now exists rnk, points.
Qed.

(** ** [multimoora] against [fmf] *)

Lemma multimoora_log_error (n m : nat) (mtx nmtx : list (list R)) (criteria : list Z)
    (mnorm : list (list R) -> result (list (list R))) (row : list R) (x : R) :
  mnorm mtx = Ok nmtx -> is_matrix n m nmtx -> (1 <= n)%nat -> (1 <= m)%nat ->
  length criteria = m -> criteria_ok criteria ->
  In row nmtx -> In x row -> x <= 0 ->
  multimoora mtx criteria mnorm = Err LogOfNonPositive.
Proof.
  intros Hnorm Ha Hn Hm Hc Hok Hrow Hx Hle.
  unfold multimoora. rewrite Hnorm. cbn [bind].
  rewrite (criteriarr_ok criteria Hok). cbn [bind].
  rewrite (_ratio_ok n m nmtx criteria (Scalar 1) Ha Hc I). cbn [bind].
  rewrite (_refpoint_ok n m nmtx criteria (Scalar 1) Ha Hn Hm Hc I). cbn [bind].
  unfold _fmf. rewrite (log_err nmtx row x Hrow Hx Hle). reflexivity.
Qed.

Lemma vector_norm_identity : norm.vector [[1; 0]; [0; 1]] = Ok [[1; 0]; [0; 1]].
Proof.
  unfold norm.vector. cbn [map reduce0 fold_left map2].
  replace (1 * 1 + 0 * 0) with 1 by lra. replace (0 * 0 + 1 * 1) with 1 by lra.
  rewrite sqrt_1. cbn [existsb]. rewrite Reqb_neq by lra. cbn [orb].
  replace (1 / 1) with 1 by lra. replace (0 / 1) with 0 by lra. reflexivity.
Qed.

(** C9. [multimoora] hands the normalized matrix to [_fmf] as it is, without
    [push_negatives] and [add1to0]: on the matrix [[1, 0], [0, 1]] (which the
    vector normalization leaves unchanged) with two MAX criteria, the
    logarithm inside [multimoora] is taken of the entry 0, whereas [fmf]
    on the same input first makes the matrix positive and returns.  The same
    happens on every input whose normalized matrix has an entry <= 0. *)
Theorem multimoora_log_of_non_positive :
  entry [[1; 0]; [0; 1]] 0 1 = 0 /\
  norm.vector [[1; 0]; [0; 1]] = Ok [[1; 0]; [0; 1]] /\
  np.log [[1; 0]; [0; 1]] = Err LogOfNonPositive /\
  _fmf [[1; 0]; [0; 1]] [util.MAX; util.MAX] = Err LogOfNonPositive /\
  multimoora [[1; 0]; [0; 1]] [util.MAX; util.MAX] norm.vector = Err LogOfNonPositive /\
  (exists rnk points,
     fmf [[1; 0]; [0; 1]] [util.MAX; util.MAX] norm.vector = Ok (rnk, points)) /\
  (forall n m mtx nmtx criteria (mnorm : matrix -> result matrix) i j,
     mnorm mtx = Ok nmtx -> is_matrix n m nmtx ->
     length criteria = m -> criteria_ok criteria ->
     (i < n)%nat -> (j < m)%nat -> entry nmtx i j <= 0 ->
     multimoora mtx criteria mnorm = Err LogOfNonPositive).
Proof.
  assert (Hlog : np.log [[1; 0]; [0; 1]] = Err LogOfNonPositive).
  { apply (log_err _ [1; 0] 0); simpl; auto. lra. }
  assert (Hm : is_matrix 2 2 [[1; 0]; [0; 1]]).
  { split; [reflexivity|]. repeat constructor. }
  assert (Hok : criteria_ok [util.MAX; util.MAX]).
  { unfold criteria_ok. repeat (apply Forall_cons; [auto|]). apply Forall_nil. }
  split; [reflexivity|]. split; [exact vector_norm_identity|]. split; [exact Hlog|].
  split; [unfold _fmf; now rewrite Hlog|]. split; [|split].
  - apply (multimoora_log_error 2 2 _ [[1; 0]; [0; 1]] _ _ [1; 0] 0);
      try assumption; try exact vector_norm_identity; simpl; auto; lra.
  - destruct (fmf_ok 2 2 [[1; 0]; [0; 1]] [util.MAX; util.MAX] Hm eq_refl Hok)
      as [rnk [points [E _]]].
    now exists rnk, points.
  - intros n m mtx nmtx criteria mnorm i j Hnorm Ha Hc Hcok Hi Hj Hle.
    apply (multimoora_log_error n m mtx nmtx criteria mnorm (nth i nmtx []) (entry nmtx i j));
      try assumption; try lia.
    + apply nth_In. destruct Ha; lia.
    + apply nth_In. now rewrite (is_matrix_row n m).
Qed.

(** ** The theorems at concrete inputs *)

Lemma vector_norm_example :
  norm.vector [[3; 3]; [4; 4]] = Ok [[3 / 5; 3 / 5]; [4 / 5; 4 / 5]].
Proof.
  unfold norm.vector. cbn [map reduce0 fold_left map2].
  replace (3 * 3 + 4 * 4) with (5 * 5) by lra.
  rewrite sqrt_square by lra. cbn [existsb]. rewrite Reqb_neq by lra.
  reflexivity.
Qed.

Lemma valid_input_example :
  valid_input 2 2 [[3 / 5; 3 / 5]; [4 / 5; 4 / 5]] [util.MAX; util.MIN].
Proof.
  unfold valid_input.
  split; [shape|]. split; [lia|]. split; [lia|].
  split; [all_positive|]. split; [reflexivity|all_criteria].
Qed.

Lemma fmf_special_cases_witness :
  is_matrix 2 2 [[1; 2]; [3; 4]] /\ positive [[1; 2]; [3; 4]] /\
  (exists rnk points,
     _fmf [[1; 2]; [3; 4]] [util.MAX; util.MAX] = Ok (rnk, points) /\
     length points = 2%nat /\
     rnk = rank.rankdata (mixed_scores [util.MAX; util.MAX] [[1; 2]; [3; 4]]) true /\
     forall i, (i < 2)%nat ->
       at_ points i = sum_upto 2 (fun j => ln (entry [[1; 2]; [3; 4]] i j)) /\
       at_ points i = mixed_formula [util.MAX; util.MAX] [[1; 2]; [3; 4]] i) /\
  (exists rnk points,
     _fmf [[1; 2]; [3; 4]] [util.MIN; util.MIN] = Ok (rnk, points) /\
     length points = 2%nat /\
     rnk = rank.rankdata (mixed_scores [util.MIN; util.MIN] [[1; 2]; [3; 4]]) true /\
     forall i, (i < 2)%nat ->
       at_ points i = 1 - sum_upto 2 (fun j => ln (entry [[1; 2]; [3; 4]] i j)) /\
       at_ points i = mixed_formula [util.MIN; util.MIN] [[1; 2]; [3; 4]] i + 1).
Proof.
  assert (Hm : is_matrix 2 2 [[1; 2]; [3; 4]]) by shape.
  assert (Hp : positive [[1; 2]; [3; 4]]) by all_positive.
  split; [exact Hm|]. split; [exact Hp|]. split.
  - apply (fmf_special_cases 2 2 [[1; 2]; [3; 4]] [util.MAX; util.MAX] Hm Hp eq_refl).
    repeat constructor.
  - apply (fmf_special_cases 2 2 [[1; 2]; [3; 4]] [util.MIN; util.MIN] Hm Hp eq_refl).
    + repeat constructor.
    + lia.
Defined.

Lemma fmf_mixed_score_witness :
  is_matrix 2 2 [[1; 2]; [3; 4]] /\ positive [[1; 2]; [3; 4]] /\
  criteria_ok [util.MAX; util.MIN] /\
  In util.MAX [util.MAX; util.MIN] /\ In util.MIN [util.MAX; util.MIN] /\
  exists rnk points,
    _fmf [[1; 2]; [3; 4]] [util.MAX; util.MIN] = Ok (rnk, points) /\
    length points = 2%nat /\
    forall i, (i < 2)%nat ->
      at_ points i =
      log_sum_where util.MAX [util.MAX; util.MIN] [[1; 2]; [3; 4]] i
      - log_sum_where util.MIN [util.MAX; util.MIN] [[1; 2]; [3; 4]] i.
Proof.
  assert (Hm : is_matrix 2 2 [[1; 2]; [3; 4]]) by shape.
  assert (Hp : positive [[1; 2]; [3; 4]]) by all_positive.
  assert (Hc : criteria_ok [util.MAX; util.MIN]) by all_criteria.
  assert (Hmax : In util.MAX [util.MAX; util.MIN]) by (simpl; auto).
  assert (Hmin : In util.MIN [util.MAX; util.MIN]) by (simpl; auto).
  repeat (split; [assumption|]).
  exact (fmf_mixed_score 2 2 [[1; 2]; [3; 4]] [util.MAX; util.MIN]
           Hm Hp eq_refl Hc Hmax Hmin).
Defined.

Lemma ratio_score_is_inner_product_witness :
  is_matrix 2 2 [[3 / 5; 3 / 5]; [4 / 5; 4 / 5]] /\
  exists rnk points,
    _ratio [[3 / 5; 3 / 5]; [4 / 5; 4 / 5]] [util.MAX; util.MIN] (Vector [1 / 4; 3 / 4])
      = Ok (rnk, points) /\
    length points = 2%nat /\
    forall i, (i < 2)%nat ->
      at_ points i =
      sum_upto 2 (fun j => entry [[3 / 5; 3 / 5]; [4 / 5; 4 / 5]] i j
                           * at_ [1 / 4; 3 / 4] j
                           * IZR (nth j [util.MAX; util.MIN] 0%Z)).
Proof.
  assert (Hm : is_matrix 2 2 [[3 / 5; 3 / 5]; [4 / 5; 4 / 5]]) by shape.
  split; [exact Hm|].
  exact (ratio_score_is_inner_product 2 2 _ [util.MAX; util.MIN] [1 / 4; 3 / 4]
           Hm eq_refl eq_refl).
Defined.

Lemma refpoint_score_is_max_deviation_witness :
  is_matrix 2 2 [[3 / 5; 3 / 5]; [4 / 5; 4 / 5]] /\
  weights_ok 2 (Scalar 1) /\
  exists rnk points reference,
    _refpoint [[3 / 5; 3 / 5]; [4 / 5; 4 / 5]] [util.MAX; util.MIN] (Scalar 1)
      = Ok (rnk, points) /\
    length points = 2%nat /\ length reference = 2%nat /\
    (forall j, (j < 2)%nat ->
       if Z.eqb (nth j [util.MAX; util.MIN] 0%Z) util.MAX
       then is_max_of (at_ reference j) 2
              (fun i => entry [[3 / 5; 3 / 5]; [4 / 5; 4 / 5]] i j)
       else is_min_of (at_ reference j) 2
              (fun i => entry [[3 / 5; 3 / 5]; [4 / 5; 4 / 5]] i j)) /\
    (forall i, (i < 2)%nat ->
       is_max_of (at_ points i) 2
         (fun j => Rabs (weight_of (Scalar 1) j
                         * (entry [[3 / 5; 3 / 5]; [4 / 5; 4 / 5]] i j - at_ reference j)))).
Proof.
  assert (Hm : is_matrix 2 2 [[3 / 5; 3 / 5]; [4 / 5; 4 / 5]]) by shape.
  split; [exact Hm|]. split; [exact I|].
  exact (refpoint_score_is_max_deviation 2 2 _ [util.MAX; util.MIN] (Scalar 1)
           Hm ltac:(lia) ltac:(lia) eq_refl I).
Defined.

Lemma fmf_log_inputs_positive_witness :
  is_matrix 2 2 [[-1; 0]; [2; 0]] /\
  (exists nmtx lmtx,
     norm.vector (norm.add1to0 (norm.push_negatives [[-1; 0]; [2; 0]])) = Ok nmtx /\
     is_matrix 2 2 nmtx /\ positive nmtx /\ np.log nmtx = Ok lmtx) /\
  fmf [[-1; 0]; [2; 0]] [util.MAX; util.MIN] norm.vector <> Err LogOfNonPositive /\
  exists rnk points,
    fmf [[-1; 0]; [2; 0]] [util.MAX; util.MIN] norm.vector = Ok (rnk, points).
Proof.
  assert (Hm : is_matrix 2 2 [[-1; 0]; [2; 0]]) by shape.
  destruct (fmf_log_inputs_positive 2 2 [[-1; 0]; [2; 0]] [util.MAX; util.MIN] Hm)
    as [_ [A [B C]]].
  split; [exact Hm|]. split; [exact A|]. split; [exact B|].
  apply C; [reflexivity|all_criteria].
Defined.

Lemma multimoora_points_total_witness :
  norm.vector [[3; 3]; [4; 4]] = Ok [[3 / 5; 3 / 5]; [4 / 5; 4 / 5]] /\
  valid_input 2 2 [[3 / 5; 3 / 5]; [4 / 5; 4 / 5]] [util.MAX; util.MIN] /\
  exists final rank_mtx points,
    multimoora [[3; 3]; [4; 4]] [util.MAX; util.MIN] norm.vector = Ok (final, rank_mtx) /\
    pairwise_points rank_mtx = Ok points /\
    final = rank.rankdata points true /\
    length points = 2%nat /\
    (forall k, (k < 2)%nat -> exists c : nat, at_ points k = INR c) /\
    Rsum points = INR (2 * (2 - 1) / 2) /\
    (2%nat = 1%nat -> points = [0]).
Proof.
  split; [exact vector_norm_example|]. split; [exact valid_input_example|].
  exact (multimoora_points_total 2 2 [[3; 3]; [4; 4]] _ [util.MAX; util.MIN]
           norm.vector vector_norm_example valid_input_example).
Defined.

(** ** Examples

    The example of the docstring of [ratio] (ranks [2, 1, 0] and its three
    scores), and two alternatives one of which is ahead in all three
    methods. *)

Ltac decide_R :=
  repeat match goal with
  | |- context [Rltb ?x ?y] =>
      (rewrite (proj2 (Rltb_true x y)) by lra) ||
      (rewrite (proj2 (Rltb_false x y)) by lra)
  | |- context [Reqb ?x ?y] =>
      (rewrite (proj2 (Reqb_true x y)) by lra) ||
      (rewrite (proj2 (Reqb_false x y)) by lra)
  end.

Lemma rankdata_descending3 (a b c : R) :
  a < b -> b < c -> rank.rankdata [a; b; c] true = [2; 1; 0]%nat.
Proof.
  intros Hab Hbc. unfold rank.rankdata, rank.before, at_.
  cbn [length seq map filter nth Nat.ltb Nat.leb].
  decide_R. reflexivity.
Qed.

Lemma inv_sqrt_bounds (k lo hi : R) :
  0 < k -> 0 < lo -> 0 < hi -> lo * lo * k < 1 -> 1 < hi * hi * k ->
  lo < 1 / sqrt k < hi.
Proof.
  intros Hk Hlo Hhi H1 H2.
  assert (Hs : 0 < sqrt k) by now apply sqrt_lt_R0.
  assert (Hss : sqrt k * sqrt k = k) by (apply sqrt_sqrt; lra).
  set (r := 1 / sqrt k).
  assert (Hr : 0 < r) by (unfold r; apply Rdiv_lt_0_compat; lra).
  assert (Hrs : r * sqrt k = 1) by (unfold r; field; lra).
  assert (Hrr : r * r * k = 1).
  { rewrite <- Hss. replace (r * r * (sqrt k * sqrt k)) with ((r * sqrt k) * (r * sqrt k)) by ring.
    rewrite Hrs. ring. }
  split.
  - destruct (Rlt_dec lo r) as [L|L]; [assumption|]. exfalso.
    assert (r * r <= lo * lo) by nra. nra.
  - destruct (Rlt_dec r hi) as [L|L]; [assumption|]. exfalso.
    assert (hi * hi <= r * r) by nra. nra.
Qed.

(** [moora.ratio([[1,2,3], [1,1,4], [2,0,1]], [1,-1,1])] gives
    [rnk = array([2, 1, 0])] and
    [points = array([0.1021695, 0.74549924, 1.01261272])]. *)
Example ratio_docstring_example :
  exists points,
    ratio [[1; 2; 3]; [1; 1; 4]; [2; 0; 1]] [1; -1; 1]%Z None norm.vector norm.sum
      = Ok ([2; 1; 0]%nat, points) /\
    Rabs (at_ points 0 - 0.1021695) < 0.0000001 /\
    Rabs (at_ points 1 - 0.74549924) < 0.0000001 /\
    Rabs (at_ points 2 - 1.01261272) < 0.0000001.
Proof.
  unfold ratio, norm.vector. cbn [map reduce0 fold_left map2].
  replace (1 * 1 + 1 * 1 + 2 * 2) with 6 by lra.
  replace (2 * 2 + 1 * 1 + 0 * 0) with 5 by lra.
  replace (3 * 3 + 4 * 4 + 1 * 1) with 26 by lra.
  assert (H6 : 0 < sqrt 6) by (apply sqrt_lt_R0; lra).
  assert (H5 : 0 < sqrt 5) by (apply sqrt_lt_R0; lra).
  assert (H26 : 0 < sqrt 26) by (apply sqrt_lt_R0; lra).
  cbn [existsb]. rewrite !Reqb_neq by lra. cbn [orb bind].
  rewrite criteriarr_ok by all_criteria. cbn [bind].
  rewrite (_ratio_ok 3 3) by (shape || reflexivity || exact I).
  cbn [map np.dot Rsum map2 fold_right cweights_of].
  destruct (inv_sqrt_bounds 6 0.4082482904 0.4082482905) as [L6 U6]; try lra.
  destruct (inv_sqrt_bounds 5 0.4472135954 0.4472135955) as [L5 U5]; try lra.
  destruct (inv_sqrt_bounds 26 0.1961161351 0.1961161352) as [L26 U26]; try lra.
  unfold Rdiv in *. rewrite Rmult_1_l in L6, U6, L5, U5, L26, U26.
  match goal with |- exists p, Ok (_, ?pts) = _ /\ _ => exists pts end.
  split.
  - do 2 f_equal. apply rankdata_descending3; lra.
  - unfold at_; cbn [nth]. repeat split; apply Rabs_def1; lra.
Qed.

Ltac decide_minmax :=
  repeat match goal with
  | |- context [Rmax ?x ?y] =>
      (rewrite (Rmax_left x y) by lra) || (rewrite (Rmax_right x y) by lra)
  | |- context [Rmin ?x ?y] =>
      (rewrite (Rmin_left x y) by lra) || (rewrite (Rmin_right x y) by lra)
  | |- context [Rabs ?x] =>
      (rewrite (Rabs_pos_eq x) by lra) || (rewrite (Rabs_left1 x) by lra)
  end.

Lemma rankdata2 (a b : R) :
  a < b ->
  rank.rankdata [a; b] false = [0; 1]%nat /\ rank.rankdata [a; b] true = [1; 0]%nat /\
  rank.rankdata [b; a] false = [1; 0]%nat /\ rank.rankdata [b; a] true = [0; 1]%nat.
Proof.
  intros Hab. unfold rank.rankdata, rank.before, at_.
  cbn [length seq map filter nth Nat.ltb Nat.leb].
  decide_R. cbn. auto.
Qed.

Ltac rank2 :=
  repeat match goal with
  | |- context [rank.rankdata [?a; ?b] false] =>
      first [ rewrite (proj1 (rankdata2 a b ltac:(lra)))
            | rewrite (proj1 (proj2 (proj2 (rankdata2 b a ltac:(lra))))) ]
  | |- context [rank.rankdata [?a; ?b] true] =>
      first [ rewrite (proj1 (proj2 (rankdata2 a b ltac:(lra))))
            | rewrite (proj2 (proj2 (proj2 (rankdata2 b a ltac:(lra))))) ]
  end.

(** The second alternative is ranked 0 by the three methods, takes the point
    of the only pair and is ranked 0. *)
Example multimoora_dominating_alternative :
  multimoora [[3; 3]; [4; 4]] [util.MAX; util.MAX] norm.vector
  = Ok ([1; 0]%nat, [[1; 1; 1]; [0; 0; 0]]%nat).
Proof.
  unfold multimoora. rewrite vector_norm_example. cbn [bind].
  rewrite criteriarr_ok by all_criteria. cbn [bind].
  rewrite (_ratio_ok 2 2) by (shape || reflexivity || exact I). cbn [bind fst].
  rewrite (_refpoint_ok 2 2) by (shape || reflexivity || exact I || lia). cbn [bind fst].
  rewrite _fmf_only_max by (all_positive || (repeat constructor)). cbn [bind fst].
  cbn [map np.dot Rsum map2 fold_right cweights_of np.sum1].
  unfold refpoint_points, deviation_row, reference_of, weighted_row, np.where_eq.
  cbn [map map2 reduce0 fold_left combine reduce_list reduce1 Z.eqb util.MAX fst snd
       Pos.eqb].
  unfold util.MAX. decide_minmax.
  assert (Hln : ln (3 / 5) < ln (4 / 5)) by (apply ln_increasing; lra).
  rank2.
  cbn -[rank.rankdata Rplus]. rank2. reflexivity.
Qed.

(** * Further properties of the code *)

(** ** The loop of [multimoora] *)

Lemma filter_flat_map {A B : Type} (p : B -> bool) (g : A -> list B) (l : list A) :
  filter p (flat_map g l) = flat_map (fun x => filter p (g x)) l.
Proof.
  induction l as [|x l IH]; simpl; [reflexivity|].
  now rewrite filter_app, IH.
Qed.

Lemma count_seq_eq (k a len : nat) :
  length (filter (fun j => Nat.eqb j k) (seq a len)) =
  if (Nat.leb a k && Nat.ltb k (a + len))%bool then 1%nat else 0%nat.
Proof.
  revert a; induction len as [|len IH]; intros a; simpl.
  - destruct (Nat.leb a k) eqn:E1; simpl; [|reflexivity].
    destruct (Nat.ltb k (a + 0)) eqn:E2; [|reflexivity].
    apply Nat.leb_le in E1. apply Nat.ltb_lt in E2. lia.
  - destruct (Nat.eqb a k) eqn:E; simpl; rewrite IH.
    + apply Nat.eqb_eq in E. subst a.
      replace (Nat.leb (S k) k) with false by (symmetry; apply Nat.leb_gt; lia).
      rewrite Nat.leb_refl. simpl.
      replace (Nat.ltb k (k + S len)) with true by (symmetry; apply Nat.ltb_lt; lia).
      reflexivity.
    + apply Nat.eqb_neq in E.
      destruct (Nat.leb (S a) k) eqn:E1; destruct (Nat.leb a k) eqn:E2;
        destruct (Nat.ltb k (S a + len)) eqn:E3; destruct (Nat.ltb k (a + S len)) eqn:E4;
        simpl; try reflexivity;
        repeat match goal with
        | H : Nat.leb _ _ = true |- _ => apply Nat.leb_le in H
        | H : Nat.leb _ _ = false |- _ => apply Nat.leb_gt in H
        | H : Nat.ltb _ _ = true |- _ => apply Nat.ltb_lt in H
        | H : Nat.ltb _ _ = false |- _ => apply Nat.ltb_ge in H
        end; lia.
Qed.

Lemma list_sum_indicator (p : nat -> bool) (l : list nat) :
  list_sum (map (fun i => if p i then 1%nat else 0%nat) l) = length (filter p l).
Proof.
  induction l as [|x l IH]; simpl; [reflexivity|].
  rewrite IH. now destruct (p x).
Qed.

Lemma list_sum_zero {A : Type} (f : A -> nat) (l : list A) :
  (forall x, In x l -> f x = 0%nat) -> list_sum (map f l) = 0%nat.
Proof.
  induction l as [|x l IH]; intros H; simpl; [reflexivity|].
  rewrite (H x (or_introl eq_refl)), IH; [reflexivity|].
  intros y Hy. apply H. now right.
Qed.

Lemma filter_pair_snd (q : nat -> bool) (i : nat) (l : list nat) :
  length (filter (fun idx => q (snd idx)) (map (pair i) l)) = length (filter q l).
Proof.
  induction l as [|x l IH]; simpl; [reflexivity|].
  destruct (q x); simpl; now rewrite IH.
Qed.

Lemma winner_beats (rank_mtx : list (list nat)) (i j : nat) :
  winner rank_mtx (i, j) = if beats rank_mtx i j then i else j.
Proof. reflexivity. Qed.

(** The pairs that alternative [k] wins among those that start with [i]. *)
Lemma pairs_won_row (rank_mtx : list (list nat)) (n k i : nat) :
  (k < n)%nat ->
  length (filter (fun idx => Nat.eqb (winner rank_mtx idx) k)
                 (map (pair i) (seq (S i) (n - S i)))) =
  if Nat.eqb i k
  then length (filter (beats rank_mtx k) (seq (S k) (n - S k)))
  else if Nat.ltb i k
       then (if negb (beats rank_mtx i k) then 1%nat else 0%nat)
       else 0%nat.
Proof.
  intros Hk. destruct (Nat.eqb i k) eqn:E.
  - apply Nat.eqb_eq in E. subst i.
    assert (Hall : forall x, In x (seq (S k) (n - S k)) -> (k < x)%nat).
    { intros x Hx. apply in_seq in Hx. lia. }
    induction (seq (S k) (n - S k)) as [|x l IH]; [reflexivity|].
    simpl. rewrite winner_beats.
    assert (Hx : (k < x)%nat) by (apply Hall; now left).
    destruct (beats rank_mtx k x); simpl.
    + rewrite Nat.eqb_refl. simpl. f_equal. apply IH. intros y Hy. apply Hall. now right.
    + replace (Nat.eqb x k) with false by (symmetry; apply Nat.eqb_neq; lia).
      apply IH. intros y Hy. apply Hall. now right.
  - apply Nat.eqb_neq in E.
    rewrite (filter_ext_in _ (fun idx => (Nat.eqb (snd idx) k && negb (beats rank_mtx i k))%bool)).
    + rewrite (filter_pair_snd (fun j => (Nat.eqb j k && negb (beats rank_mtx i k))%bool)).
      destruct (negb (beats rank_mtx i k)) eqn:Eb.
      * rewrite (filter_ext _ (fun j => Nat.eqb j k)) by (intros; apply andb_true_r).
        rewrite count_seq_eq.
        destruct (Nat.ltb i k) eqn:El.
        -- apply Nat.ltb_lt in El.
           replace (Nat.leb (S i) k) with true by (symmetry; apply Nat.leb_le; lia).
           replace (Nat.ltb k (S i + (n - S i))) with true by (symmetry; apply Nat.ltb_lt; lia).
           reflexivity.
        -- apply Nat.ltb_ge in El.
           replace (Nat.leb (S i) k) with false by (symmetry; apply Nat.leb_gt; lia).
           reflexivity.
      * rewrite (filter_ext _ (fun _ => false)) by (intros; apply andb_false_r).
        replace (filter (fun _ : nat => false) (seq (S i) (n - S i))) with (@nil nat).
        -- now destruct (Nat.ltb i k).
        -- induction (seq (S i) (n - S i)); simpl; auto.
    + intros [a b] Hin. apply in_map_iff in Hin. destruct Hin as [j [Ej Hj]].
      inversion Ej; subst a b. simpl. rewrite winner_beats.
      destruct (beats rank_mtx i j) eqn:Eb.
      * replace (Nat.eqb i k) with false by (symmetry; now apply Nat.eqb_neq).
        destruct (Nat.eqb j k) eqn:Ejk; [|reflexivity].
        apply Nat.eqb_eq in Ejk. subst j. now rewrite Eb.
      * destruct (Nat.eqb j k) eqn:Ejk; [|reflexivity].
        apply Nat.eqb_eq in Ejk. subst j. now rewrite Eb.
Qed.

Lemma pairs_won_formula (rank_mtx : list (list nat)) (n k : nat) :
  (k < n)%nat ->
  pairs_won rank_mtx (combinations2 n) k =
  (length (filter (beats rank_mtx k) (seq (S k) (n - S k)))
   + length (filter (fun i => negb (beats rank_mtx i k)) (seq 0 k)))%nat.
Proof.
  intros Hk. unfold pairs_won, combinations2.
  rewrite filter_flat_map, length_flat_map.
  rewrite (map_ext _ _ (fun i => pairs_won_row rank_mtx n k i Hk)).
  replace n with (k + (n - k))%nat at 1 by lia.
  rewrite seq_app, map_app, list_sum_app. simpl Nat.add.
  replace (n - k)%nat with (S (n - S k)) by lia.
  cbn [seq map]. rewrite Nat.eqb_refl.
  change (list_sum (?x :: ?l)) with (x + list_sum l)%nat.
  rewrite (list_sum_zero _ (seq (S k) (n - S k))).
  - rewrite (map_ext_in _ (fun i => if negb (beats rank_mtx i k) then 1%nat else 0%nat)).
    + rewrite list_sum_indicator. lia.
    + intros i Hi. apply in_seq in Hi.
      replace (Nat.eqb i k) with false by (symmetry; apply Nat.eqb_neq; lia).
      replace (Nat.ltb i k) with true by (symmetry; apply Nat.ltb_lt; lia).
      reflexivity.
  - intros i Hi. apply in_seq in Hi.
    replace (Nat.eqb i k) with false by (symmetry; apply Nat.eqb_neq; lia).
    replace (Nat.ltb i k) with false by (symmetry; apply Nat.ltb_ge; lia).
    reflexivity.
Qed.

Lemma filter_length_bound {A : Type} (p : A -> bool) (l : list A) :
  (length (filter p l) <= length l)%nat.
Proof. induction l as [|x l IH]; simpl; [lia|]. destruct (p x); simpl; lia. Qed.

Lemma filter_length_all {A : Type} (p : A -> bool) (l : list A) :
  (forall x, In x l -> p x = true) -> length (filter p l) = length l.
Proof.
  induction l as [|x l IH]; intros H; simpl; [reflexivity|].
  rewrite (H x (or_introl eq_refl)). simpl. f_equal. apply IH.
  intros y Hy. apply H. now right.
Qed.

(** X1. Whatever the rank matrix of n rows, the loop of [multimoora] ends
    without an index error, and the tally of alternative k is the number of
    later alternatives j > k it beats (dominance value > 0) plus the number of
    earlier alternatives i < k that do not beat it; so no alternative has more
    than n - 1 points. *)
Theorem pairwise_points_count (rank_mtx : list (list nat)) :
  exists points,
    pairwise_points rank_mtx = Ok points /\
    length points = length rank_mtx /\
    forall k, (k < length rank_mtx)%nat ->
      at_ points k =
      INR (length (filter (fun j => Z.ltb 0 (rank.dominance (nth k rank_mtx [])
                                                            (nth j rank_mtx [])))
                          (seq (S k) (length rank_mtx - S k)))
           + length (filter (fun i => negb (Z.ltb 0 (rank.dominance (nth i rank_mtx [])
                                                                    (nth k rank_mtx []))))
                            (seq 0 k))) /\
      at_ points k <= INR (length rank_mtx - 1).
Proof.
  destruct (pairwise_points_ok rank_mtx) as [points [E [Hl [_ Hat]]]].
  exists points. split; [exact E|]. split; [exact Hl|].
  intros k Hk. rewrite Hat, (pairs_won_formula rank_mtx _ k Hk).
  split; [reflexivity|]. apply le_INR.
  assert (H1 := filter_length_bound (beats rank_mtx k) (seq (S k) (length rank_mtx - S k))).
  assert (H2 := filter_length_bound (fun i => negb (beats rank_mtx i k)) (seq 0 k)).
  rewrite length_seq in H1, H2. lia.
Qed.

(** X2. The tie-break of the loop of [multimoora] favours the later
    alternative: when no pair (i, j), i < j, has a positive dominance value,
    alternative k ends with k points; when every such pair has one,
    alternative k ends with n - 1 - k points. *)
Theorem pairwise_points_extremes (rank_mtx : list (list nat)) :
  ((forall i j, (i < j)%nat -> (j < length rank_mtx)%nat ->
      (rank.dominance (nth i rank_mtx []) (nth j rank_mtx []) <= 0)%Z) ->
   exists points,
     pairwise_points rank_mtx = Ok points /\
     forall k, (k < length rank_mtx)%nat -> at_ points k = INR k) /\
  ((forall i j, (i < j)%nat -> (j < length rank_mtx)%nat ->
      (0 < rank.dominance (nth i rank_mtx []) (nth j rank_mtx []))%Z) ->
   exists points,
     pairwise_points rank_mtx = Ok points /\
     forall k, (k < length rank_mtx)%nat ->
       at_ points k = INR (length rank_mtx - 1 - k)).
Proof.
  destruct (pairwise_points_ok rank_mtx) as [points [E [Hl [_ Hat]]]].
  split; intros H; exists points; (split; [exact E|]); intros k Hk;
    rewrite Hat, (pairs_won_formula rank_mtx _ k Hk); f_equal.
  - rewrite (proj2 (filter_nil_iff _ _)).
    + rewrite filter_length_all; [now rewrite length_seq|].
      intros i Hi. apply in_seq in Hi. unfold beats.
      apply negb_true_iff, Z.ltb_ge. apply H; lia.
    + intros j Hj. apply in_seq in Hj. unfold beats. apply Z.ltb_ge. apply H; lia.
  - rewrite filter_length_all.
    + rewrite (proj2 (filter_nil_iff _ _)); [rewrite length_seq; lia|].
      intros i Hi. apply in_seq in Hi. unfold beats.
      apply negb_false_iff, Z.ltb_lt. apply H; lia.
    + intros j Hj. apply in_seq in Hj. unfold beats. apply Z.ltb_lt. apply H; lia.
Qed.

Lemma pairwise_points_extremes_witness :
  (exists points,
     pairwise_points [[0; 0; 0]; [0; 0; 0]; [0; 0; 0]]%nat = Ok points /\
     forall k, (k < 3)%nat -> at_ points k = INR k) /\
  (exists points,
     pairwise_points [[0; 0; 0]; [1; 1; 1]; [2; 2; 2]]%nat = Ok points /\
     forall k, (k < 3)%nat -> at_ points k = INR (3 - 1 - k)).
Proof.
  split.
  - apply (proj1 (pairwise_points_extremes [[0; 0; 0]; [0; 0; 0]; [0; 0; 0]]%nat)).
    intros i j Hij Hj. simpl in Hj.
    destruct i as [|[|[|i]]]; destruct j as [|[|[|j]]]; try lia; vm_compute; discriminate.
  - apply (proj2 (pairwise_points_extremes [[0; 0; 0]; [1; 1; 1]; [2; 2; 2]]%nat)).
    intros i j Hij Hj. simpl in Hj.
    destruct i as [|[|[|i]]]; destruct j as [|[|[|j]]]; try lia; vm_compute; reflexivity.
Defined.

(** ** The reference-point step *)

Lemma reference_of_spec (n m : nat) (nmtx : list (list R)) (criteria : list Z) (j : nat) :
  is_matrix n m nmtx -> (1 <= n)%nat -> length criteria = m -> (j < m)%nat ->
  if Z.eqb (nth j criteria 0%Z) util.MAX
  then is_max_of (at_ (reference_of nmtx criteria) j) n (fun i => entry nmtx i j)
  else is_min_of (at_ (reference_of nmtx criteria) j) n (fun i => entry nmtx i j).
Proof.
  intros Ha Hn Hc Hj. rewrite (reference_of_nth n m) by assumption.
  destruct (Z.eqb (nth j criteria 0%Z) util.MAX).
  - now apply (reduce0_max n m).
  - now apply (reduce0_min n m).
Qed.

Lemma refpoint_points_spec (n m : nat) (nmtx : list (list R)) (criteria : list Z)
    (w : weight_arg) (i : nat) :
  is_matrix n m nmtx -> (1 <= n)%nat -> (1 <= m)%nat ->
  length criteria = m -> weights_ok m w -> (i < n)%nat ->
  is_max_of (at_ (refpoint_points nmtx criteria w) i) m
    (fun j => Rabs (weight_of w j
                    * (entry nmtx i j - at_ (reference_of nmtx criteria) j))).
Proof.
  intros Ha Hn Hm Hc Hw Hi. unfold refpoint_points.
  assert (Hrow : length (nth i nmtx []) = m) by now apply (is_matrix_row n m).
  rewrite (at_map _ nmtx [] i) by (destruct Ha; lia).
  assert (Hl := deviation_row_length n m nmtx criteria w _ Ha Hn Hc Hw Hrow).
  assert (Hne : deviation_row nmtx criteria w (nth i nmtx []) <> []).
  { intros E. rewrite E in Hl. simpl in Hl. lia. }
  apply reduce_list_max in Hne. rewrite Hl in Hne.
  revert Hne. apply is_max_of_ext. intros j Hj.
  now apply (deviation_row_nth n m).
Qed.

Lemma refpoint_points_length (nmtx : list (list R)) (criteria : list Z) (w : weight_arg) :
  length (refpoint_points nmtx criteria w) = length nmtx.
Proof. unfold refpoint_points. now rewrite length_map. Qed.

(** X3. The scores of the reference-point step are never negative, and an
    alternative scores 0 exactly when, in every column, its weight is 0 or
    its entry is the reference value of the column (the column maximum for a
    MAX criterion, the column minimum otherwise). *)
Theorem refpoint_score_zero_iff
    (n m : nat) (nmtx : matrix) (criteria : list Z) (w : weight_arg) :
  is_matrix n m nmtx -> (1 <= n)%nat -> (1 <= m)%nat ->
  length criteria = m -> weights_ok m w ->
  exists rnk points reference,
    _refpoint nmtx criteria w = Ok (rnk, points) /\
    (forall j, (j < m)%nat ->
       if Z.eqb (nth j criteria 0%Z) util.MAX
       then is_max_of (at_ reference j) n (fun i => entry nmtx i j)
       else is_min_of (at_ reference j) n (fun i => entry nmtx i j)) /\
    forall i, (i < n)%nat ->
      0 <= at_ points i /\
      (at_ points i = 0 <->
       forall j, (j < m)%nat -> weight_of w j = 0 \/ entry nmtx i j = at_ reference j).
Proof.
  intros Ha Hn Hm Hc Hw.
  exists (rank.rankdata (refpoint_points nmtx criteria w) false),
         (refpoint_points nmtx criteria w), (reference_of nmtx criteria).
  split; [now apply (_refpoint_ok n m)|].
  split; [intros j Hj; now apply (reference_of_spec n m)|].
  intros i Hi.
  destruct (refpoint_points_spec n m nmtx criteria w i Ha Hn Hm Hc Hw Hi)
    as [[j0 [Hj0 E0]] Hub].
  split; [rewrite <- E0; apply Rabs_pos|]. split.
  - intros Hz j Hj. specialize (Hub j Hj). rewrite Hz in Hub.
    assert (Hp := Rabs_pos (weight_of w j
                            * (entry nmtx i j - at_ (reference_of nmtx criteria) j))).
    assert (Habs : Rabs (weight_of w j
                         * (entry nmtx i j - at_ (reference_of nmtx criteria) j)) = 0) by lra.
    destruct (Req_dec (weight_of w j
                       * (entry nmtx i j - at_ (reference_of nmtx criteria) j)) 0) as [Ez|Ez].
    + apply Rmult_integral in Ez. destruct Ez as [Ez|Ez]; [now left|right; lra].
    + exfalso. now apply (Rabs_no_R0 _ Ez).
  - intros Hall. rewrite <- E0.
    destruct (Hall j0 Hj0) as [Ez|Ez]; rewrite Ez.
    + now rewrite Rmult_0_l, Rabs_R0.
    + now rewrite Rminus_diag, Rmult_0_r, Rabs_R0.
Qed.

Lemma refpoint_score_zero_iff_witness :
  is_matrix 2 2 [[3 / 5; 3 / 5]; [4 / 5; 4 / 5]] /\
  weights_ok 2 (Vector [1 / 4; 3 / 4]) /\
  exists rnk points reference,
    _refpoint [[3 / 5; 3 / 5]; [4 / 5; 4 / 5]] [util.MAX; util.MIN] (Vector [1 / 4; 3 / 4])
      = Ok (rnk, points) /\
    (forall j, (j < 2)%nat ->
       if Z.eqb (nth j [util.MAX; util.MIN] 0%Z) util.MAX
       then is_max_of (at_ reference j) 2
              (fun i => entry [[3 / 5; 3 / 5]; [4 / 5; 4 / 5]] i j)
       else is_min_of (at_ reference j) 2
              (fun i => entry [[3 / 5; 3 / 5]; [4 / 5; 4 / 5]] i j)) /\
    forall i, (i < 2)%nat ->
      0 <= at_ points i /\
      (at_ points i = 0 <->
       forall j, (j < 2)%nat ->
         weight_of (Vector [1 / 4; 3 / 4]) j = 0 \/
         entry [[3 / 5; 3 / 5]; [4 / 5; 4 / 5]] i j = at_ reference j).
Proof.
  assert (Hm : is_matrix 2 2 [[3 / 5; 3 / 5]; [4 / 5; 4 / 5]]) by shape.
  split; [exact Hm|]. split; [reflexivity|].
  exact (refpoint_score_zero_iff 2 2 _ [util.MAX; util.MIN] (Vector [1 / 4; 3 / 4])
           Hm ltac:(lia) ltac:(lia) eq_refl eq_refl).
Defined.

Lemma is_max_of_unique (v v' : R) (m : nat) (f : nat -> R) :
  is_max_of v m f -> is_max_of v' m f -> v = v'.
Proof.
  intros [[j [Hj E]] Hub] [[j' [Hj' E']] Hub'].
  specialize (Hub j' Hj'). specialize (Hub' j Hj). lra.
Qed.

Lemma is_min_of_unique (v v' : R) (m : nat) (f : nat -> R) :
  is_min_of v m f -> is_min_of v' m f -> v = v'.
Proof.
  intros [[j [Hj E]] Hlb] [[j' [Hj' E']] Hlb'].
  specialize (Hlb j' Hj'). specialize (Hlb' j Hj). lra.
Qed.

Lemma rankdata_scale (a b : list R) (c : R) (reverse : bool) :
  0 < c -> length a = length b ->
  (forall i, (i < length a)%nat -> at_ a i = c * at_ b i) ->
  rank.rankdata a reverse = rank.rankdata b reverse.
Proof.
  intros Hc Hl H. apply rankdata_ext; [assumption|].
  intros i j Hi Hj. apply eq_true_iff_eq. rewrite !before_iff.
  rewrite (H i Hi), (H j Hj). unfold better.
  destruct reverse; split; intros [L|[E L]];
    try (left; nra); right; (split; [nra|lia]).
Qed.

Lemma sum_upto_scale (m : nat) (c : R) (f : nat -> R) :
  sum_upto m (fun j => c * f j) = c * sum_upto m f.
Proof. induction m as [|m IH]; simpl; [lra|]. rewrite IH. ring. Qed.

(** X4. A positive scalar weight only rescales the scores: with the scalar
    weight c > 0 the ratio step and the reference-point step return c times
    the scores they return with the weight 1, and the same rank vectors. *)
Theorem scalar_weight_rescales
    (n m : nat) (nmtx : matrix) (criteria : list Z) (c : R) :
  is_matrix n m nmtx -> (1 <= n)%nat -> (1 <= m)%nat -> length criteria = m ->
  0 < c ->
  (exists rnk points1 pointsc,
     _ratio nmtx criteria (Scalar 1) = Ok (rnk, points1) /\
     _ratio nmtx criteria (Scalar c) = Ok (rnk, pointsc) /\
     forall i, (i < n)%nat -> at_ pointsc i = c * at_ points1 i) /\
  (exists rnk points1 pointsc,
     _refpoint nmtx criteria (Scalar 1) = Ok (rnk, points1) /\
     _refpoint nmtx criteria (Scalar c) = Ok (rnk, pointsc) /\
     forall i, (i < n)%nat -> at_ pointsc i = c * at_ points1 i).
Proof.
  intros Ha Hn Hm Hc Hpos. assert (Hl : length nmtx = n) by apply Ha. split.
  - assert (Hs : forall i, (i < n)%nat ->
              at_ (map (fun row => np.dot row (cweights_of (Scalar c) criteria)) nmtx) i =
              c * at_ (map (fun row => np.dot row (cweights_of (Scalar 1) criteria)) nmtx) i).
    { intros i Hi. rewrite !(at_map _ nmtx [] i) by lia.
      rewrite !(dot_sum_upto m);
        try (now apply (is_matrix_row n m)); try (now apply cweights_of_length).
      rewrite <- sum_upto_scale. apply sum_upto_ext. intros j Hj.
      rewrite !(cweights_of_nth m) by (simpl; auto). simpl. ring. }
    eexists _, _, _. split; [now apply (_ratio_ok n m)|]. split.
    + rewrite (_ratio_ok n m) by (simpl; auto). do 2 f_equal.
      apply (rankdata_scale _ _ c); [assumption|now rewrite !length_map|].
      intros i Hi. rewrite length_map in Hi. apply Hs. lia.
    + exact Hs.
  - assert (Hs : forall i, (i < n)%nat ->
              at_ (refpoint_points nmtx criteria (Scalar c)) i =
              c * at_ (refpoint_points nmtx criteria (Scalar 1)) i).
    { intros i Hi.
      assert (H1 := refpoint_points_spec n m nmtx criteria (Scalar 1) i Ha Hn Hm Hc I Hi).
      assert (H2 := refpoint_points_spec n m nmtx criteria (Scalar c) i Ha Hn Hm Hc I Hi).
      apply (is_max_of_unique _ _ m _ H2).
      destruct H1 as [[j [Hj E]] Hub]. simpl in *. split.
      - exists j. split; [assumption|]. rewrite <- E.
        rewrite !Rabs_mult, (Rabs_pos_eq c), (Rabs_pos_eq 1) by lra. ring.
      - intros k Hk. specialize (Hub k Hk).
        rewrite !Rabs_mult, (Rabs_pos_eq c) by lra.
        rewrite Rabs_mult, (Rabs_pos_eq 1) in Hub by lra. nra. }
    eexists _, _, _. split; [now apply (_refpoint_ok n m)|]. split.
    + rewrite (_refpoint_ok n m) by (simpl; auto). do 2 f_equal.
      apply (rankdata_scale _ _ c); [assumption|now rewrite !refpoint_points_length|].
      intros i Hi. rewrite refpoint_points_length in Hi. apply Hs. lia.
    + exact Hs.
Qed.

Lemma is_max_of_shift (v t : R) (m : nat) (f : nat -> R) :
  is_max_of v m f -> is_max_of (v + t) m (fun j => f j + t).
Proof.
  intros [[j [Hj E]] Hub]. split.
  - exists j. split; [assumption|]. now rewrite E.
  - intros k Hk. specialize (Hub k Hk). lra.
Qed.

Lemma is_min_of_shift (v t : R) (m : nat) (f : nat -> R) :
  is_min_of v m f -> is_min_of (v + t) m (fun j => f j + t).
Proof.
  intros [[j [Hj E]] Hlb]. split.
  - exists j. split; [assumption|]. now rewrite E.
  - intros k Hk. specialize (Hlb k Hk). lra.
Qed.

Lemma shift_columns_matrix (n m : nat) (t : list R) (a : list (list R)) :
  is_matrix n m a -> length t = m -> is_matrix n m (shift_columns t a).
Proof. intros. now apply is_matrix_map_map2. Qed.

Lemma shift_columns_entry (n m : nat) (t : list R) (a : list (list R)) (i j : nat) :
  is_matrix n m a -> length t = m -> (i < n)%nat -> (j < m)%nat ->
  entry (shift_columns t a) i j = entry a i j + at_ t j.
Proof. intros. unfold shift_columns. now rewrite (entry_map_map2 _ n m). Qed.

Lemma reference_of_shift (n m : nat) (t : list R) (a : list (list R))
    (criteria : list Z) (j : nat) :
  is_matrix n m a -> (1 <= n)%nat -> length criteria = m -> length t = m -> (j < m)%nat ->
  at_ (reference_of (shift_columns t a) criteria) j =
  at_ (reference_of a criteria) j + at_ t j.
Proof.
  intros Ha Hn Hc Ht Hj.
  assert (Hs := shift_columns_matrix n m t a Ha Ht).
  assert (H1 := reference_of_spec n m a criteria j Ha Hn Hc Hj).
  assert (H2 := reference_of_spec n m (shift_columns t a) criteria j Hs Hn Hc Hj).
  destruct (Z.eqb (nth j criteria 0%Z) util.MAX).
  - apply (is_max_of_unique _ _ n _ H2).
    apply (is_max_of_ext _ n (fun i => entry a i j + at_ t j)).
    + intros i Hi. symmetry. now apply (shift_columns_entry n m).
    + now apply is_max_of_shift.
  - apply (is_min_of_unique _ _ n _ H2).
    apply (is_min_of_ext _ n (fun i => entry a i j + at_ t j)).
    + intros i Hi. symmetry. now apply (shift_columns_entry n m).
    + now apply is_min_of_shift.
Qed.

(** X5. The reference-point step measures distances to the reference point
    only: adding a constant to every entry of a column (one constant per
    column) changes neither the scores nor the ranks. *)
Theorem refpoint_shift_invariant
    (n m : nat) (nmtx : matrix) (criteria : list Z) (w : weight_arg) (t : vec) :
  is_matrix n m nmtx -> (1 <= n)%nat -> (1 <= m)%nat ->
  length criteria = m -> weights_ok m w -> length t = m ->
  exists rnk points,
    _refpoint nmtx criteria w = Ok (rnk, points) /\
    _refpoint (shift_columns t nmtx) criteria w = Ok (rnk, points).
Proof.
  intros Ha Hn Hm Hc Hw Ht.
  assert (Hs := shift_columns_matrix n m t nmtx Ha Ht).
  assert (Hl : length nmtx = n) by apply Ha.
  assert (E : refpoint_points (shift_columns t nmtx) criteria w =
              refpoint_points nmtx criteria w).
  { apply (nth_ext _ _ 0 0).
    - rewrite !refpoint_points_length. unfold shift_columns. now rewrite length_map.
    - intros i Hi. rewrite refpoint_points_length in Hi.
      assert (Hi' : (i < n)%nat) by (destruct Hs; lia).
      assert (H1 := refpoint_points_spec n m nmtx criteria w i Ha Hn Hm Hc Hw Hi').
      assert (H2 := refpoint_points_spec n m _ criteria w i Hs Hn Hm Hc Hw Hi').
      apply (is_max_of_unique _ _ m _ H2).
      revert H1. apply is_max_of_ext. intros j Hj.
      rewrite (shift_columns_entry n m), (reference_of_shift n m) by assumption.
      do 2 f_equal. ring. }
  exists (rank.rankdata (refpoint_points nmtx criteria w) false),
         (refpoint_points nmtx criteria w).
  split; [now apply (_refpoint_ok n m)|].
  rewrite (_refpoint_ok n m) by assumption. now rewrite E.
Qed.

(** ** Shapes that do not fit *)

Lemma inner_mismatch (row : list R) (rows : list (list R)) (b : list R) :
  length row <> length b -> np.inner (row :: rows) b = Err ValueError.
Proof.
  intros H. unfold np.inner. simpl.
  replace (Nat.eqb (length row) (length b)) with false; [reflexivity|].
  symmetry. now apply Nat.eqb_neq.
Qed.

(** X6. The ratio step checks the shapes: on a matrix of n >= 1 rows and m
    columns, criteria of another length than m (with a scalar weight, or with
    as many weights as criteria) end in a ValueError; so do weights and
    criteria whose lengths differ and are both other than 1. *)
Theorem ratio_shape_mismatch
    (n m : nat) (nmtx : matrix) (criteria : list Z) (w : weight_arg) :
  is_matrix n m nmtx -> (1 <= n)%nat ->
  (length criteria <> m -> weights_ok (length criteria) w ->
   _ratio nmtx criteria w = Err ValueError) /\
  (forall ws, w = Vector ws -> length ws <> length criteria ->
     length ws <> 1%nat -> length criteria <> 1%nat ->
     _ratio nmtx criteria w = Err ValueError).
Proof.
  intros Ha Hn. split.
  - intros Hc Hw. unfold _ratio.
    assert (E : np.multiply w (map IZR criteria) = Ok (cweights_of w criteria)).
    { destruct w as [s|ws]; simpl in *; [reflexivity|].
      apply broadcast2_same. now rewrite length_map. }
    rewrite E. cbn [bind].
    destruct Ha as [Hl Hrows]. destruct nmtx as [|row rows]; [simpl in Hl; lia|].
    rewrite inner_mismatch; [reflexivity|].
    inversion Hrows; subst. rewrite (cweights_of_length (length criteria)); auto.
  - intros ws -> H1 H2 H3. unfold _ratio, np.multiply, np.broadcast2.
    rewrite length_map.
    replace (Nat.eqb (length ws) (length criteria)) with false
      by (symmetry; now apply Nat.eqb_neq).
    destruct ws as [|x [|y ws]]; simpl in *; try lia; try reflexivity.
    + destruct criteria as [|c [|c' cs]]; simpl in *; try lia; reflexivity.
    + destruct criteria as [|c [|c' cs]]; simpl in *; try lia; reflexivity.
Qed.

Lemma ratio_shape_mismatch_witness :
  is_matrix 2 2 [[1; 2]; [3; 4]] /\
  _ratio [[1; 2]; [3; 4]] [util.MAX] (Scalar 1) = Err ValueError /\
  _ratio [[1; 2]; [3; 4]] [util.MAX; util.MIN; util.MAX] (Vector [1; 1]) = Err ValueError.
Proof.
  assert (Hm : is_matrix 2 2 [[1; 2]; [3; 4]]) by shape.
  split; [exact Hm|]. split.
  - apply (proj1 (ratio_shape_mismatch 2 2 _ [util.MAX] (Scalar 1) Hm ltac:(lia)));
      [simpl; lia|exact I].
  - apply (proj2 (ratio_shape_mismatch 2 2 _ [util.MAX; util.MIN; util.MAX]
                    (Vector [1; 1]) Hm ltac:(lia)) [1; 1] eq_refl); simpl; lia.
Defined.

Lemma map2_const_l {A B C : Type} (f : A -> B -> C) (x : A) (ys : list B) :
  map2 f (repeat x (length ys)) ys = map (f x) ys.
Proof. induction ys as [|y ys IH]; simpl; [reflexivity|]. now rewrite IH. Qed.

(** X7. The reference-point step does not check the length of the criteria:
    a one-element criteria array is broadcast over all the columns, that is,
    it gives the result of m copies of that criterion. *)
Theorem refpoint_single_criterion
    (n m : nat) (nmtx : matrix) (c : Z) (w : weight_arg) :
  is_matrix n m nmtx -> (1 <= n)%nat ->
  _refpoint nmtx [c] w = _refpoint nmtx (repeat c m) w.
Proof.
  intros Ha Hn. unfold _refpoint.
  assert (Emax : np.max0 nmtx = Ok (reduce0 Rmax nmtx)).
  { destruct Ha as [Hl _]. destruct nmtx; simpl in *; [lia|reflexivity]. }
  assert (Emin : np.min0 nmtx = Ok (reduce0 Rmin nmtx)).
  { destruct Ha as [Hl _]. destruct nmtx; simpl in *; [lia|reflexivity]. }
  rewrite Emax, Emin. cbn [bind].
  assert (Hl : length (combine (reduce0 Rmax nmtx) (reduce0 Rmin nmtx)) = m).
  { rewrite length_combine, !(reduce0_length _ n m) by assumption. lia. }
  assert (E : np.where_ (np.where_eq [c] util.MAX) (reduce0 Rmax nmtx) (reduce0 Rmin nmtx) =
              np.where_ (np.where_eq (repeat c m) util.MAX)
                        (reduce0 Rmax nmtx) (reduce0 Rmin nmtx)).
  { unfold np.where_.
    rewrite (broadcast2_same _ (np.where_eq (repeat c m) util.MAX))
      by (unfold np.where_eq; now rewrite length_map, repeat_length).
    unfold np.where_eq. rewrite map_repeat, <- Hl, map2_const_l.
    unfold np.broadcast2. cbn [map length].
    destruct (Nat.eqb 1 (length (combine (reduce0 Rmax nmtx) (reduce0 Rmin nmtx)))) eqn:E1;
      [|reflexivity].
    apply Nat.eqb_eq in E1.
    destruct (combine (reduce0 Rmax nmtx) (reduce0 Rmin nmtx)) as [|p [|q l]];
      simpl in E1; try discriminate. reflexivity. }
  now rewrite E.
Qed.

Lemma refpoint_single_criterion_witness :
  is_matrix 2 2 [[1; 2]; [3; 4]] /\
  _refpoint [[1; 2]; [3; 4]] [util.MIN] (Scalar 1) =
  _refpoint [[1; 2]; [3; 4]] (repeat util.MIN 2) (Scalar 1).
Proof.
  assert (Hm : is_matrix 2 2 [[1; 2]; [3; 4]]) by shape.
  split; [exact Hm|].
  exact (refpoint_single_criterion 2 2 _ util.MIN (Scalar 1) Hm ltac:(lia)).
Defined.

Lemma _refpoint_deviations (n m : nat) (nmtx : list (list R)) (criteria : list Z)
    (w : weight_arg) :
  is_matrix n m nmtx -> (1 <= n)%nat -> length criteria = m -> weights_ok m w ->
  _refpoint nmtx criteria w =
  (rank_mtx <- np.max1 (map (deviation_row nmtx criteria w) nmtx) ;;
   Ok (rank.rankdata rank_mtx false, rank_mtx)).
Proof.
  intros Ha Hn Hc Hw. unfold _refpoint.
  assert (Emax : np.max0 nmtx = Ok (reduce0 Rmax nmtx)).
  { destruct Ha as [Hl _]. destruct nmtx; simpl in *; [lia|reflexivity]. }
  assert (Emin : np.min0 nmtx = Ok (reduce0 Rmin nmtx)).
  { destruct Ha as [Hl _]. destruct nmtx; simpl in *; [lia|reflexivity]. }
  rewrite Emax, Emin. cbn [bind].
  assert (Ewhere : np.where_ (np.where_eq criteria util.MAX)
                     (reduce0 Rmax nmtx) (reduce0 Rmin nmtx)
                   = Ok (reference_of nmtx criteria)).
  { unfold np.where_. apply broadcast2_same. unfold np.where_eq.
    rewrite length_map, length_combine, !(reduce0_length _ n m) by assumption. lia. }
  rewrite Ewhere. cbn [bind].
  assert (Hrl := reference_of_length n m nmtx criteria Ha Hn Hc).
  assert (Esub : np.subtract2 nmtx (reference_of nmtx criteria)
                 = Ok (map (fun row => map2 Rminus row (reference_of nmtx criteria)) nmtx)).
  { unfold np.subtract2. apply mapM_map. intros row Hrow.
    apply broadcast2_same. rewrite (is_matrix_in n m nmtx row Ha Hrow). congruence. }
  rewrite Esub. cbn [bind].
  assert (Emul : np.multiply2 w
                   (map (fun row => map2 Rminus row (reference_of nmtx criteria)) nmtx)
                 = Ok (map (weighted_row w)
                        (map (fun row => map2 Rminus row (reference_of nmtx criteria)) nmtx))).
  { destruct w as [s|ws]; simpl in *; [reflexivity|].
    apply mapM_map. intros row Hrow. apply broadcast2_same.
    apply in_map_iff in Hrow. destruct Hrow as [r [<- Hr]].
    rewrite length_map2; rewrite (is_matrix_in n m nmtx r Ha Hr); congruence. }
  rewrite Emul. cbn [bind]. unfold np.abs. rewrite !map_map. reflexivity.
Qed.

(** X8. On a matrix with rows but no columns (and no criteria) the ratio step
    and the full multiplicative form score every alternative 0, whereas the
    reference-point step ends in a ValueError: a row of nothing has no
    maximum. *)
Theorem no_columns (n : nat) (nmtx : matrix) (w : weight_arg) :
  is_matrix n 0 nmtx -> (1 <= n)%nat -> weights_ok 0 w ->
  (exists rnk points,
     _ratio nmtx [] w = Ok (rnk, points) /\ length points = n /\
     forall i, (i < n)%nat -> at_ points i = 0) /\
  (exists rnk points,
     _fmf nmtx [] = Ok (rnk, points) /\ length points = n /\
     forall i, (i < n)%nat -> at_ points i = 0) /\
  _refpoint nmtx [] w = Err ValueError.
Proof.
  intros Ha Hn Hw. assert (Hl : length nmtx = n) by apply Ha.
  assert (Hrow : forall i, (i < n)%nat -> nth i nmtx [] = []).
  { intros i Hi. apply length_zero_iff_nil. now apply (is_matrix_row n 0). }
  split; [|split].
  - eexists _, _. split; [now apply (_ratio_ok n 0)|].
    split; [now rewrite length_map|].
    intros i Hi. rewrite (at_map _ nmtx [] i) by lia. now rewrite Hrow.
  - assert (Hp : positive nmtx).
    { apply (positive_of_entries n 0); [assumption|]. intros i j _ Hj. lia. }
    eexists _, _. split; [apply _fmf_only_max; [assumption|constructor]|].
    split; [unfold np.sum1; now rewrite !length_map|].
    intros i Hi. unfold np.sum1. rewrite map_map.
    rewrite (at_map _ nmtx [] i) by lia. now rewrite Hrow.
  - rewrite (_refpoint_deviations n 0) by (assumption || reflexivity).
    destruct nmtx as [|row rows]; [simpl in Hl; lia|].
    assert (E : deviation_row (row :: rows) [] w row = []).
    { apply length_zero_iff_nil.
      apply (deviation_row_length n 0); try assumption; try reflexivity.
      apply (is_matrix_in n 0 _ row Ha). now left. }
    cbn [map np.max1 mapM]. rewrite E. reflexivity.
Qed.

Lemma no_columns_witness :
  is_matrix 2 0 [[]; []] /\
  (exists rnk points,
     _ratio [[]; []] [] (Scalar 1) = Ok (rnk, points) /\ length points = 2%nat /\
     forall i, (i < 2)%nat -> at_ points i = 0) /\
  (exists rnk points,
     _fmf [[]; []] [] = Ok (rnk, points) /\ length points = 2%nat /\
     forall i, (i < 2)%nat -> at_ points i = 0) /\
  _refpoint [[]; []] [] (Scalar 1) = Err ValueError.
Proof.
  assert (Hm : is_matrix 2 0 [[]; []]) by shape.
  split; [exact Hm|].
  exact (no_columns 2 [[]; []] (Scalar 1) Hm ltac:(lia) I).
Defined.

(** ** The full multiplicative form *)

Lemma existsb_argwhere_eq_any (criteria : list Z) (v : Z) (j : nat) :
  v <> 0%Z ->
  existsb (Nat.eqb j) (np.argwhere_eq criteria v) = Z.eqb (nth j criteria 0%Z) v.
Proof.
  intros Hv. destruct (Nat.lt_ge_cases j (length criteria)) as [L|L].
  - now apply existsb_argwhere_eq.
  - rewrite (nth_overflow criteria 0%Z L).
    replace (Z.eqb 0 v) with false by (symmetry; apply Z.eqb_neq; congruence).
    apply not_true_is_false. intros E. apply existsb_exists in E.
    destruct E as [k [Hk E]]. apply Nat.eqb_eq in E. subst k.
    apply in_argwhere_eq in Hk. lia.
Qed.

Lemma delete_row_short (criteria : list Z) (v : Z) (row : list R) :
  (length criteria <= length row)%nat ->
  np.delete_row (np.argwhere_eq criteria v) row =
  Ok (np.keep (np.argwhere_eq criteria v) row).
Proof.
  intros Hlen. unfold np.delete_row.
  replace (forallb _ (np.argwhere_eq criteria v)) with true; [reflexivity|].
  symmetry. apply forallb_forall. intros k Hk. apply Nat.ltb_lt.
  apply in_argwhere_eq in Hk. lia.
Qed.

Lemma Rsum_keep_any (criteria : list Z) (v : Z) (row : list R) :
  v <> 0%Z ->
  Rsum (np.keep (np.argwhere_eq criteria v) row) =
  sum_upto (length row)
    (fun j => if Z.eqb (nth j criteria 0%Z) v then 0 else nth j row 0).
Proof.
  intros Hv. unfold np.keep.
  rewrite (filter_ext _
             (fun p => (fun j => negb (Z.eqb (nth j criteria 0%Z) v)) (fst p))).
  - rewrite (Rsum_filter_seq (fun j => negb (Z.eqb (nth j criteria 0%Z) v)) row 0).
    apply sum_upto_ext. intros j _. simpl.
    now destruct (Z.eqb (nth j criteria 0%Z) v).
  - intros [j x]. simpl. f_equal. now apply existsb_argwhere_eq_any.
Qed.

Lemma sum_upto_minus (m : nat) (f g : nat -> R) :
  sum_upto m f - sum_upto m g = sum_upto m (fun j => f j - g j).
Proof. induction m as [|m IH]; simpl; [lra|]. rewrite <- IH. ring. Qed.

Lemma sum_upto_plus (m : nat) (f g : nat -> R) :
  sum_upto m f + sum_upto m g = sum_upto m (fun j => f j + g j).
Proof. induction m as [|m IH]; simpl; [lra|]. rewrite <- IH. ring. Qed.

Lemma sum_upto_truncate (k m : nat) (f : nat -> R) :
  (k <= m)%nat -> (forall j, (k <= j)%nat -> (j < m)%nat -> f j = 0) ->
  sum_upto m f = sum_upto k f.
Proof.
  intros Hk Hz. induction m as [|m IH]; [now replace k with 0%nat by lia|].
  destruct (Nat.eq_dec k (S m)) as [->|Hne]; [reflexivity|].
  simpl. rewrite IH by (lia || (intros; apply Hz; lia)).
  rewrite Hz by lia. lra.
Qed.

Lemma _fmf_mixed_short (n m : nat) (nmtx : list (list R)) (criteria : list Z) :
  is_matrix n m nmtx -> positive nmtx -> (length criteria <= m)%nat ->
  criteria_ok criteria -> In util.MAX criteria -> In util.MIN criteria ->
  _fmf nmtx criteria =
  Ok (rank.rankdata (mixed_points nmtx criteria) true, mixed_points nmtx criteria).
Proof.
  intros Ha Hp Hc Hok Hmax Hmin. unfold _fmf.
  rewrite log_ok by assumption. cbn [bind].
  rewrite (setdiff1d_other criteria util.MAX util.MIN);
    [|exact Hok|discriminate|exact Hmin].
  cbn [np.truth bind negb util.MIN Z.eqb].
  rewrite (setdiff1d_other criteria util.MIN util.MAX);
    [|revert Hok; apply Forall_impl; tauto|discriminate|exact Hmax].
  cbn [np.truth bind negb util.MAX Z.eqb].
  assert (Edel : forall v, np.delete1 (map (map ln) nmtx) (np.argwhere_eq criteria v) =
                           Ok (map (np.keep (np.argwhere_eq criteria v)) (map (map ln) nmtx))).
  { intros v. unfold np.delete1. apply mapM_map. intros row Hrow.
    apply delete_row_short. apply in_map_iff in Hrow. destruct Hrow as [r [<- Hr]].
    now rewrite length_map, (is_matrix_in n m nmtx r Ha Hr). }
  rewrite !Edel. reflexivity.
Qed.

Lemma mixed_points_short_nth (n m : nat) (nmtx : list (list R)) (criteria : list Z)
    (i : nat) :
  is_matrix n m nmtx -> (length criteria <= m)%nat -> criteria_ok criteria ->
  (i < n)%nat ->
  at_ (mixed_points nmtx criteria) i = mixed_formula criteria nmtx i.
Proof.
  intros Ha Hc Hok Hi. unfold mixed_points, at_, np.sum1.
  assert (Hlen : length nmtx = n) by apply Ha.
  rewrite (nth_map2 Rminus _ _ i 0 0 0) by (rewrite !length_map; lia).
  rewrite !map_map.
  rewrite !(nth_map_in _ nmtx i 0 []) by lia.
  rewrite !Rsum_keep_any by discriminate.
  rewrite length_map, (is_matrix_row n m) by assumption.
  unfold mixed_formula, log_sum_where. rewrite !sum_upto_minus.
  rewrite (sum_upto_truncate (length criteria) m) by
    (try assumption; intros j Hj _; rewrite (nth_overflow criteria 0%Z Hj); simpl; lra).
  apply sum_upto_ext. intros j Hj.
  assert (Hcj : nth j criteria 0%Z = util.MAX \/ nth j criteria 0%Z = util.MIN).
  { unfold criteria_ok in Hok. rewrite Forall_forall in Hok. apply Hok, nth_In. exact Hj. }
  unfold entry.
  rewrite (nth_map_in ln _ j 0 0) by (rewrite (is_matrix_row n m) by assumption; lia).
  destruct Hcj as [E|E]; rewrite E; simpl; lra.
Qed.

(** X9. The full multiplicative form does not compare the number of criteria
    with the number of columns.  On a strictly positive (n, m) matrix:
    criteria that are all MAX, however many (none, or more than m), give the
    row-sums of logarithms over all m columns; criteria that are all MIN give
    1 minus these; and mixed criteria of a length k <= m give the sum of
    logarithms over the MAX columns minus that over the MIN columns among the
    first k columns, the columns from k on having no influence. *)
Theorem fmf_unchecked_criteria_length
    (n m : nat) (nmtx : matrix) (criteria : list Z) :
  is_matrix n m nmtx -> positive nmtx ->
  (Forall (fun c => c = util.MAX) criteria ->
   exists rnk points,
     _fmf nmtx criteria = Ok (rnk, points) /\
     forall i, (i < n)%nat ->
       at_ points i = sum_upto m (fun j => ln (entry nmtx i j))) /\
  (Forall (fun c => c = util.MIN) criteria -> criteria <> [] ->
   exists rnk points,
     _fmf nmtx criteria = Ok (rnk, points) /\
     forall i, (i < n)%nat ->
       at_ points i = 1 - sum_upto m (fun j => ln (entry nmtx i j))) /\
  (criteria_ok criteria -> In util.MAX criteria -> In util.MIN criteria ->
   (length criteria <= m)%nat ->
   exists rnk points,
     _fmf nmtx criteria = Ok (rnk, points) /\
     forall i, (i < n)%nat ->
       at_ points i =
       sum_upto (length criteria)
         (fun j => if Z.eqb (nth j criteria 0%Z) util.MAX
                   then ln (entry nmtx i j) else 0)
       - sum_upto (length criteria)
           (fun j => if Z.eqb (nth j criteria 0%Z) util.MIN
                     then ln (entry nmtx i j) else 0)).
Proof.
  intros Ha Hp. assert (Hl : length nmtx = n) by apply Ha. split; [|split].
  - intros Hall. eexists _, _. split; [now apply _fmf_only_max|].
    intros i Hi. now apply (log_row_sum n m).
  - intros Hall Hne. eexists _, _. split; [now apply _fmf_only_min|].
    intros i Hi. unfold at_.
    rewrite (nth_map_in _ _ i 0 0) by (unfold np.sum1; rewrite !length_map; lia).
    f_equal. now apply (log_row_sum n m).
  - intros Hok Hmax Hmin Hk. eexists _, _.
    split; [now apply (_fmf_mixed_short n m)|].
    intros i Hi. now apply (mixed_points_short_nth n m).
Qed.

Lemma fmf_unchecked_criteria_length_witness :
  is_matrix 2 3 [[1; 2; 3]; [4; 5; 6]] /\ positive [[1; 2; 3]; [4; 5; 6]] /\
  (exists rnk points,
     _fmf [[1; 2; 3]; [4; 5; 6]] [util.MAX; util.MAX; util.MAX; util.MAX] = Ok (rnk, points) /\
     forall i, (i < 2)%nat ->
       at_ points i = sum_upto 3 (fun j => ln (entry [[1; 2; 3]; [4; 5; 6]] i j))) /\
  (exists rnk points,
     _fmf [[1; 2; 3]; [4; 5; 6]] [util.MIN] = Ok (rnk, points) /\
     forall i, (i < 2)%nat ->
       at_ points i = 1 - sum_upto 3 (fun j => ln (entry [[1; 2; 3]; [4; 5; 6]] i j))) /\
  (exists rnk points,
     _fmf [[1; 2; 3]; [4; 5; 6]] [util.MAX; util.MIN] = Ok (rnk, points) /\
     forall i, (i < 2)%nat ->
       at_ points i =
       sum_upto 2
         (fun j => if Z.eqb (nth j [util.MAX; util.MIN] 0%Z) util.MAX
                   then ln (entry [[1; 2; 3]; [4; 5; 6]] i j) else 0)
       - sum_upto 2
           (fun j => if Z.eqb (nth j [util.MAX; util.MIN] 0%Z) util.MIN
                     then ln (entry [[1; 2; 3]; [4; 5; 6]] i j) else 0)).
Proof.
  assert (Hm : is_matrix 2 3 [[1; 2; 3]; [4; 5; 6]]) by shape.
  assert (Hp : positive [[1; 2; 3]; [4; 5; 6]]) by all_positive.
  destruct (fmf_unchecked_criteria_length 2 3 _ [util.MAX; util.MAX; util.MAX; util.MAX] Hm Hp)
    as [A _].
  destruct (fmf_unchecked_criteria_length 2 3 _ [util.MIN] Hm Hp) as [_ [B _]].
  destruct (fmf_unchecked_criteria_length 2 3 _ [util.MAX; util.MIN] Hm Hp) as [_ [_ C]].
  split; [exact Hm|]. split; [exact Hp|]. split; [|split].
  - apply A. repeat constructor.
  - apply B; [repeat constructor|discriminate].
  - apply C; [all_criteria|simpl; auto|simpl; auto|simpl; lia].
Defined.

Lemma positive_entry (n m : nat) (a : list (list R)) (i j : nat) :
  is_matrix n m a -> positive a -> (i < n)%nat -> (j < m)%nat -> 0 < entry a i j.
Proof.
  intros Ha Hp Hi Hj. unfold positive in Hp. rewrite Forall_forall in Hp.
  assert (Hrow : In (nth i a []) a) by (apply nth_In; destruct Ha; lia).
  specialize (Hp _ Hrow). rewrite Forall_forall in Hp. apply Hp.
  apply nth_In. now rewrite (is_matrix_row n m).
Qed.

Lemma ln_prod_upto (m : nat) (f : nat -> R) :
  (forall j, (j < m)%nat -> 0 < f j) ->
  0 < prod_upto m f /\ ln (prod_upto m f) = sum_upto m (fun j => ln (f j)).
Proof.
  induction m as [|m IH]; intros H; simpl.
  - split; [lra|apply ln_1].
  - destruct IH as [Hp Hl]; [intros j Hj; apply H; lia|].
    assert (Hm : 0 < f m) by (apply H; lia). split.
    + now apply Rmult_lt_0_compat.
    + rewrite ln_mult by assumption. now rewrite Hl.
Qed.

Lemma log_sum_where_product (n m : nat) (v : Z) (criteria : list Z)
    (nmtx : list (list R)) (i : nat) :
  is_matrix n m nmtx -> positive nmtx -> length criteria = m -> (i < n)%nat ->
  0 < product_where v criteria nmtx i /\
  log_sum_where v criteria nmtx i = ln (product_where v criteria nmtx i).
Proof.
  intros Ha Hp Hc Hi. unfold product_where, log_sum_where.
  destruct (ln_prod_upto (length criteria)
              (fun j => if Z.eqb (nth j criteria 0%Z) v then entry nmtx i j else 1))
    as [Hpos Hln].
  - intros j Hj. destruct (Z.eqb (nth j criteria 0%Z) v); [|lra].
    apply (positive_entry n m); try assumption. lia.
  - split; [exact Hpos|]. rewrite Hln. apply sum_upto_ext. intros j Hj.
    destruct (Z.eqb (nth j criteria 0%Z) v); [reflexivity|]. symmetry. apply ln_1.
Qed.

(** X10. With at least one MAX criterion, the score of the full
    multiplicative form is the logarithm of the multiplicative form itself:
    the product of the alternative's entries in the MAX columns divided by
    the product of its entries in the MIN columns. *)
Theorem fmf_score_is_log_of_quotient
    (n m : nat) (nmtx : matrix) (criteria : list Z) :
  is_matrix n m nmtx -> positive nmtx -> length criteria = m ->
  criteria_ok criteria -> In util.MAX criteria ->
  exists rnk points,
    _fmf nmtx criteria = Ok (rnk, points) /\
    forall i, (i < n)%nat ->
      at_ points i =
      ln (product_where util.MAX criteria nmtx i / product_where util.MIN criteria nmtx i) /\
      exp (at_ points i) =
      product_where util.MAX criteria nmtx i / product_where util.MIN criteria nmtx i.
Proof.
  intros Ha Hp Hc Hok Hmax.
  assert (Hq : forall i, (i < n)%nat ->
            mixed_formula criteria nmtx i =
            ln (product_where util.MAX criteria nmtx i
                / product_where util.MIN criteria nmtx i) /\
            0 < product_where util.MAX criteria nmtx i
                / product_where util.MIN criteria nmtx i).
  { intros i Hi.
    destruct (log_sum_where_product n m util.MAX criteria nmtx i Ha Hp Hc Hi) as [P1 L1].
    destruct (log_sum_where_product n m util.MIN criteria nmtx i Ha Hp Hc Hi) as [P2 L2].
    split; [|now apply Rdiv_lt_0_compat].
    unfold mixed_formula, Rdiv. rewrite L1, L2, ln_mult, ln_Rinv; try assumption; [lra|].
    now apply Rinv_0_lt_compat. }
  assert (Hfin : forall points,
            (forall i, (i < n)%nat -> at_ points i = mixed_formula criteria nmtx i) ->
            forall i, (i < n)%nat ->
              at_ points i =
              ln (product_where util.MAX criteria nmtx i
                  / product_where util.MIN criteria nmtx i) /\
              exp (at_ points i) =
              product_where util.MAX criteria nmtx i
              / product_where util.MIN criteria nmtx i).
  { intros points H i Hi. destruct (Hq i Hi) as [E Hpos]. rewrite (H i Hi), E.
    split; [reflexivity|now apply exp_ln]. }
  destruct (in_dec Z.eq_dec util.MIN criteria) as [Hmin|Hmin].
  - eexists _, _. split; [now apply (_fmf_mixed n m)|].
    apply Hfin. intros i Hi. now apply (mixed_points_nth n m).
  - assert (Hall : Forall (fun c => c = util.MAX) criteria).
    { unfold criteria_ok in Hok. rewrite Forall_forall in *. intros c Hin.
      destruct (Hok c Hin) as [E|E]; [assumption|congruence]. }
    eexists _, _. split; [now apply _fmf_only_max|].
    apply Hfin. intros i Hi.
    rewrite (log_row_sum n m), mixed_formula_only_max by assumption. now rewrite Hc.
Qed.

Lemma fmf_score_is_log_of_quotient_witness :
  is_matrix 2 2 [[1; 2]; [3; 4]] /\ positive [[1; 2]; [3; 4]] /\
  criteria_ok [util.MAX; util.MIN] /\
  exists rnk points,
    _fmf [[1; 2]; [3; 4]] [util.MAX; util.MIN] = Ok (rnk, points) /\
    forall i, (i < 2)%nat ->
      at_ points i =
      ln (product_where util.MAX [util.MAX; util.MIN] [[1; 2]; [3; 4]] i
          / product_where util.MIN [util.MAX; util.MIN] [[1; 2]; [3; 4]] i) /\
      exp (at_ points i) =
      product_where util.MAX [util.MAX; util.MIN] [[1; 2]; [3; 4]] i
      / product_where util.MIN [util.MAX; util.MIN] [[1; 2]; [3; 4]] i.
Proof.
  assert (Hm : is_matrix 2 2 [[1; 2]; [3; 4]]) by shape.
  assert (Hp : positive [[1; 2]; [3; 4]]) by all_positive.
  assert (Hc : criteria_ok [util.MAX; util.MIN]) by all_criteria.
  repeat (split; [assumption|]).
  apply (fmf_score_is_log_of_quotient 2 2 _ [util.MAX; util.MIN] Hm Hp eq_refl Hc).
  simpl; auto.
Defined.

Lemma existsb_eqb_In (v : Z) (l : list Z) :
  existsb (Z.eqb v) l = true <-> In v l.
Proof.
  rewrite existsb_exists. split.
  - intros [x [Hx E]]. apply Z.eqb_eq in E. now subst.
  - intros H. exists v. split; [assumption|apply Z.eqb_refl].
Qed.

Lemma _fmf_score (n m : nat) (nmtx : list (list R)) (criteria : list Z) :
  is_matrix n m nmtx -> positive nmtx -> length criteria = m -> criteria_ok criteria ->
  exists points,
    _fmf nmtx criteria = Ok (rank.rankdata points true, points) /\
    length points = n /\
    forall i, (i < n)%nat ->
      at_ points i = mixed_formula criteria nmtx i + fmf_offset criteria.
Proof.
  intros Ha Hp Hc Hok. assert (Hn : length nmtx = n) by apply Ha.
  unfold fmf_offset.
  destruct (existsb (Z.eqb util.MAX) criteria) eqn:Emax.
  - apply existsb_eqb_In in Emax.
    destruct (in_dec Z.eq_dec util.MIN criteria) as [Hmin|Hmin].
    + exists (mixed_points nmtx criteria). split; [now apply (_fmf_mixed n m)|]. split.
      * unfold mixed_points, np.sum1. rewrite length_map2; now rewrite !length_map.
      * intros i Hi. rewrite (mixed_points_nth n m) by assumption. lra.
    + assert (Hall : Forall (fun c => c = util.MAX) criteria).
      { unfold criteria_ok in Hok. rewrite Forall_forall in *. intros c Hin.
        destruct (Hok c Hin) as [E|E]; [assumption|congruence]. }
      eexists. split; [now apply _fmf_only_max|].
      split; [unfold np.sum1; now rewrite !length_map|].
      intros i Hi. rewrite (log_row_sum n m), mixed_formula_only_max by assumption.
      rewrite Hc. lra.
  - assert (Hall : Forall (fun c => c = util.MIN) criteria).
    { unfold criteria_ok in Hok. rewrite Forall_forall in *. intros c Hin.
      destruct (Hok c Hin) as [E|E]; [|assumption].
      exfalso. subst c. apply existsb_eqb_In in Hin. congruence. }
    destruct criteria as [|c cs].
    + eexists. split; [apply _fmf_only_max; [assumption|constructor]|].
      split; [unfold np.sum1; now rewrite !length_map|].
      intros i Hi. rewrite (log_row_sum n m) by assumption.
      rewrite (mixed_formula_only_max []) by constructor. rewrite Hc. lra.
    + eexists. split; [apply _fmf_only_min; [assumption|assumption|discriminate]|].
      split; [unfold np.sum1; now rewrite !length_map|].
      intros i Hi. unfold at_.
      rewrite (nth_map_in _ _ i 0 0) by (unfold np.sum1; rewrite !length_map; lia).
      change (nth i (np.sum1 (map (map ln) nmtx)) 0)
        with (at_ (np.sum1 (map (map ln) nmtx)) i).
      rewrite (log_row_sum n m), mixed_formula_only_min by assumption.
      rewrite Hc. lra.
Qed.

Lemma criteria_ok_opp (criteria : list Z) :
  criteria_ok criteria -> criteria_ok (map Z.opp criteria).
Proof.
  unfold criteria_ok. rewrite !Forall_forall. intros H c Hc.
  apply in_map_iff in Hc. destruct Hc as [x [<- Hx]].
  destruct (H x Hx) as [-> | ->]; [now right|now left].
Qed.

Lemma nth_opp (criteria : list Z) (j : nat) :
  nth j (map Z.opp criteria) 0%Z = (- nth j criteria 0%Z)%Z.
Proof. exact (map_nth Z.opp criteria 0%Z j). Qed.

Lemma mixed_formula_opp (criteria : list Z) (nmtx : list (list R)) (i : nat) :
  mixed_formula (map Z.opp criteria) nmtx i = - mixed_formula criteria nmtx i.
Proof.
  unfold mixed_formula, log_sum_where. rewrite length_map.
  assert (E : forall v, sum_upto (length criteria)
                (fun j => if Z.eqb (nth j (map Z.opp criteria) 0%Z) v
                          then ln (entry nmtx i j) else 0) =
              sum_upto (length criteria)
                (fun j => if Z.eqb (nth j criteria 0%Z) (- v)
                          then ln (entry nmtx i j) else 0)).
  { intros v. apply sum_upto_ext. intros j _. rewrite nth_opp.
    replace (Z.eqb (- nth j criteria 0%Z) v) with (Z.eqb (nth j criteria 0%Z) (- v));
      [reflexivity|].
    apply eq_true_iff_eq. rewrite !Z.eqb_eq. lia. }
  rewrite !E. change (- util.MAX)%Z with util.MIN. change (- util.MIN)%Z with util.MAX.
  lra.
Qed.

Lemma fmf_offset_opp (criteria : list Z) :
  criteria_ok criteria -> criteria <> [] ->
  (In util.MAX criteria -> In util.MIN criteria ->
   fmf_offset criteria = 0 /\ fmf_offset (map Z.opp criteria) = 0) /\
  (~ (In util.MAX criteria /\ In util.MIN criteria) ->
   fmf_offset criteria + fmf_offset (map Z.opp criteria) = 1).
Proof.
  intros Hok Hne.
  assert (Hflip : In util.MAX (map Z.opp criteria) <-> In util.MIN criteria).
  { rewrite in_map_iff. split.
    - intros [x [E Hx]]. replace util.MIN with x by (unfold util.MAX, util.MIN in *; lia).
      exact Hx.
    - intros H. exists util.MIN. split; [reflexivity|exact H]. }
  unfold fmf_offset.
  destruct (existsb (Z.eqb util.MAX) criteria) eqn:E1;
    destruct (existsb (Z.eqb util.MAX) (map Z.opp criteria)) eqn:E2.
  - apply existsb_eqb_In in E1, E2. apply Hflip in E2. split; [auto|]. tauto.
  - split.
    + intros _ Hmin. apply Hflip, existsb_eqb_In in Hmin. congruence.
    + intros _. destruct criteria; [congruence|simpl; lra].
  - split.
    + intros Hmax _. apply existsb_eqb_In in Hmax. congruence.
    + intros _. destruct criteria; [congruence|simpl; lra].
  - exfalso. destruct criteria as [|c cs]; [congruence|].
    unfold criteria_ok in Hok. inversion Hok as [|? ? Hc _]; subst.
    destruct Hc as [-> | ->].
    + simpl in E1. discriminate.
    + simpl in E2. discriminate.
Qed.

Lemma rankdata_antitone (a b : list R) (c : R) :
  length a = length b ->
  (forall i, (i < length a)%nat -> at_ a i = c - at_ b i) ->
  rank.rankdata a true = rank.rankdata b false.
Proof.
  intros Hl H. unfold rank.rankdata. rewrite <- Hl.
  apply map_ext_in. intros i Hi. f_equal.
  apply filter_ext_in. intros j Hj. apply in_seq in Hi, Hj.
  apply eq_true_iff_eq. rewrite !before_iff.
  rewrite (H i), (H j) by lia. unfold better.
  split; intros [L|[E L]]; try (left; lra); right; (split; [lra|lia]).
Qed.

(** X11. Turning every criterion of the full multiplicative form round (MAX
    to MIN and MIN to MAX) negates the scores when both directions occur, and
    replaces each score s by 1 - s when all criteria have one direction; in
    both cases the new ranks are those of the old scores in ascending
    order. *)
Theorem fmf_opposite_criteria
    (n m : nat) (nmtx : matrix) (criteria : list Z) :
  is_matrix n m nmtx -> positive nmtx -> length criteria = m -> (1 <= m)%nat ->
  criteria_ok criteria ->
  exists rnk points rnk' points',
    _fmf nmtx criteria = Ok (rnk, points) /\
    _fmf nmtx (map Z.opp criteria) = Ok (rnk', points') /\
    rnk' = rank.rankdata points false /\
    (In util.MAX criteria -> In util.MIN criteria ->
     forall i, (i < n)%nat -> at_ points' i = - at_ points i) /\
    (~ (In util.MAX criteria /\ In util.MIN criteria) ->
     forall i, (i < n)%nat -> at_ points' i = 1 - at_ points i).
Proof.
  intros Ha Hp Hc Hm Hok.
  assert (Hne : criteria <> []) by (destruct criteria; simpl in *; [lia|discriminate]).
  destruct (_fmf_score n m nmtx criteria Ha Hp Hc Hok) as [p [E [Hl Hs]]].
  assert (Hc' : length (map Z.opp criteria) = m) by now rewrite length_map.
  destruct (_fmf_score n m nmtx (map Z.opp criteria) Ha Hp Hc' (criteria_ok_opp _ Hok))
    as [p' [E' [Hl' Hs']]].
  destruct (fmf_offset_opp criteria Hok Hne) as [Hmixed Hone].
  exists (rank.rankdata p true), p, (rank.rankdata p' true), p'.
  split; [exact E|]. split; [exact E'|]. split; [|split].
  - destruct (in_dec Z.eq_dec util.MAX criteria) as [Hmax|Hmax];
      [destruct (in_dec Z.eq_dec util.MIN criteria) as [Hmin|Hmin]|].
    + destruct (Hmixed Hmax Hmin) as [O1 O2].
      apply (rankdata_antitone _ _ 0); [congruence|].
      intros i Hi. rewrite Hs', Hs, mixed_formula_opp, O1, O2 by lia. lra.
    + assert (O : fmf_offset criteria + fmf_offset (map Z.opp criteria) = 1)
        by (apply Hone; tauto).
      apply (rankdata_antitone _ _ 1); [congruence|].
      intros i Hi. rewrite Hs', Hs, mixed_formula_opp by lia. lra.
    + assert (O : fmf_offset criteria + fmf_offset (map Z.opp criteria) = 1)
        by (apply Hone; tauto).
      apply (rankdata_antitone _ _ 1); [congruence|].
      intros i Hi. rewrite Hs', Hs, mixed_formula_opp by lia. lra.
  - intros Hmax Hmin i Hi. destruct (Hmixed Hmax Hmin) as [O1 O2].
    rewrite Hs', Hs, mixed_formula_opp, O1, O2 by assumption. lra.
  - intros Hnot i Hi. assert (O := Hone Hnot).
    rewrite Hs', Hs, mixed_formula_opp by assumption. lra.
Qed.

(** ** The ratio step *)

Lemma ratio_points_nth (n m : nat) (nmtx : list (list R)) (criteria : list Z)
    (w : weight_arg) (i : nat) :
  is_matrix n m nmtx -> length criteria = m -> weights_ok m w -> (i < n)%nat ->
  at_ (map (fun row => np.dot row (cweights_of w criteria)) nmtx) i =
  sum_upto m (fun j => entry nmtx i j * (weight_of w j * IZR (nth j criteria 0%Z))).
Proof.
  intros Ha Hc Hw Hi.
  rewrite (at_map _ nmtx [] i) by (destruct Ha; lia).
  rewrite (dot_sum_upto m);
    [|now apply (is_matrix_row n m)|now apply cweights_of_length].
  apply sum_upto_ext. intros j Hj.
  now rewrite (cweights_of_nth m).
Qed.

(** X12. Turning every criterion of the ratio step round negates every
    score, and the new ranks are those of the old scores in ascending
    order. *)
Theorem ratio_opposite_criteria
    (n m : nat) (nmtx : matrix) (criteria : list Z) (w : weight_arg) :
  is_matrix n m nmtx -> length criteria = m -> weights_ok m w ->
  exists rnk points rnk' points',
    _ratio nmtx criteria w = Ok (rnk, points) /\
    _ratio nmtx (map Z.opp criteria) w = Ok (rnk', points') /\
    length points = n /\ length points' = n /\
    (forall i, (i < n)%nat -> at_ points' i = - at_ points i) /\
    rnk' = rank.rankdata points false.
Proof.
  intros Ha Hc Hw. assert (Hl : length nmtx = n) by apply Ha.
  assert (Hc' : length (map Z.opp criteria) = m) by now rewrite length_map.
  assert (Hs : forall i, (i < n)%nat ->
            at_ (map (fun row => np.dot row (cweights_of w (map Z.opp criteria))) nmtx) i =
            - at_ (map (fun row => np.dot row (cweights_of w criteria)) nmtx) i).
  { intros i Hi. rewrite !(ratio_points_nth n m) by assumption.
    match goal with |- _ = - ?X => replace (- X) with ((-1) * X) by ring end.
    rewrite <- sum_upto_scale.
    apply sum_upto_ext. intros j Hj. rewrite nth_opp, opp_IZR. ring. }
  eexists _, _, _, _.
  split; [now apply (_ratio_ok n m)|]. split; [now apply (_ratio_ok n m)|].
  split; [now rewrite length_map|]. split; [now rewrite length_map|].
  split; [exact Hs|].
  apply (rankdata_antitone _ _ 0); [now rewrite !length_map|].
  intros i Hi. rewrite length_map in Hi. rewrite Hs by lia. lra.
Qed.

Lemma ratio_opposite_criteria_witness :
  is_matrix 2 2 [[1; 2]; [3; 4]] /\ weights_ok 2 (Vector [1 / 4; 3 / 4]) /\
  exists rnk points rnk' points',
    _ratio [[1; 2]; [3; 4]] [util.MAX; util.MIN] (Vector [1 / 4; 3 / 4]) = Ok (rnk, points) /\
    _ratio [[1; 2]; [3; 4]] (map Z.opp [util.MAX; util.MIN]) (Vector [1 / 4; 3 / 4])
      = Ok (rnk', points') /\
    length points = 2%nat /\ length points' = 2%nat /\
    (forall i, (i < 2)%nat -> at_ points' i = - at_ points i) /\
    rnk' = rank.rankdata points false.
Proof.
  assert (Hm : is_matrix 2 2 [[1; 2]; [3; 4]]) by shape.
  split; [exact Hm|]. split; [reflexivity|].
  exact (ratio_opposite_criteria 2 2 _ [util.MAX; util.MIN] (Vector [1 / 4; 3 / 4])
           Hm eq_refl eq_refl).
Defined.

(** X13. Called without weights, [ratio] scores an alternative by adding its
    normalized entries in the MAX columns and subtracting those in the MIN
    columns, as its docstring has it ("added in the case of maximization or
    subtracted in case of minimization"). *)
Theorem ratio_adds_max_subtracts_min
    (n m : nat) (mtx nmtx : matrix) (criteria : list Z)
    (mnorm : matrix -> result matrix) (wnorm : vec -> result vec) :
  mnorm mtx = Ok nmtx -> is_matrix n m nmtx -> length criteria = m ->
  criteria_ok criteria ->
  exists rnk points,
    ratio mtx criteria None mnorm wnorm = Ok (rnk, points) /\
    length points = n /\
    forall i, (i < n)%nat ->
      at_ points i =
      sum_upto m (fun j => if Z.eqb (nth j criteria 0%Z) util.MAX
                           then entry nmtx i j else 0)
      - sum_upto m (fun j => if Z.eqb (nth j criteria 0%Z) util.MIN
                             then entry nmtx i j else 0).
Proof.
  intros Hnorm Ha Hc Hok. assert (Hl : length nmtx = n) by apply Ha.
  eexists _, _. split.
  { unfold ratio. rewrite Hnorm. cbn [bind]. rewrite (criteriarr_ok _ Hok). cbn [bind].
    now apply (_ratio_ok n m). }
  split; [now rewrite length_map|].
  intros i Hi. rewrite (ratio_points_nth n m) by (simpl; auto).
  rewrite sum_upto_minus. apply sum_upto_ext. intros j Hj.
  assert (Hcj : nth j criteria 0%Z = util.MAX \/ nth j criteria 0%Z = util.MIN).
  { unfold criteria_ok in Hok. rewrite Forall_forall in Hok. apply Hok, nth_In. lia. }
  destruct Hcj as [E|E]; rewrite E; unfold util.MAX, util.MIN;
    cbn [weight_of Z.eqb Pos.eqb]; lra.
Qed.

Lemma ratio_adds_max_subtracts_min_witness :
  norm.vector [[3; 3]; [4; 4]] = Ok [[3 / 5; 3 / 5]; [4 / 5; 4 / 5]] /\
  is_matrix 2 2 [[3 / 5; 3 / 5]; [4 / 5; 4 / 5]] /\
  criteria_ok [util.MAX; util.MIN] /\
  exists rnk points,
    ratio [[3; 3]; [4; 4]] [util.MAX; util.MIN] None norm.vector norm.sum = Ok (rnk, points) /\
    length points = 2%nat /\
    forall i, (i < 2)%nat ->
      at_ points i =
      sum_upto 2 (fun j => if Z.eqb (nth j [util.MAX; util.MIN] 0%Z) util.MAX
                           then entry [[3 / 5; 3 / 5]; [4 / 5; 4 / 5]] i j else 0)
      - sum_upto 2 (fun j => if Z.eqb (nth j [util.MAX; util.MIN] 0%Z) util.MIN
                             then entry [[3 / 5; 3 / 5]; [4 / 5; 4 / 5]] i j else 0).
Proof.
  assert (Hm : is_matrix 2 2 [[3 / 5; 3 / 5]; [4 / 5; 4 / 5]]) by shape.
  assert (Hc : criteria_ok [util.MAX; util.MIN]) by all_criteria.
  split; [exact vector_norm_example|]. split; [exact Hm|]. split; [exact Hc|].
  exact (ratio_adds_max_subtracts_min 2 2 _ _ [util.MAX; util.MIN] norm.vector norm.sum
           vector_norm_example Hm eq_refl Hc).
Defined.

Lemma scale_columns_entry (n m : nat) (s : list R) (a : list (list R)) (i j : nat) :
  is_matrix n m a -> length s = m -> (i < n)%nat -> (j < m)%nat ->
  entry (scale_columns s a) i j = entry a i j * at_ s j.
Proof. intros. unfold scale_columns. now rewrite (entry_map_map2 _ n m). Qed.

Lemma log_sum_where_scale (n m : nat) (v : Z) (s : list R) (a : list (list R))
    (criteria : list Z) (i : nat) :
  is_matrix n m a -> positive a -> length s = m -> Forall (fun x => 0 < x) s ->
  length criteria = m -> (i < n)%nat ->
  log_sum_where v criteria (scale_columns s a) i =
  log_sum_where v criteria a i
  + sum_upto m (fun j => if Z.eqb (nth j criteria 0%Z) v then ln (at_ s j) else 0).
Proof.
  intros Ha Hp Hs Hpos Hc Hi. unfold log_sum_where. rewrite Hc, sum_upto_plus.
  apply sum_upto_ext. intros j Hj.
  destruct (Z.eqb (nth j criteria 0%Z) v); [|lra].
  rewrite (scale_columns_entry n m) by assumption.
  apply ln_mult; [now apply (positive_entry n m)|].
  rewrite Forall_forall in Hpos. apply Hpos, nth_In. lia.
Qed.

(** X14. The ranks of the full multiplicative form do not depend on the
    scale of the columns: multiplying each column by a positive factor adds
    one and the same constant to every score and leaves the rank vector
    unchanged. *)
Theorem fmf_rank_scale_invariant
    (n m : nat) (nmtx : matrix) (criteria : list Z) (s : vec) :
  is_matrix n m nmtx -> positive nmtx -> length criteria = m ->
  criteria_ok criteria -> length s = m -> Forall (fun x => 0 < x) s ->
  exists rnk points points' shift,
    _fmf nmtx criteria = Ok (rnk, points) /\
    _fmf (scale_columns s nmtx) criteria = Ok (rnk, points') /\
    forall i, (i < n)%nat -> at_ points' i = at_ points i + shift.
Proof.
  intros Ha Hp Hc Hok Hs Hpos.
  assert (Ha' : is_matrix n m (scale_columns s nmtx)) by now apply is_matrix_map_map2.
  assert (Hp' : positive (scale_columns s nmtx)).
  { apply (positive_of_entries n m); [assumption|]. intros i j Hi Hj.
    rewrite (scale_columns_entry n m) by assumption.
    apply Rmult_lt_0_compat; [now apply (positive_entry n m)|].
    rewrite Forall_forall in Hpos. apply Hpos, nth_In. lia. }
  destruct (_fmf_score n m nmtx criteria Ha Hp Hc Hok) as [p [E [Hl Hsc]]].
  destruct (_fmf_score n m _ criteria Ha' Hp' Hc Hok) as [p' [E' [Hl' Hsc']]].
  set (shift := sum_upto m (fun j => if Z.eqb (nth j criteria 0%Z) util.MAX
                                     then ln (at_ s j) else 0)
                - sum_upto m (fun j => if Z.eqb (nth j criteria 0%Z) util.MIN
                                       then ln (at_ s j) else 0)).
  assert (Hshift : forall i, (i < n)%nat -> at_ p' i = at_ p i + shift).
  { intros i Hi. rewrite Hsc', Hsc by assumption. unfold mixed_formula.
    rewrite !(log_sum_where_scale n m) by assumption. unfold shift. lra. }
  exists (rank.rankdata p true), p, p', shift.
  split; [exact E|]. split; [|exact Hshift].
  rewrite E'. do 2 f_equal. apply (rankdata_offset _ _ shift); [congruence|].
  intros i Hi. apply Hshift. lia.
Qed.

Lemma fmf_rank_scale_invariant_witness :
  is_matrix 2 2 [[1; 2]; [3; 4]] /\ positive [[1; 2]; [3; 4]] /\
  criteria_ok [util.MAX; util.MIN] /\ Forall (fun x => 0 < x) [1 / 2; 10] /\
  exists rnk points points' shift,
    _fmf [[1; 2]; [3; 4]] [util.MAX; util.MIN] = Ok (rnk, points) /\
    _fmf (scale_columns [1 / 2; 10] [[1; 2]; [3; 4]]) [util.MAX; util.MIN]
      = Ok (rnk, points') /\
    forall i, (i < 2)%nat -> at_ points' i = at_ points i + shift.
Proof.
  assert (Hm : is_matrix 2 2 [[1; 2]; [3; 4]]) by shape.
  assert (Hp : positive [[1; 2]; [3; 4]]) by all_positive.
  assert (Hc : criteria_ok [util.MAX; util.MIN]) by all_criteria.
  assert (Hs : Forall (fun x => 0 < x) [1 / 2; 10]) by (repeat constructor; lra).
  repeat (split; [assumption|]).
  exact (fmf_rank_scale_invariant 2 2 _ [util.MAX; util.MIN] [1 / 2; 10]
           Hm Hp eq_refl Hc eq_refl Hs).
Defined.

(** ** Criteria that were not validated *)

Lemma in_insert_unique (x y : Z) (l : list Z) :
  In y (np.insert_unique x l) <-> y = x \/ In y l.
Proof.
  induction l as [|z l IH]; simpl; [intuition auto|].
  destruct (Z.ltb x z) eqn:E1; [simpl; intuition auto|].
  destruct (Z.eqb x z) eqn:E2.
  - apply Z.eqb_eq in E2. subst z. simpl. intuition auto.
  - simpl. rewrite IH. intuition auto.
Qed.

Lemma in_setdiff1d (ar1 ar2 : list Z) (y : Z) :
  In y (np.setdiff1d ar1 ar2) <-> In y ar1 /\ ~ In y ar2.
Proof.
  unfold np.setdiff1d.
  set (l := filter (fun x => negb (existsb (Z.eqb x) ar2)) ar1).
  assert (Hl : In y l <-> In y ar1 /\ ~ In y ar2).
  { unfold l. rewrite filter_In, negb_true_iff. split; intros [H1 H2]; (split; [assumption|]).
    - intros Hin. apply existsb_eqb_In in Hin. congruence.
    - apply not_true_is_false. intros E. apply H2. now apply existsb_eqb_In. }
  rewrite <- Hl. clear Hl. induction l as [|x l IH]; simpl; [tauto|].
  rewrite in_insert_unique, IH. intuition auto.
Qed.

Lemma truth_two (l : list Z) (a b : Z) :
  In a l -> In b l -> a <> b -> np.truth l = Err ValueError.
Proof.
  intros Ha Hb Hab. destruct l as [|x [|y r]]; simpl in *; try tauto.
  destruct Ha as [-> |[]]; destruct Hb as [-> |[]]. congruence.
Qed.

(** X15. What [_fmf] does with criteria that are neither MAX nor MIN: a
    criterion 0 is taken for MAX (criteria made of MAX and 0 take the "only
    max" branch, the row-sums of logarithms), and criteria with two distinct
    values other than MAX end in a ValueError, the truth value of an array of
    two elements being ambiguous. *)
Theorem fmf_other_criteria (n m : nat) (nmtx : matrix) (criteria : list Z) :
  is_matrix n m nmtx -> positive nmtx ->
  (Forall (fun c => c = util.MAX \/ c = 0%Z) criteria ->
   exists rnk points,
     _fmf nmtx criteria = Ok (rnk, points) /\
     forall i, (i < n)%nat ->
       at_ points i = sum_upto m (fun j => ln (entry nmtx i j))) /\
  (forall a b, In a criteria -> In b criteria ->
     a <> b -> a <> util.MAX -> b <> util.MAX ->
     _fmf nmtx criteria = Err ValueError).
Proof.
  intros Ha Hp. split.
  - intros Hall. eexists _, _. split.
    + unfold _fmf. rewrite log_ok by assumption. cbn [bind].
      destruct (in_dec Z.eq_dec 0%Z criteria) as [Hz|Hz].
      * rewrite (setdiff1d_other criteria util.MAX 0%Z Hall ltac:(discriminate) Hz).
        reflexivity.
      * rewrite setdiff1d_all; [reflexivity|].
        rewrite Forall_forall in *. intros c Hc.
        destruct (Hall c Hc) as [E|E]; [assumption|congruence].
    + intros i Hi. now apply (log_row_sum n m).
  - intros a b Hina Hinb Hab Hamax Hbmax. unfold _fmf.
    rewrite log_ok by assumption. cbn [bind].
    rewrite (truth_two (np.setdiff1d criteria [util.MAX]) a b); [reflexivity| | |assumption].
    + apply in_setdiff1d. split; [assumption|]. intros [E|[]]. congruence.
    + apply in_setdiff1d. split; [assumption|]. intros [E|[]]. congruence.
Qed.

Lemma fmf_other_criteria_witness :
  is_matrix 2 2 [[1; 2]; [3; 4]] /\ positive [[1; 2]; [3; 4]] /\
  (exists rnk points,
     _fmf [[1; 2]; [3; 4]] [0; util.MAX]%Z = Ok (rnk, points) /\
     forall i, (i < 2)%nat ->
       at_ points i = sum_upto 2 (fun j => ln (entry [[1; 2]; [3; 4]] i j))) /\
  _fmf [[1; 2]; [3; 4]] [util.MIN; 2]%Z = Err ValueError.
Proof.
  assert (Hm : is_matrix 2 2 [[1; 2]; [3; 4]]) by shape.
  assert (Hp : positive [[1; 2]; [3; 4]]) by all_positive.
  split; [exact Hm|]. split; [exact Hp|]. split.
  - apply (proj1 (fmf_other_criteria 2 2 _ [0; util.MAX]%Z Hm Hp)).
    repeat (apply Forall_cons; [auto|]). apply Forall_nil.
  - apply (proj2 (fmf_other_criteria 2 2 _ [util.MIN; 2]%Z Hm Hp) util.MIN 2%Z);
      simpl; auto; discriminate.
Defined.

(** X16. The reference-point step reads a criterion only as "MAX or not":
    every value other than MAX is treated as MIN. *)
Theorem refpoint_other_criteria (nmtx : matrix) (criteria : list Z) (w : weight_arg) :
  _refpoint nmtx criteria w =
  _refpoint nmtx
    (map (fun c => if Z.eqb c util.MAX then util.MAX else util.MIN) criteria) w.
Proof.
  unfold _refpoint.
  replace (np.where_eq
             (map (fun c => if Z.eqb c util.MAX then util.MAX else util.MIN) criteria)
             util.MAX)
    with (np.where_eq criteria util.MAX); [reflexivity|].
  unfold np.where_eq. rewrite map_map. apply map_ext. intros c.
  destruct (Z.eqb c util.MAX) eqn:E; [|reflexivity].
  apply Z.eqb_eq in E. now subst c.
Qed.

(** ** The decision makers *)

Lemma matrix_ext (n m : nat) (a b : list (list R)) :
  is_matrix n m a -> is_matrix n m b ->
  (forall i j, (i < n)%nat -> (j < m)%nat -> entry a i j = entry b i j) -> a = b.
Proof.
  intros Ha Hb H. apply (nth_ext _ _ [] []).
  - destruct Ha, Hb. congruence.
  - intros i Hi. assert (Hi' : (i < n)%nat) by (destruct Ha; lia).
    apply (nth_ext _ _ 0 0).
    + now rewrite (is_matrix_row n m a), (is_matrix_row n m b).
    + intros j Hj. rewrite (is_matrix_row n m a) in Hj by assumption. now apply H.
Qed.

(** On a positive matrix the two corrections of [fmf] change nothing. *)
Lemma corrections_positive (n m : nat) (a : list (list R)) :
  is_matrix n m a -> (1 <= n)%nat -> positive a ->
  norm.add1to0 (norm.push_negatives a) = a.
Proof.
  intros Ha Hn Hp.
  assert (Hmin : forall j, (j < m)%nat -> 0 < at_ (reduce0 Rmin a) j).
  { intros j Hj. destruct (reduce0_min n m a j Ha Hn Hj) as [[k [Hk E]] _].
    rewrite <- E. now apply (positive_entry n m). }
  assert (Hl : length (reduce0 Rmin a) = m) by now apply (reduce0_length _ n).
  assert (E1 : norm.push_negatives a = a).
  { apply (matrix_ext n m); [now apply is_matrix_map_map2|assumption|].
    intros i j Hi Hj. unfold norm.push_negatives.
    rewrite (entry_map_map2 _ n m) by assumption.
    rewrite (proj2 (Rltb_false _ _)); [reflexivity|]. specialize (Hmin j Hj). lra. }
  rewrite E1.
  apply (matrix_ext n m); [now apply is_matrix_map_map2|assumption|].
  intros i j Hi Hj. unfold norm.add1to0.
  rewrite (entry_map_map2 _ n m) by assumption.
  rewrite (proj2 (Reqb_false _ _)); [reflexivity|]. specialize (Hmin j Hj). lra.
Qed.

(** ** Criteria of the wrong length in the public functions *)

(** X18. [ratio] and [multimoora] reject criteria whose number differs from
    the number of columns of the normalized matrix: the inner product of the
    ratio step, the first to run, ends in a ValueError. *)
Theorem criteria_length_mismatch
    (n m : nat) (mtx nmtx : matrix) (criteria : list Z)
    (mnorm : matrix -> result matrix) (wnorm : vec -> result vec) :
  mnorm mtx = Ok nmtx -> is_matrix n m nmtx -> (1 <= n)%nat ->
  criteria_ok criteria -> length criteria <> m ->
  ratio mtx criteria None mnorm wnorm = Err ValueError /\
  multimoora mtx criteria mnorm = Err ValueError.
Proof.
  intros Hnorm Ha Hn Hok Hc.
  assert (E : _ratio nmtx criteria (Scalar 1) = Err ValueError).
  { unfold _ratio. cbn [np.multiply bind].
    destruct Ha as [Hl Hrows]. destruct nmtx as [|row rows]; [simpl in Hl; lia|].
    rewrite inner_mismatch; [reflexivity|].
    inversion Hrows; subst. now rewrite !length_map. }
  split.
  - unfold ratio. rewrite Hnorm. cbn [bind]. rewrite (criteriarr_ok _ Hok). cbn [bind].
    exact E.
  - unfold multimoora. rewrite Hnorm. cbn [bind]. rewrite (criteriarr_ok _ Hok). cbn [bind].
    now rewrite E.
Qed.

Lemma criteria_length_mismatch_witness :
  norm.vector [[3; 3]; [4; 4]] = Ok [[3 / 5; 3 / 5]; [4 / 5; 4 / 5]] /\
  is_matrix 2 2 [[3 / 5; 3 / 5]; [4 / 5; 4 / 5]] /\
  criteria_ok [util.MAX; util.MIN; util.MAX] /\
  ratio [[3; 3]; [4; 4]] [util.MAX; util.MIN; util.MAX] None norm.vector norm.sum
    = Err ValueError /\
  multimoora [[3; 3]; [4; 4]] [util.MAX; util.MIN; util.MAX] norm.vector = Err ValueError.
Proof.
  assert (Hm : is_matrix 2 2 [[3 / 5; 3 / 5]; [4 / 5; 4 / 5]]) by shape.
  assert (Hc : criteria_ok [util.MAX; util.MIN; util.MAX]) by all_criteria.
  split; [exact vector_norm_example|]. split; [exact Hm|]. split; [exact Hc|].
  apply (criteria_length_mismatch 2 2 _ _ [util.MAX; util.MIN; util.MAX]
           norm.vector norm.sum vector_norm_example Hm ltac:(lia) Hc).
  simpl. lia.
Defined.

(** ** The further properties at concrete inputs *)

Lemma scalar_weight_rescales_witness :
  is_matrix 2 2 [[1; 2]; [3; 4]] /\ 0 < 3 /\
  (exists rnk points1 pointsc,
     _ratio [[1; 2]; [3; 4]] [util.MAX; util.MIN] (Scalar 1) = Ok (rnk, points1) /\
     _ratio [[1; 2]; [3; 4]] [util.MAX; util.MIN] (Scalar 3) = Ok (rnk, pointsc) /\
     forall i, (i < 2)%nat -> at_ pointsc i = 3 * at_ points1 i) /\
  (exists rnk points1 pointsc,
     _refpoint [[1; 2]; [3; 4]] [util.MAX; util.MIN] (Scalar 1) = Ok (rnk, points1) /\
     _refpoint [[1; 2]; [3; 4]] [util.MAX; util.MIN] (Scalar 3) = Ok (rnk, pointsc) /\
     forall i, (i < 2)%nat -> at_ pointsc i = 3 * at_ points1 i).
Proof.
  assert (Hm : is_matrix 2 2 [[1; 2]; [3; 4]]) by shape.
  assert (H3 : 0 < 3) by lra.
  split; [exact Hm|]. split; [exact H3|].
  exact (scalar_weight_rescales 2 2 _ [util.MAX; util.MIN] 3
           Hm ltac:(lia) ltac:(lia) eq_refl H3).
Defined.

Lemma refpoint_shift_invariant_witness :
  is_matrix 2 2 [[1; 2]; [3; 4]] /\ weights_ok 2 (Vector [1 / 4; 3 / 4]) /\
  exists rnk points,
    _refpoint [[1; 2]; [3; 4]] [util.MAX; util.MIN] (Vector [1 / 4; 3 / 4])
      = Ok (rnk, points) /\
    _refpoint (shift_columns [10; -7] [[1; 2]; [3; 4]]) [util.MAX; util.MIN]
      (Vector [1 / 4; 3 / 4]) = Ok (rnk, points).
Proof.
  assert (Hm : is_matrix 2 2 [[1; 2]; [3; 4]]) by shape.
  split; [exact Hm|]. split; [reflexivity|].
  exact (refpoint_shift_invariant 2 2 _ [util.MAX; util.MIN] (Vector [1 / 4; 3 / 4])
           [10; -7] Hm ltac:(lia) ltac:(lia) eq_refl eq_refl eq_refl).
Defined.

Lemma fmf_opposite_criteria_witness :
  is_matrix 2 2 [[1; 2]; [3; 4]] /\ positive [[1; 2]; [3; 4]] /\
  criteria_ok [util.MAX; util.MIN] /\
  exists rnk points rnk' points',
    _fmf [[1; 2]; [3; 4]] [util.MAX; util.MIN] = Ok (rnk, points) /\
    _fmf [[1; 2]; [3; 4]] (map Z.opp [util.MAX; util.MIN]) = Ok (rnk', points') /\
    rnk' = rank.rankdata points false /\
    (In util.MAX [util.MAX; util.MIN] -> In util.MIN [util.MAX; util.MIN] ->
     forall i, (i < 2)%nat -> at_ points' i = - at_ points i) /\
    (~ (In util.MAX [util.MAX; util.MIN] /\ In util.MIN [util.MAX; util.MIN]) ->
     forall i, (i < 2)%nat -> at_ points' i = 1 - at_ points i).
Proof.
  assert (Hm : is_matrix 2 2 [[1; 2]; [3; 4]]) by shape.
  assert (Hp : positive [[1; 2]; [3; 4]]) by all_positive.
  assert (Hc : criteria_ok [util.MAX; util.MIN]) by all_criteria.
  repeat (split; [assumption|]).
  exact (fmf_opposite_criteria 2 2 _ [util.MAX; util.MIN] Hm Hp eq_refl ltac:(lia) Hc).
Defined.

(** ** An alternative that is no worse on every criterion *)

Lemma ln_monotone (x y : R) : 0 < x -> x <= y -> ln x <= ln y.
Proof.
  intros Hx [L|E]; [left; now apply ln_increasing|right; now subst].
Qed.

Lemma sum_upto_le (m : nat) (f g : nat -> R) :
  (forall j, (j < m)%nat -> f j <= g j) -> sum_upto m f <= sum_upto m g.
Proof.
  induction m as [|m IH]; intros H; simpl; [lra|].
  assert (H1 := IH (fun j Hj => H j (Nat.lt_lt_succ_r _ _ Hj))).
  assert (H2 := H m (Nat.lt_succ_diag_r m)). lra.
Qed.

(** X19. The three scoring steps respect dominance between alternatives: if
    alternative a is no worse than alternative b on every criterion (not
    smaller on a MAX criterion, not larger on a MIN criterion) and no weight
    is negative, then the ratio score of a is not below that of b, the
    reference-point score (a deviation) of a is not above that of b, and, on
    a strictly positive matrix, the score of the full multiplicative form of
    a is not below that of b. *)
Theorem scores_respect_dominance
    (n m : nat) (nmtx : matrix) (criteria : list Z) (w : weight_arg) (a b : nat) :
  is_matrix n m nmtx -> (1 <= m)%nat -> length criteria = m -> criteria_ok criteria ->
  weights_ok m w -> (forall j, (j < m)%nat -> 0 <= weight_of w j) ->
  (a < n)%nat -> (b < n)%nat -> at_least_as_good criteria nmtx a b ->
  (exists rnk points,
     _ratio nmtx criteria w = Ok (rnk, points) /\ at_ points b <= at_ points a) /\
  (exists rnk points,
     _refpoint nmtx criteria w = Ok (rnk, points) /\ at_ points a <= at_ points b) /\
  (positive nmtx ->
   exists rnk points,
     _fmf nmtx criteria = Ok (rnk, points) /\ at_ points b <= at_ points a).
Proof.
  intros Ha Hm Hc Hok Hw Hw0 Hia Hib Hgood.
  assert (Hn : (1 <= n)%nat) by lia.
  assert (Hcj : forall j, (j < m)%nat ->
            nth j criteria 0%Z = util.MAX \/ nth j criteria 0%Z = util.MIN).
  { intros j Hj. unfold criteria_ok in Hok. rewrite Forall_forall in Hok.
    apply Hok, nth_In. lia. }
  split; [|split].
  - eexists _, _. split; [now apply (_ratio_ok n m)|].
    rewrite !(ratio_points_nth n m) by assumption.
    apply sum_upto_le. intros j Hj.
    specialize (Hgood j ltac:(lia)). specialize (Hw0 j Hj).
    destruct (Hcj j Hj) as [E|E]; rewrite E in *; unfold util.MAX, util.MIN in *;
      cbn [Z.eqb Pos.eqb] in Hgood; nra.
  - eexists _, _. split; [now apply (_refpoint_ok n m)|].
    destruct (refpoint_points_spec n m nmtx criteria w a Ha Hn Hm Hc Hw Hia)
      as [[j [Hj E]] _].
    destruct (refpoint_points_spec n m nmtx criteria w b Ha Hn Hm Hc Hw Hib)
      as [_ Hub].
    rewrite <- E. apply Rle_trans with (2 := Hub j Hj).
    specialize (Hgood j ltac:(lia)). specialize (Hw0 j Hj).
    assert (Href := reference_of_spec n m nmtx criteria j Ha Hn Hc Hj).
    rewrite !Rabs_mult. apply Rmult_le_compat_l; [apply Rabs_pos|].
    destruct (Z.eqb (nth j criteria 0%Z) util.MAX).
    + destruct Href as [_ Hmax]. assert (Ua := Hmax a Hia). assert (Ub := Hmax b Hib).
      rewrite !Rabs_left1 by lra. lra.
    + destruct Href as [_ Hmin]. assert (La := Hmin a Hia). assert (Lb := Hmin b Hib).
      rewrite !Rabs_pos_eq by lra. lra.
  - intros Hp. destruct (_fmf_score n m nmtx criteria Ha Hp Hc Hok) as [p [E [Hl Hs]]].
    exists (rank.rankdata p true), p. split; [exact E|].
    rewrite !Hs by assumption. apply Rplus_le_compat_r.
    unfold mixed_formula, log_sum_where. rewrite !sum_upto_minus, Hc.
    apply sum_upto_le. intros j Hj.
    specialize (Hgood j ltac:(lia)).
    assert (Pa := positive_entry n m nmtx a j Ha Hp Hia Hj).
    assert (Pb := positive_entry n m nmtx b j Ha Hp Hib Hj).
    destruct (Hcj j Hj) as [Ej|Ej]; rewrite Ej in *; unfold util.MAX, util.MIN in *;
      cbn [Z.eqb Pos.eqb] in *.
    + assert (L := ln_monotone _ _ Pb Hgood). lra.
    + assert (L := ln_monotone _ _ Pa Hgood). lra.
Qed.

Lemma scores_respect_dominance_witness :
  is_matrix 2 2 [[3; 1]; [2; 2]] /\ criteria_ok [util.MAX; util.MIN] /\
  weights_ok 2 (Vector [1 / 4; 3 / 4]) /\
  (forall j, (j < 2)%nat -> 0 <= weight_of (Vector [1 / 4; 3 / 4]) j) /\
  at_least_as_good [util.MAX; util.MIN] [[3; 1]; [2; 2]] 0 1 /\
  positive [[3; 1]; [2; 2]] /\
  (exists rnk points,
     _ratio [[3; 1]; [2; 2]] [util.MAX; util.MIN] (Vector [1 / 4; 3 / 4]) = Ok (rnk, points) /\
     at_ points 1 <= at_ points 0) /\
  (exists rnk points,
     _refpoint [[3; 1]; [2; 2]] [util.MAX; util.MIN] (Vector [1 / 4; 3 / 4])
       = Ok (rnk, points) /\
     at_ points 0 <= at_ points 1) /\
  (exists rnk points,
     _fmf [[3; 1]; [2; 2]] [util.MAX; util.MIN] = Ok (rnk, points) /\
     at_ points 1 <= at_ points 0).
Proof.
  assert (Hm : is_matrix 2 2 [[3; 1]; [2; 2]]) by shape.
  assert (Hc : criteria_ok [util.MAX; util.MIN]) by all_criteria.
  assert (Hw : weights_ok 2 (Vector [1 / 4; 3 / 4])) by reflexivity.
  assert (Hw0 : forall j, (j < 2)%nat -> 0 <= weight_of (Vector [1 / 4; 3 / 4]) j).
  { intros j Hj. destruct j as [|[|j]]; unfold weight_of, at_; simpl; lra || lia. }
  assert (Hg : at_least_as_good [util.MAX; util.MIN] [[3; 1]; [2; 2]] 0 1).
  { intros j Hj. simpl in Hj. destruct j as [|[|j]]; unfold entry; simpl; lra || lia. }
  assert (Hp : positive [[3; 1]; [2; 2]]) by all_positive.
  destruct (scores_respect_dominance 2 2 _ [util.MAX; util.MIN] (Vector [1 / 4; 3 / 4]) 0 1
              Hm ltac:(lia) eq_refl Hc Hw Hw0 ltac:(lia) ltac:(lia) Hg) as [A [B C]].
  repeat (split; [assumption|]). exact (C Hp).
Defined.

(** * The rankings and the rank matrix *)

(** ** Three alternatives on which the three methods disagree

    The matrix [[4, 6], [1, 2], [8, 9]] with a MAX and a MIN criterion; its
    columns have the Euclidean norms 9 and 11. *)

Lemma vector_norm_example3 :
  norm.vector [[4; 6]; [1; 2]; [8; 9]]
  = Ok [[4 / 9; 6 / 11]; [1 / 9; 2 / 11]; [8 / 9; 9 / 11]].
Proof.
  unfold norm.vector. cbn [map reduce0 fold_left map2].
  replace (4 * 4 + 1 * 1 + 8 * 8) with (9 * 9) by lra.
  replace (6 * 6 + 2 * 2 + 9 * 9) with (11 * 11) by lra.
  rewrite !sqrt_square by lra. cbn [existsb]. rewrite !Reqb_neq by lra.
  reflexivity.
Qed.

Lemma valid_input_example3 :
  valid_input 3 2 [[4 / 9; 6 / 11]; [1 / 9; 2 / 11]; [8 / 9; 9 / 11]]
    [util.MAX; util.MIN].
Proof.
  unfold valid_input.
  split; [shape|]. split; [lia|]. split; [lia|].
  split; [all_positive|]. split; [reflexivity|all_criteria].
Qed.

Lemma rankdata3 (a b c : R) (reverse : bool) :
  rank.rankdata [a; b; c] reverse =
  [length (filter (fun j => rank.before reverse [a; b; c] j 0) [0; 1; 2]);
   length (filter (fun j => rank.before reverse [a; b; c] j 1) [0; 1; 2]);
   length (filter (fun j => rank.before reverse [a; b; c] j 2) [0; 1; 2])]%nat.
Proof. reflexivity. Qed.

Ltac rank3 :=
  rewrite !rankdata3; unfold rank.before, at_;
  cbn [length seq map filter nth Nat.ltb Nat.leb];
  decide_R; cbn [orb andb length].

Lemma list3_eq (a b c a' b' c' : R) :
  a = a' -> b = b' -> c = c' -> [a; b; c] = [a'; b'; c'].
Proof. now intros -> -> ->. Qed.

Lemma ln_difference_lt (a b c d : R) :
  0 < a -> 0 < b -> 0 < c -> 0 < d -> a * d < c * b -> ln a - ln b < ln c - ln d.
Proof.
  intros Ha Hb Hc Hd H.
  assert (E : ln (a * d) < ln (c * b)).
  { apply ln_increasing; [apply Rmult_lt_0_compat; lra|exact H]. }
  rewrite !ln_mult in E by assumption. lra.
Qed.

Lemma ratio_example3 :
  _ratio [[4 / 9; 6 / 11]; [1 / 9; 2 / 11]; [8 / 9; 9 / 11]] [util.MAX; util.MIN]
    (Scalar 1)
  = Ok ([2; 1; 0]%nat, [- 10 / 99; - 7 / 99; 7 / 99]).
Proof.
  rewrite (_ratio_ok 3 2) by (shape || reflexivity || exact I).
  cbn [map np.dot Rsum map2 fold_right cweights_of].
  match goal with
  | |- Ok (rank.rankdata ?l _, ?l) = _ =>
      replace l with [- 10 / 99; - 7 / 99; 7 / 99]
        by (unfold util.MAX, util.MIN; apply list3_eq; lra)
  end.
  rank3. reflexivity.
Qed.

Lemma refpoint_example3 :
  _refpoint [[4 / 9; 6 / 11]; [1 / 9; 2 / 11]; [8 / 9; 9 / 11]] [util.MAX; util.MIN]
    (Scalar 1)
  = Ok ([0; 2; 1]%nat, [4 / 9; 7 / 9; 7 / 11]).
Proof.
  rewrite (_refpoint_ok 3 2) by (shape || reflexivity || exact I || lia).
  unfold refpoint_points, deviation_row, reference_of, weighted_row, np.where_eq.
  cbn [map map2 reduce0 fold_left combine reduce_list reduce1 Z.eqb util.MAX util.MIN
       fst snd Pos.eqb].
  unfold util.MAX. decide_minmax.
  match goal with
  | |- Ok (rank.rankdata ?l _, ?l) = _ =>
      replace l with [4 / 9; 7 / 9; 7 / 11] by (apply list3_eq; lra)
  end.
  rank3. reflexivity.
Qed.

Lemma fmf_example3 :
  _fmf [[4 / 9; 6 / 11]; [1 / 9; 2 / 11]; [8 / 9; 9 / 11]] [util.MAX; util.MIN]
  = Ok ([1; 2; 0]%nat,
        [ln (4 / 9) - ln (6 / 11); ln (1 / 9) - ln (2 / 11); ln (8 / 9) - ln (9 / 11)]).
Proof.
  rewrite (_fmf_mixed 3 2)
    by (shape || all_positive || reflexivity || all_criteria || (simpl; auto)).
  unfold mixed_points, np.argwhere_eq, np.keep, np.sum1.
  cbn -[ln Rminus Rplus Rdiv rank.rankdata].
  match goal with
  | |- Ok (rank.rankdata ?l _, ?l) = _ =>
      replace l with [ln (4 / 9) - ln (6 / 11); ln (1 / 9) - ln (2 / 11);
                      ln (8 / 9) - ln (9 / 11)]
        by (unfold Rsum; cbn [fold_right]; apply list3_eq; lra)
  end.
  assert (H10 : ln (1 / 9) - ln (2 / 11) < ln (4 / 9) - ln (6 / 11))
    by (apply ln_difference_lt; lra).
  assert (H02 : ln (4 / 9) - ln (6 / 11) < ln (8 / 9) - ln (9 / 11))
    by (apply ln_difference_lt; lra).
  rank3. reflexivity.
Qed.

Lemma ratio_weighted_example3 :
  _ratio [[4 / 9; 6 / 11]; [1 / 9; 2 / 11]; [8 / 9; 9 / 11]] [util.MAX; util.MIN]
    (Vector [2 / 3; 1 / 3])
  = Ok ([1; 2; 0]%nat, [34 / 297; 4 / 297; 95 / 297]).
Proof.
  rewrite (_ratio_ok 3 2) by (shape || reflexivity).
  cbn [map np.dot Rsum map2 fold_right cweights_of].
  match goal with
  | |- Ok (rank.rankdata ?l _, ?l) = _ =>
      replace l with [34 / 297; 4 / 297; 95 / 297]
        by (unfold util.MAX, util.MIN; apply list3_eq; lra)
  end.
  rank3. reflexivity.
Qed.

Lemma refpoint_weighted_example3 :
  _refpoint [[4 / 9; 6 / 11]; [1 / 9; 2 / 11]; [8 / 9; 9 / 11]] [util.MAX; util.MIN]
    (Vector [2 / 3; 1 / 3])
  = Ok ([1; 2; 0]%nat, [8 / 27; 14 / 27; 7 / 33]).
Proof.
  rewrite (_refpoint_ok 3 2) by (shape || reflexivity || lia).
  unfold refpoint_points, deviation_row, reference_of, weighted_row, np.where_eq.
  cbn [map map2 reduce0 fold_left combine reduce_list reduce1 Z.eqb util.MAX util.MIN
       fst snd Pos.eqb].
  unfold util.MAX. decide_minmax.
  match goal with
  | |- Ok (rank.rankdata ?l _, ?l) = _ =>
      replace l with [8 / 27; 14 / 27; 7 / 33] by (apply list3_eq; lra)
  end.
  rank3. reflexivity.
Qed.

Lemma pairwise_points_example3 :
  pairwise_points [[2; 0; 1]; [1; 2; 2]; [0; 1; 0]]%nat = Ok [1; 0; 2].
Proof.
  unfold pairwise_points. cbn -[Rplus].
  f_equal. apply list3_eq; lra.
Qed.

Lemma multimoora_example3 :
  multimoora [[4; 6]; [1; 2]; [8; 9]] [util.MAX; util.MIN] norm.vector
  = Ok ([1; 2; 0]%nat, [[2; 0; 1]; [1; 2; 2]; [0; 1; 0]]%nat).
Proof.
  unfold multimoora. rewrite vector_norm_example3. cbn [bind].
  rewrite criteriarr_ok by all_criteria. cbn [bind].
  rewrite ratio_example3, refpoint_example3, fmf_example3. cbn [bind fst].
  change (np.transpose [[2; 1; 0]; [0; 2; 1]; [1; 2; 0]]%nat)
    with [[2; 0; 1]; [1; 2; 2]; [0; 1; 0]]%nat.
  rewrite pairwise_points_example3. cbn [bind].
  rank3. reflexivity.
Qed.

(** ** The rank matrix and its columns *)

Lemma nth_seq_id (l : list nat) :
  map (fun j => nth j l 0%nat) (seq 0 (length l)) = l.
Proof.
  apply (nth_ext _ _ 0%nat 0%nat).
  - now rewrite length_map, length_seq.
  - intros i Hi. rewrite length_map, length_seq in Hi.
    rewrite (nth_map_in _ _ i 0%nat 0%nat) by now rewrite length_seq.
    now rewrite seq_nth.
Qed.

Lemma nth_seq_same (l l' : list nat) :
  length l' = length l ->
  map (fun j => nth j l' 0%nat) (seq 0 (length l)) = l'.
Proof. intros <-. apply nth_seq_id. Qed.

Lemma transpose3_columns (r1 r2 r3 : list nat) :
  length r2 = length r1 -> length r3 = length r1 ->
  rank_column 0 (np.transpose [r1; r2; r3]) = r1 /\
  rank_column 1 (np.transpose [r1; r2; r3]) = r2 /\
  rank_column 2 (np.transpose [r1; r2; r3]) = r3.
Proof.
  intros H2 H3. unfold rank_column, np.transpose. rewrite !map_map. cbn [map nth].
  split; [apply nth_seq_id|]. split; now apply nth_seq_same.
Qed.

Lemma transpose3_nth_error (r1 r2 r3 : list nat) (i : nat) :
  (i < length r1)%nat ->
  nth_error (np.transpose [r1; r2; r3]) i = Some (rank_row r1 r2 r3 i).
Proof.
  intros Hi.
  rewrite (nth_error_nth' _ []) by now rewrite transpose3_length.
  now rewrite transpose3_nth.
Qed.

Lemma transpose3_rows (r1 r2 r3 : list nat) :
  Forall (fun row => length row = 3%nat) (np.transpose [r1; r2; r3]).
Proof.
  unfold np.transpose. apply Forall_forall. intros row Hin.
  apply in_map_iff in Hin. destruct Hin as [j [<- _]]. reflexivity.
Qed.

(** The three steps of [multimoora] on a valid input: their scores, their
    rank vectors, the tally of the loop and the result. *)
Lemma multimoora_steps (n m : nat) (mtx nmtx : list (list R)) (criteria : list Z)
    (mnorm : list (list R) -> result (list (list R))) :
  mnorm mtx = Ok nmtx -> valid_input n m nmtx criteria ->
  exists p1 p2 p3 points,
    _ratio nmtx criteria (Scalar 1) = Ok (rank.rankdata p1 true, p1) /\
    _refpoint nmtx criteria (Scalar 1) = Ok (rank.rankdata p2 false, p2) /\
    _fmf nmtx criteria = Ok (rank.rankdata p3 true, p3) /\
    (length p1 = n /\ length p2 = n /\ length p3 = n) /\
    (forall i, (i < n)%nat ->
       at_ p1 i = sum_upto m (fun j => entry nmtx i j * IZR (nth j criteria 0%Z))) /\
    (forall i, (i < n)%nat ->
       is_max_of (at_ p2 i) m
         (fun j => Rabs (entry nmtx i j - at_ (reference_of nmtx criteria) j))) /\
    (forall i, (i < n)%nat ->
       at_ p3 i = mixed_formula criteria nmtx i + fmf_offset criteria) /\
    pairwise_points (np.transpose [rank.rankdata p1 true; rank.rankdata p2 false;
                                   rank.rankdata p3 true]) = Ok points /\
    length points = n /\
    multimoora mtx criteria mnorm =
    Ok (rank.rankdata points true,
        np.transpose [rank.rankdata p1 true; rank.rankdata p2 false;
                      rank.rankdata p3 true]).
Proof.
  intros Hnorm Hv.
  destruct (multimoora_ok n m mtx nmtx criteria mnorm Hnorm Hv)
    as [p1 [p2 [p3 [points [E1 [E2 [E3 [H1 [H2 [H3 [Ep E]]]]]]]]]]].
  destruct Hv as [Ha [Hn [Hm [Hp [Hc Hok]]]]].
  exists p1, p2, p3, points.
  split; [exact E1|]. split; [exact E2|]. split; [exact E3|].
  split; [now repeat split|].
  split; [|split; [|split; [|split; [exact Ep|split; [|exact E]]]]].
  - intros i Hi.
    assert (E1' := _ratio_ok n m nmtx criteria (Scalar 1) Ha Hc I). cbv zeta in E1'.
    rewrite E1 in E1'. injection E1' as _ B.
    change (map (Rmult 1) (map IZR criteria)) with (cweights_of (Scalar 1) criteria) in B.
    rewrite B, (ratio_points_nth n m) by (assumption || exact I).
    apply sum_upto_ext. intros j Hj. cbn [weight_of]. ring.
  - intros i Hi.
    assert (E2' := _refpoint_ok n m nmtx criteria (Scalar 1) Ha Hn Hm Hc I).
    rewrite E2 in E2'. injection E2' as _ ->.
    assert (S := refpoint_points_spec n m nmtx criteria (Scalar 1) i Ha Hn Hm Hc I Hi).
    revert S. apply is_max_of_ext. intros j Hj. cbn [weight_of]. f_equal. ring.
  - destruct (_fmf_score n m nmtx criteria Ha Hp Hc Hok) as [p3' [E3' [_ Hs]]].
    rewrite E3 in E3'. injection E3' as _ ->. exact Hs.
  - destruct (pairwise_points_ok
                (np.transpose [rank.rankdata p1 true; rank.rankdata p2 false;
                               rank.rankdata p3 true])) as [pts [Ep' [Hl _]]].
    rewrite Ep in Ep'. injection Ep' as ->.
    now rewrite Hl, transpose3_length, rankdata_length.
Qed.

(** C1. On an (n, m) matrix with at least one row and one column, m criteria
    and a weight argument: the reference-point step scores each alternative
    by its largest weighted deviation from the reference point and ranks
    ascending (rank 0 goes to the smallest deviation score, a smaller score
    gives a lower rank: no reversal); the ratio step scores by the weighted
    signed sum of the row and, on a strictly positive matrix with MAX / MIN
    criteria, the full multiplicative form scores by the difference of the
    sums of logarithms, and both rank descending (rank 0 goes to the largest
    score, a larger score gives a lower rank). *)
Theorem rank_directions
    (n m : nat) (nmtx : matrix) (criteria : list Z) (w : weight_arg) :
  is_matrix n m nmtx -> (1 <= n)%nat -> (1 <= m)%nat ->
  length criteria = m -> weights_ok m w ->
  (exists rnk points reference,
     _refpoint nmtx criteria w = Ok (rnk, points) /\ length points = n /\
     length reference = m /\
     (forall j, (j < m)%nat ->
        if Z.eqb (nth j criteria 0%Z) util.MAX
        then is_max_of (at_ reference j) n (fun i => entry nmtx i j)
        else is_min_of (at_ reference j) n (fun i => entry nmtx i j)) /\
     (forall i, (i < n)%nat ->
        is_max_of (at_ points i) m
          (fun j => Rabs (weight_of w j * (entry nmtx i j - at_ reference j)))) /\
     rnk = rank.rankdata points false /\ ranks_ascending rnk points) /\
  (exists rnk points,
     _ratio nmtx criteria w = Ok (rnk, points) /\ length points = n /\
     (forall i, (i < n)%nat ->
        at_ points i =
        sum_upto m (fun j => entry nmtx i j * (weight_of w j * IZR (nth j criteria 0%Z)))) /\
     rnk = rank.rankdata points true /\ ranks_descending rnk points) /\
  (positive nmtx -> criteria_ok criteria ->
   exists rnk points,
     _fmf nmtx criteria = Ok (rnk, points) /\ length points = n /\
     (forall i, (i < n)%nat ->
        at_ points i = mixed_formula criteria nmtx i + fmf_offset criteria) /\
     rnk = rank.rankdata points true /\ ranks_descending rnk points).
Proof.
  intros Ha Hn Hm Hc Hw. assert (Hl : length nmtx = n) by apply Ha.
  split; [|split].
  - exists (rank.rankdata (refpoint_points nmtx criteria w) false),
           (refpoint_points nmtx criteria w), (reference_of nmtx criteria).
    split; [now apply (_refpoint_ok n m)|].
    split; [now rewrite refpoint_points_length|].
    split; [now apply (reference_of_length n m)|].
    split; [intros j Hj; now apply (reference_of_spec n m)|].
    split; [intros i Hi; now apply (refpoint_points_spec n m)|].
    split; [reflexivity|apply rankdata_ascending].
  - eexists _, _. split; [now apply (_ratio_ok n m)|].
    split; [now rewrite length_map|].
    split; [intros i Hi; now apply (ratio_points_nth n m)|].
    split; [reflexivity|apply rankdata_descending].
  - intros Hp Hok.
    destruct (_fmf_score n m nmtx criteria Ha Hp Hc Hok) as [pts [E [Hlen Hs]]].
    exists (rank.rankdata pts true), pts.
    split; [exact E|]. split; [exact Hlen|]. split; [exact Hs|].
    split; [reflexivity|apply rankdata_descending].
Qed.

(** C2. On a valid input of n alternatives, the rows of the rank matrix of
    [multimoora] are the ranks that the ratio, reference-point and full
    multiplicative steps give to each alternative; the loop goes through
    every pair (i, j), i < j < n, once; a turn of the loop adds exactly one
    point, to i when the dominance value of the rows of i and j is strictly
    positive and to j otherwise (a tie included), and changes no other
    entry; an alternative's tally is the number of pairs it takes; and the
    final rank vector is [rankdata] of the tally with [reverse=True], so that
    more points give a lower rank. *)
Theorem multimoora_pairwise_voting
    (n m : nat) (mtx nmtx : matrix) (criteria : list Z)
    (mnorm : matrix -> result matrix) :
  mnorm mtx = Ok nmtx -> valid_input n m nmtx criteria ->
  exists final rank_mtx points ratio_rank refpoint_rank fmf_rank p1 p2 p3,
    multimoora mtx criteria mnorm = Ok (final, rank_mtx) /\
    _ratio nmtx criteria (Scalar 1) = Ok (ratio_rank, p1) /\
    _refpoint nmtx criteria (Scalar 1) = Ok (refpoint_rank, p2) /\
    _fmf nmtx criteria = Ok (fmf_rank, p3) /\
    (length ratio_rank = n /\ length refpoint_rank = n /\ length fmf_rank = n) /\
    length rank_mtx = n /\
    (forall i, (i < n)%nat ->
       nth_error rank_mtx i = Some (rank_row ratio_rank refpoint_rank fmf_rank i)) /\
    pairwise_points rank_mtx = Ok points /\ length points = n /\
    NoDup (combinations2 n) /\
    (forall i j, In (i, j) (combinations2 n) <-> (i < j)%nat /\ (j < n)%nat) /\
    (forall pts i j, length pts = n -> (i < j)%nat -> (j < n)%nat ->
       exists pts',
         vote rank_mtx pts (i, j) = Ok pts' /\ length pts' = n /\
         Rsum pts' = Rsum pts + 1 /\
         forall k,
           at_ pts' k =
           at_ pts k +
           (if Nat.eqb (if Z.ltb 0 (rank.dominance
                                      (rank_row ratio_rank refpoint_rank fmf_rank i)
                                      (rank_row ratio_rank refpoint_rank fmf_rank j))
                        then i else j) k
            then 1 else 0)) /\
    (forall i j,
       winner rank_mtx (i, j) =
       if Z.ltb 0 (rank.dominance (nth i rank_mtx []) (nth j rank_mtx []))
       then i else j) /\
    (forall k, (k < n)%nat ->
       at_ points k =
       INR (length (filter (fun idx => Nat.eqb (winner rank_mtx idx) k)
                           (combinations2 n)))) /\
    (forall k, (k < n)%nat ->
       at_ points k =
       INR (length (filter
                      (fun j => Z.ltb 0 (rank.dominance
                                           (rank_row ratio_rank refpoint_rank fmf_rank k)
                                           (rank_row ratio_rank refpoint_rank fmf_rank j)))
                      (seq (S k) (n - S k)))
            + length (filter
                        (fun i => negb (Z.ltb 0 (rank.dominance
                                           (rank_row ratio_rank refpoint_rank fmf_rank i)
                                           (rank_row ratio_rank refpoint_rank fmf_rank k))))
                        (seq 0 k)))) /\
    final = rank.rankdata points true /\
    ranks_descending final points.
Proof.
  intros Hnorm Hv.
  destruct (multimoora_steps n m mtx nmtx criteria mnorm Hnorm Hv)
    as [p1 [p2 [p3 [points [E1 [E2 [E3 [[H1 [H2 H3]] [_ [_ [_ [Ep [Hlp E]]]]]]]]]]]]].
  set (r1 := rank.rankdata p1 true) in *.
  set (r2 := rank.rankdata p2 false) in *.
  set (r3 := rank.rankdata p3 true) in *.
  set (rank_mtx := np.transpose [r1; r2; r3]) in *.
  assert (L1 : length r1 = n) by (unfold r1; now rewrite rankdata_length).
  assert (L2 : length r2 = n) by (unfold r2; now rewrite rankdata_length).
  assert (L3 : length r3 = n) by (unfold r3; now rewrite rankdata_length).
  assert (Hrl : length rank_mtx = n).
  { unfold rank_mtx. now rewrite transpose3_length. }
  assert (Hrow : forall i, (i < n)%nat -> nth i rank_mtx [] = rank_row r1 r2 r3 i).
  { intros i Hi. unfold rank_mtx. rewrite transpose3_nth by lia. reflexivity. }
  destruct (pairwise_points_ok rank_mtx) as [points' [Ep' [Hl [_ Hat]]]].
  rewrite Ep in Ep'. injection Ep' as <-. rewrite Hrl in *.
  exists (rank.rankdata points true), rank_mtx, points, r1, r2, r3, p1, p2, p3.
  split; [exact E|]. split; [exact E1|]. split; [exact E2|]. split; [exact E3|].
  split; [now repeat split|]. split; [exact Hrl|].
  split; [intros i Hi; unfold rank_mtx; apply transpose3_nth_error; lia|].
  split; [exact Ep|]. split; [exact Hl|].
  split; [apply NoDup_combinations2|]. split; [apply in_combinations2|].
  split.
  { intros pts i j Hpts Hij Hj.
    destruct (vote_ok rank_mtx pts (i, j)) as [pts' [Ev [Hl' [Hs Hk]]]];
      [simpl; lia|simpl; lia|congruence|].
    exists pts'. split; [exact Ev|]. split; [congruence|]. split; [exact Hs|].
    intros k. rewrite Hk. unfold winner. cbn [fst snd].
    rewrite !Hrow by lia. reflexivity. }
  split; [reflexivity|]. split; [intros k _; apply Hat|].
  split.
  { intros k Hk. rewrite Hat, (pairs_won_formula rank_mtx n k Hk).
    do 2 f_equal; f_equal.
    - apply filter_ext_in. intros j Hj. apply in_seq in Hj. unfold beats.
      rewrite !Hrow by lia. reflexivity.
    - apply filter_ext_in. intros i Hi. apply in_seq in Hi. unfold beats.
      rewrite !Hrow by lia. reflexivity. }
  split; [reflexivity|apply rankdata_descending].
Qed.

(** C7. On a valid input, [multimoora] applies the normalizer to the input
    matrix and to nothing else (its result depends on the normalizer only
    through the normalized input matrix), runs the ratio, reference-point
    and full multiplicative steps on that one normalized matrix, the first
    two with the unit weight (as the public entry points do when no weights
    are given: the ratio scores are the signed sums of the rows, the
    reference-point scores the largest unweighted deviations), and returns
    the rank matrix of n rows and 3 columns (the steps do not normalize
    again: on the normalized matrix with the identity for normalizer the
    result is the same): each of the three rank vectors
    has n entries, every row has 3 entries, row i is the ratio rank, the
    reference-point rank and the FMF rank of alternative i, and the columns
    0, 1 and 2 are the ratio, reference-point and FMF rank vectors. *)
Theorem multimoora_rank_matrix
    (n m : nat) (mtx nmtx : matrix) (criteria : list Z)
    (mnorm : matrix -> result matrix) :
  mnorm mtx = Ok nmtx -> valid_input n m nmtx criteria ->
  exists final rank_mtx ratio_rank refpoint_rank fmf_rank p1 p2 p3 reference,
    multimoora mtx criteria mnorm = Ok (final, rank_mtx) /\
    _ratio nmtx criteria (Scalar 1) = Ok (ratio_rank, p1) /\
    _refpoint nmtx criteria (Scalar 1) = Ok (refpoint_rank, p2) /\
    _fmf nmtx criteria = Ok (fmf_rank, p3) /\
    (forall wnorm, ratio mtx criteria None mnorm wnorm = Ok (ratio_rank, p1)) /\
    (forall wnorm, refpoint mtx criteria None mnorm wnorm = Ok (refpoint_rank, p2)) /\
    (forall i, (i < n)%nat ->
       at_ p1 i = sum_upto m (fun j => entry nmtx i j * IZR (nth j criteria 0%Z))) /\
    (length reference = m /\
     (forall j, (j < m)%nat ->
        if Z.eqb (nth j criteria 0%Z) util.MAX
        then is_max_of (at_ reference j) n (fun i => entry nmtx i j)
        else is_min_of (at_ reference j) n (fun i => entry nmtx i j)) /\
     forall i, (i < n)%nat ->
       is_max_of (at_ p2 i) m (fun j => Rabs (entry nmtx i j - at_ reference j))) /\
    (forall i, (i < n)%nat ->
       at_ p3 i = mixed_formula criteria nmtx i + fmf_offset criteria) /\
    (ratio_rank = rank.rankdata p1 true /\ refpoint_rank = rank.rankdata p2 false /\
     fmf_rank = rank.rankdata p3 true) /\
    (length ratio_rank = n /\ length refpoint_rank = n /\ length fmf_rank = n) /\
    length rank_mtx = n /\
    Forall (fun row => length row = 3%nat) rank_mtx /\
    (forall i, (i < n)%nat ->
       nth_error rank_mtx i = Some (rank_row ratio_rank refpoint_rank fmf_rank i)) /\
    (forall i, (i < n)%nat ->
       nth i rank_mtx [] =
       [nth i ratio_rank 0; nth i refpoint_rank 0; nth i fmf_rank 0]%nat) /\
    (rank_column 0 rank_mtx = ratio_rank /\ rank_column 1 rank_mtx = refpoint_rank /\
     rank_column 2 rank_mtx = fmf_rank) /\
    multimoora nmtx criteria (fun a => Ok a) = multimoora mtx criteria mnorm /\
    (forall mnorm' : matrix -> result matrix,
       mnorm' mtx = mnorm mtx ->
       multimoora mtx criteria mnorm' = multimoora mtx criteria mnorm).
Proof.
  intros Hnorm Hv.
  destruct (multimoora_steps n m mtx nmtx criteria mnorm Hnorm Hv)
    as [p1 [p2 [p3 [points [E1 [E2 [E3 [[H1 [H2 H3]] [S1 [S2 [S3 [Ep [Hlp E]]]]]]]]]]]]].
  destruct Hv as [Ha [Hn [Hm [Hp [Hc Hok]]]]].
  set (r1 := rank.rankdata p1 true) in *.
  set (r2 := rank.rankdata p2 false) in *.
  set (r3 := rank.rankdata p3 true) in *.
  assert (L1 : length r1 = n) by (unfold r1; now rewrite rankdata_length).
  assert (L2 : length r2 = n) by (unfold r2; now rewrite rankdata_length).
  assert (L3 : length r3 = n) by (unfold r3; now rewrite rankdata_length).
  exists (rank.rankdata points true), (np.transpose [r1; r2; r3]),
         r1, r2, r3, p1, p2, p3, (reference_of nmtx criteria).
  split; [exact E|]. split; [exact E1|]. split; [exact E2|]. split; [exact E3|].
  split.
  { intros wnorm. unfold ratio. rewrite Hnorm. cbn [bind].
    rewrite (criteriarr_ok criteria Hok). cbn [bind]. exact E1. }
  split.
  { intros wnorm. unfold refpoint. rewrite Hnorm. cbn [bind].
    rewrite (criteriarr_ok criteria Hok). cbn [bind]. exact E2. }
  split; [exact S1|].
  split.
  { split; [now apply (reference_of_length n m)|].
    split; [intros j Hj; now apply (reference_of_spec n m)|exact S2]. }
  split; [exact S3|].
  split; [now repeat split|]. split; [now repeat split|].
  split; [now rewrite transpose3_length|].
  split; [apply transpose3_rows|].
  split; [intros i Hi; apply transpose3_nth_error; lia|].
  split; [intros i Hi; apply transpose3_nth; lia|].
  split; [apply transpose3_columns; congruence|].
  split; [unfold multimoora; now rewrite Hnorm|].
  intros mnorm' Hm'. unfold multimoora. now rewrite Hm'.
Qed.

(** ** The theorems on the three alternatives *)

Lemma rank_directions_witness :
  is_matrix 3 2 [[4 / 9; 6 / 11]; [1 / 9; 2 / 11]; [8 / 9; 9 / 11]] /\
  positive [[4 / 9; 6 / 11]; [1 / 9; 2 / 11]; [8 / 9; 9 / 11]] /\
  criteria_ok [util.MAX; util.MIN] /\ weights_ok 2 (Vector [2 / 3; 1 / 3]) /\
  (exists rnk points,
     _refpoint [[4 / 9; 6 / 11]; [1 / 9; 2 / 11]; [8 / 9; 9 / 11]] [util.MAX; util.MIN]
       (Vector [2 / 3; 1 / 3]) = Ok (rnk, points) /\
     rnk = rank.rankdata points false /\ ranks_ascending rnk points /\
     points = [8 / 27; 14 / 27; 7 / 33] /\ rnk = [1; 2; 0]%nat) /\
  (exists rnk points,
     _ratio [[4 / 9; 6 / 11]; [1 / 9; 2 / 11]; [8 / 9; 9 / 11]] [util.MAX; util.MIN]
       (Vector [2 / 3; 1 / 3]) = Ok (rnk, points) /\
     rnk = rank.rankdata points true /\ ranks_descending rnk points /\
     points = [34 / 297; 4 / 297; 95 / 297] /\ rnk = [1; 2; 0]%nat) /\
  (exists rnk points,
     _fmf [[4 / 9; 6 / 11]; [1 / 9; 2 / 11]; [8 / 9; 9 / 11]] [util.MAX; util.MIN]
       = Ok (rnk, points) /\
     rnk = rank.rankdata points true /\ ranks_descending rnk points /\
     points = [ln (4 / 9) - ln (6 / 11); ln (1 / 9) - ln (2 / 11);
               ln (8 / 9) - ln (9 / 11)] /\
     rnk = [1; 2; 0]%nat).
Proof.
  assert (Hm : is_matrix 3 2 [[4 / 9; 6 / 11]; [1 / 9; 2 / 11]; [8 / 9; 9 / 11]]) by shape.
  assert (Hp : positive [[4 / 9; 6 / 11]; [1 / 9; 2 / 11]; [8 / 9; 9 / 11]])
    by all_positive.
  assert (Hc : criteria_ok [util.MAX; util.MIN]) by all_criteria.
  assert (Hw : weights_ok 2 (Vector [2 / 3; 1 / 3])) by reflexivity.
  destruct (rank_directions 3 2 _ [util.MAX; util.MIN] (Vector [2 / 3; 1 / 3])
              Hm ltac:(lia) ltac:(lia) eq_refl Hw)
    as [[r2 [p2 [ref [E2 [_ [_ [_ [_ [R2 A2]]]]]]]]] [[r1 [p1 [E1 [_ [_ [R1 A1]]]]]] F]].
  destruct (F Hp Hc) as [r3 [p3 [E3 [_ [_ [R3 A3]]]]]].
  repeat (split; [assumption|]).
  split; [|split].
  - exists r2, p2. assert (X := E2). rewrite refpoint_weighted_example3 in X.
    injection X as X1 X2.
    split; [exact E2|]. split; [exact R2|]. split; [exact A2|]. split; now symmetry.
  - exists r1, p1. assert (X := E1). rewrite ratio_weighted_example3 in X.
    injection X as X1 X2.
    split; [exact E1|]. split; [exact R1|]. split; [exact A1|]. split; now symmetry.
  - exists r3, p3. assert (X := E3). rewrite fmf_example3 in X.
    injection X as X1 X2.
    split; [exact E3|]. split; [exact R3|]. split; [exact A3|]. split; now symmetry.
Defined.

Lemma multimoora_pairwise_voting_witness :
  norm.vector [[4; 6]; [1; 2]; [8; 9]]
    = Ok [[4 / 9; 6 / 11]; [1 / 9; 2 / 11]; [8 / 9; 9 / 11]] /\
  valid_input 3 2 [[4 / 9; 6 / 11]; [1 / 9; 2 / 11]; [8 / 9; 9 / 11]]
    [util.MAX; util.MIN] /\
  exists final rank_mtx points ratio_rank refpoint_rank fmf_rank,
    multimoora [[4; 6]; [1; 2]; [8; 9]] [util.MAX; util.MIN] norm.vector
      = Ok (final, rank_mtx) /\
    (forall i, (i < 3)%nat ->
       nth_error rank_mtx i = Some (rank_row ratio_rank refpoint_rank fmf_rank i)) /\
    pairwise_points rank_mtx = Ok points /\
    (forall pts i j, length pts = 3%nat -> (i < j)%nat -> (j < 3)%nat ->
       exists pts',
         vote rank_mtx pts (i, j) = Ok pts' /\ length pts' = 3%nat /\
         Rsum pts' = Rsum pts + 1 /\
         forall k,
           at_ pts' k =
           at_ pts k +
           (if Nat.eqb (if Z.ltb 0 (rank.dominance
                                      (rank_row ratio_rank refpoint_rank fmf_rank i)
                                      (rank_row ratio_rank refpoint_rank fmf_rank j))
                        then i else j) k
            then 1 else 0)) /\
    final = rank.rankdata points true /\
    ratio_rank = [2; 1; 0]%nat /\ refpoint_rank = [0; 2; 1]%nat /\
    fmf_rank = [1; 2; 0]%nat /\
    rank_mtx = [[2; 0; 1]; [1; 2; 2]; [0; 1; 0]]%nat /\
    rank.dominance (rank_row ratio_rank refpoint_rank fmf_rank 0)
                   (rank_row ratio_rank refpoint_rank fmf_rank 1) = 1%Z /\
    rank.dominance (rank_row ratio_rank refpoint_rank fmf_rank 0)
                   (rank_row ratio_rank refpoint_rank fmf_rank 2) = (-1)%Z /\
    rank.dominance (rank_row ratio_rank refpoint_rank fmf_rank 1)
                   (rank_row ratio_rank refpoint_rank fmf_rank 2) = (-3)%Z /\
    points = [1; 0; 2] /\ final = [1; 2; 0]%nat.
Proof.
  split; [exact vector_norm_example3|]. split; [exact valid_input_example3|].
  destruct (multimoora_pairwise_voting 3 2 [[4; 6]; [1; 2]; [8; 9]] _
              [util.MAX; util.MIN] norm.vector vector_norm_example3 valid_input_example3)
    as [final [rank_mtx [points [r1 [r2 [r3 [p1 [p2 [p3
         [E [E1 [E2 [E3 [_ [_ [Hrow [Ep [_ [_ [_ [Hvote [_ [_ [_ [Ef _]]]]]]]]]]]]]]]]]]]]]]]]].
  exists final, rank_mtx, points, r1, r2, r3.
  assert (X := E). rewrite multimoora_example3 in X. injection X as X1 X2.
  assert (Y1 := E1). rewrite ratio_example3 in Y1. injection Y1 as Y1 _.
  assert (Y2 := E2). rewrite refpoint_example3 in Y2. injection Y2 as Y2 _.
  assert (Y3 := E3). rewrite fmf_example3 in Y3. injection Y3 as Y3 _.
  assert (Z1 := Ep). rewrite <- X2, pairwise_points_example3 in Z1. injection Z1 as Z1.
  split; [exact E|]. split; [exact Hrow|]. split; [exact Ep|]. split; [exact Hvote|].
  split; [exact Ef|].
  split; [now symmetry|]. split; [now symmetry|]. split; [now symmetry|].
  split; [now symmetry|].
  rewrite <- Y1, <- Y2, <- Y3.
  split; [reflexivity|]. split; [reflexivity|]. split; [reflexivity|].
  split; now symmetry.
Defined.

Lemma multimoora_rank_matrix_witness :
  norm.vector [[4; 6]; [1; 2]; [8; 9]]
    = Ok [[4 / 9; 6 / 11]; [1 / 9; 2 / 11]; [8 / 9; 9 / 11]] /\
  valid_input 3 2 [[4 / 9; 6 / 11]; [1 / 9; 2 / 11]; [8 / 9; 9 / 11]]
    [util.MAX; util.MIN] /\
  exists final rank_mtx ratio_rank refpoint_rank fmf_rank p1 p2 p3,
    multimoora [[4; 6]; [1; 2]; [8; 9]] [util.MAX; util.MIN] norm.vector
      = Ok (final, rank_mtx) /\
    _ratio [[4 / 9; 6 / 11]; [1 / 9; 2 / 11]; [8 / 9; 9 / 11]] [util.MAX; util.MIN]
      (Scalar 1) = Ok (ratio_rank, p1) /\
    _refpoint [[4 / 9; 6 / 11]; [1 / 9; 2 / 11]; [8 / 9; 9 / 11]] [util.MAX; util.MIN]
      (Scalar 1) = Ok (refpoint_rank, p2) /\
    _fmf [[4 / 9; 6 / 11]; [1 / 9; 2 / 11]; [8 / 9; 9 / 11]] [util.MAX; util.MIN]
      = Ok (fmf_rank, p3) /\
    (length ratio_rank = 3%nat /\ length refpoint_rank = 3%nat /\
     length fmf_rank = 3%nat) /\
    length rank_mtx = 3%nat /\
    Forall (fun row => length row = 3%nat) rank_mtx /\
    (forall i, (i < 3)%nat ->
       nth_error rank_mtx i = Some (rank_row ratio_rank refpoint_rank fmf_rank i)) /\
    (rank_column 0 rank_mtx = ratio_rank /\ rank_column 1 rank_mtx = refpoint_rank /\
     rank_column 2 rank_mtx = fmf_rank) /\
    ratio_rank = [2; 1; 0]%nat /\ refpoint_rank = [0; 2; 1]%nat /\
    fmf_rank = [1; 2; 0]%nat /\
    p1 = [- 10 / 99; - 7 / 99; 7 / 99] /\ p2 = [4 / 9; 7 / 9; 7 / 11] /\
    rank_mtx = [[2; 0; 1]; [1; 2; 2]; [0; 1; 0]]%nat.
Proof.
  split; [exact vector_norm_example3|]. split; [exact valid_input_example3|].
  destruct (multimoora_rank_matrix 3 2 [[4; 6]; [1; 2]; [8; 9]] _ [util.MAX; util.MIN]
              norm.vector vector_norm_example3 valid_input_example3)
    as [final [rank_mtx [r1 [r2 [r3 [p1 [p2 [p3 [ref
         [E [E1 [E2 [E3 [_ [_ [_ [_ [_ [_ [HL [Hl [Hrows [Hrow [_ [Hcol _]]]]]]]]]]]]]]]]]]]]]]]]].
  exists final, rank_mtx, r1, r2, r3, p1, p2, p3.
  assert (X := E). rewrite multimoora_example3 in X. injection X as X1 X2.
  assert (Y1 := E1). rewrite ratio_example3 in Y1. injection Y1 as Y1 Q1.
  assert (Y2 := E2). rewrite refpoint_example3 in Y2. injection Y2 as Y2 Q2.
  assert (Y3 := E3). rewrite fmf_example3 in Y3. injection Y3 as Y3 _.
  split; [exact E|]. split; [exact E1|]. split; [exact E2|]. split; [exact E3|].
  split; [exact HL|]. split; [exact Hl|]. split; [exact Hrows|]. split; [exact Hrow|].
  split; [exact Hcol|].
  repeat split; now symmetry.
Defined.

(** ** The decision makers on the rank matrix *)

Module solvers.
Import String.

(** X17. On a strictly positive matrix with one MAX / MIN criterion per
    column the four decision makers return; [RatioMOORA] and [RefPointMOORA]
    called without weights and [FMFMOORA] return the ranks and scores of the
    three steps on the vector-normalized matrix (signed sums of the rows,
    largest deviations from the reference point, differences of sums of
    logarithms), one rank per alternative; the rank matrix of [MultiMOORA]
    has a row of 3 entries per alternative and its columns 0, 1 and 2 are
    these three rank vectors; [FMFMOORA] and [MultiMOORA] do not read their
    weights. *)
Theorem rank_matrix_columns
    (n m : nat) (mtx : matrix) (criteria : list Z) (w w' : option vec) :
  is_matrix n m mtx -> (1 <= n)%nat -> (1 <= m)%nat -> positive mtx ->
  List.length criteria = m -> criteria_ok criteria ->
  exists nmtx final rank_mtx r1 p1 r2 p2 r3 p3,
    norm.vector mtx = Ok nmtx /\
    MultiMOORA.solve mtx criteria w
      = Ok (None, final, [("rank_mtx"%string, Ranks rank_mtx)]) /\
    RatioMOORA.solve mtx criteria None
      = Ok (None, r1, [("points"%string, Scores p1)]) /\
    RefPointMOORA.solve mtx criteria None
      = Ok (None, r2, [("points"%string, Scores p2)]) /\
    FMFMOORA.solve mtx criteria w'
      = Ok (None, r3, [("points"%string, Scores p3)]) /\
    (r1 = rank.rankdata p1 true /\ r2 = rank.rankdata p2 false /\
     r3 = rank.rankdata p3 true) /\
    (forall i, (i < n)%nat ->
       at_ p1 i = sum_upto m (fun j => entry nmtx i j * IZR (nth j criteria 0%Z))) /\
    (forall i, (i < n)%nat ->
       is_max_of (at_ p2 i) m
         (fun j => Rabs (entry nmtx i j - at_ (reference_of nmtx criteria) j))) /\
    (forall i, (i < n)%nat ->
       at_ p3 i = mixed_formula criteria nmtx i + fmf_offset criteria) /\
    (List.length r1 = n /\ List.length r2 = n /\ List.length r3 = n) /\
    List.length final = n /\ List.length rank_mtx = n /\
    Forall (fun row => List.length row = 3%nat) rank_mtx /\
    (forall i, (i < n)%nat -> nth_error rank_mtx i = Some (rank_row r1 r2 r3 i)) /\
    (forall i, (i < n)%nat ->
       nth i rank_mtx [] = [nth i r1 0; nth i r2 0; nth i r3 0]%nat) /\
    (rank_column 0 rank_mtx = r1 /\ rank_column 1 rank_mtx = r2 /\
     rank_column 2 rank_mtx = r3).
Proof.
  intros Ha Hn Hm Hp Hc Hok.
  destruct (vector_positive n m mtx Ha (fun i j Hi Hj => positive_entry n m mtx i j Ha Hp Hi Hj))
    as [nmtx [Enorm [Ha' Hpos']]].
  assert (Hv : valid_input n m nmtx criteria).
  { unfold valid_input. repeat split; try assumption; try apply Ha'.
    now apply (positive_of_entries n m). }
  destruct (multimoora_steps n m mtx nmtx criteria norm.vector Enorm Hv)
    as [p1 [p2 [p3 [points [E1 [E2 [E3 [[H1 [H2 H3]] [S1 [S2 [S3 [Ep [Hlp E]]]]]]]]]]]]].
  set (r1 := rank.rankdata p1 true) in *.
  set (r2 := rank.rankdata p2 false) in *.
  set (r3 := rank.rankdata p3 true) in *.
  assert (L1 : List.length r1 = n) by (unfold r1; now rewrite rankdata_length).
  assert (L2 : List.length r2 = n) by (unfold r2; now rewrite rankdata_length).
  assert (L3 : List.length r3 = n) by (unfold r3; now rewrite rankdata_length).
  exists nmtx, (rank.rankdata points true), (np.transpose [r1; r2; r3]),
         r1, p1, r2, p2, r3, p3.
  split; [exact Enorm|].
  split; [unfold MultiMOORA.solve; now rewrite E|].
  split.
  { unfold RatioMOORA.solve, ratio. rewrite Enorm. cbn [bind].
    rewrite (criteriarr_ok criteria Hok). cbn [bind]. now rewrite E1. }
  split.
  { unfold RefPointMOORA.solve, refpoint. rewrite Enorm. cbn [bind].
    rewrite (criteriarr_ok criteria Hok). cbn [bind]. now rewrite E2. }
  split.
  { unfold FMFMOORA.solve, fmf. rewrite (corrections_positive n m) by assumption.
    rewrite Enorm. cbn [bind].
    rewrite (criteriarr_ok criteria Hok). cbn [bind]. now rewrite E3. }
  split; [now repeat split|].
  split; [exact S1|]. split; [exact S2|]. split; [exact S3|].
  split; [now repeat split|].
  split; [now rewrite rankdata_length|].
  split; [now rewrite transpose3_length|].
  split; [apply transpose3_rows|].
  split; [intros i Hi; apply transpose3_nth_error; lia|].
  split; [intros i Hi; apply transpose3_nth; lia|].
  apply transpose3_columns; congruence.
Qed.

Lemma rank_matrix_columns_witness :
  is_matrix 3 2 [[4; 6]; [1; 2]; [8; 9]] /\ positive [[4; 6]; [1; 2]; [8; 9]] /\
  criteria_ok [util.MAX; util.MIN] /\
  exists final rank_mtx r1 p1 r2 p2 r3 p3,
    MultiMOORA.solve [[4; 6]; [1; 2]; [8; 9]] [util.MAX; util.MIN] (Some [1; 2])
      = Ok (None, final, [("rank_mtx"%string, Ranks rank_mtx)]) /\
    RatioMOORA.solve [[4; 6]; [1; 2]; [8; 9]] [util.MAX; util.MIN] None
      = Ok (None, r1, [("points"%string, Scores p1)]) /\
    RefPointMOORA.solve [[4; 6]; [1; 2]; [8; 9]] [util.MAX; util.MIN] None
      = Ok (None, r2, [("points"%string, Scores p2)]) /\
    FMFMOORA.solve [[4; 6]; [1; 2]; [8; 9]] [util.MAX; util.MIN] (Some [0; 0])
      = Ok (None, r3, [("points"%string, Scores p3)]) /\
    (List.length r1 = 3%nat /\ List.length r2 = 3%nat /\ List.length r3 = 3%nat) /\
    List.length final = 3%nat /\ List.length rank_mtx = 3%nat /\
    Forall (fun row => List.length row = 3%nat) rank_mtx /\
    (rank_column 0 rank_mtx = r1 /\ rank_column 1 rank_mtx = r2 /\
     rank_column 2 rank_mtx = r3) /\
    final = [1; 2; 0]%nat /\
    rank_mtx = [[2; 0; 1]; [1; 2; 2]; [0; 1; 0]]%nat /\
    r1 = [2; 1; 0]%nat /\ r2 = [0; 2; 1]%nat /\ r3 = [1; 2; 0]%nat.
Proof.
  assert (Hm : is_matrix 3 2 [[4; 6]; [1; 2]; [8; 9]]) by shape.
  assert (Hp : positive [[4; 6]; [1; 2]; [8; 9]]) by all_positive.
  assert (Hc : criteria_ok [util.MAX; util.MIN]) by all_criteria.
  repeat (split; [assumption|]).
  destruct (rank_matrix_columns 3 2 _ [util.MAX; util.MIN] (Some [1; 2]) (Some [0; 0])
              Hm ltac:(lia) ltac:(lia) Hp eq_refl Hc)
    as [nmtx [final [rank_mtx [r1 [p1 [r2 [p2 [r3 [p3
         [En [E [E1 [E2 [E3 [_ [_ [_ [_ [HL [Hf [Hl [Hrows [_ [_ Hcol]]]]]]]]]]]]]]]]]]]]]]]].
  exists final, rank_mtx, r1, p1, r2, p2, r3, p3.
  assert (X := E). unfold MultiMOORA.solve in X. rewrite multimoora_example3 in X.
  cbn [bind] in X. injection X as X1 X2.
  assert (Hcol' := Hcol). rewrite <- X2 in Hcol'. destruct Hcol' as [C1 [C2 C3]].
  split; [exact E|]. split; [exact E1|]. split; [exact E2|]. split; [exact E3|].
  split; [exact HL|]. split; [exact Hf|]. split; [exact Hl|]. split; [exact Hrows|].
  split; [exact Hcol|].
  split; [now symmetry|]. split; [now symmetry|].
  split; [now rewrite <- C1|]. split; [now rewrite <- C2|now rewrite <- C3].
Defined.

End solvers.
